(** * Restaurant analytics service: a shallow embedding of the query layer

    The development follows [backend/app/services/analytics_service.py]
    (the ORM "production" path), the request validation of
    [backend/app/api/v1/analytics.py] and [top_products] of the raw-SQL
    prototype in [app/routers/analytics.py].

    Conventions of the embedding:
    - a table is the list of its rows; a query is the list of rows it would
      return, and [query.filter(c)] keeps the rows on which [c] is true;
    - [DECIMAL] and [Float] columns, Python [Decimal] and [float] values are
      exact rationals ([Q]); no rounding is modelled;
    - a [DateTime] is an integer number of microseconds, and the clock is a
      function from the number of the reading to the time read;
    - a nullable column is an [option];
    - [ORDER BY] is a stable sort (SQL leaves the order of ties open);
    - Python exceptions and database errors are the [Raise] case of
      [result]. *)

From Stdlib Require Import List ZArith QArith String Ascii Bool Lia Lqa.
From Stdlib Require Import Permutation.
Import ListNotations.

Local Open Scope string_scope.
Local Open Scope Z_scope.

(** ** Schema ([app/models/models.py]) *)

Module Sale.
Record t := {
  id : Z;
  store_id : Z;
  customer_id : option Z;
  channel_id : Z;
  created_at : Z;
  sale_status_desc : string;
  total_discount : option Q;
  delivery_fee : option Q;
  total_amount : Q;
  production_seconds : option Z;
  delivery_seconds : option Z
}.
End Sale.

Module Store.
Record t := {
  id : Z;
  name : string;
  city : option string;
  state : option string
}.
End Store.

Module Channel.
Record t := {
  id : Z;
  name : string;
  type : option string
}.
End Channel.

Module Customer.
Record t := {
  id : Z;
  customer_name : option string;
  email : option string;
  phone_number : option string
}.
End Customer.

Module Product.
Record t := {
  id : Z;
  name : string;
  category_id : option Z
}.
End Product.

Module Category.
Record t := {
  id : Z;
  name : string
}.
End Category.

Module ProductSale.
Record t := {
  id : Z;
  sale_id : Z;
  product_id : Z;
  quantity : Q;
  base_price : Q;
  total_price : Q
}.
End ProductSale.

Module DeliveryAddress.
Record t := {
  id : Z;
  sale_id : Z;
  neighborhood : option string;
  city : option string
}.
End DeliveryAddress.

(** The session [self.db]: the tables the service reads. *)
Record Database := {
  sales : list Sale.t;
  stores : list Store.t;
  channels : list Channel.t;
  customers : list Customer.t;
  categories : list Category.t;
  products : list Product.t;
  product_sales : list ProductSale.t;
  delivery_addresses : list DeliveryAddress.t
}.

(** ** Filter model ([app/schemas/analytics.py]) *)

Module DateRangeFilter.
Record t := {
  start_date : option Z;
  end_date : option Z
}.
End DateRangeFilter.

Module DimensionFilter.
Record t := {
  store_ids : option (list Z);
  channel_ids : option (list Z);
  product_ids : option (list Z);
  category_ids : option (list Z);
  customer_ids : option (list Z);
  sale_status : option (list string)
}.

(** [DimensionFilter()]: every field defaults to [None]. *)
Definition empty : t :=
  {| store_ids := None; channel_ids := None; product_ids := None;
     category_ids := None; customer_ids := None; sale_status := None |}.
End DimensionFilter.

(** ** SQL and Python primitives *)

(** Python truthiness of an [Optional[List[_]]]: [None] and [[]] are falsy. *)
Definition truthy {A} (o : option (list A)) : bool :=
  match o with
  | Some (_ :: _) => true
  | _ => false
  end.

(** The list carried by a filter field (used only when it is truthy). *)
Definition elems {A} (o : option (list A)) : list A :=
  match o with
  | Some l => l
  | None => []
  end.

(** [column.in_(values)] on an integer column. *)
Definition in_ (x : Z) (values : list Z) : bool := existsb (Z.eqb x) values.

(** [column.in_(values)] on a string column. *)
Definition in_str (x : string) (values : list string) : bool :=
  existsb (String.eqb x) values.

(** [column.in_(values)] on a nullable column: [NULL IN (...)] is [NULL], and
    a row whose condition is not true is dropped. *)
Definition in_null (x : option Z) (values : list Z) : bool :=
  match x with
  | Some v => in_ v values
  | None => false
  end.

(** ** [AnalyticsService._apply_filters] *)

Section ApplyFilters.
(** The rows of the query and the [Sale] each of them carries. *)
Context {R : Type} (sale : R -> Sale.t).

Definition _apply_filters (query : list R)
    (date_range : option DateRangeFilter.t)
    (filters : option DimensionFilter.t) : list R :=
  let query :=
    match date_range with
    | Some dr =>
        let query :=
          match DateRangeFilter.start_date dr with
          | Some d => filter (fun r => d <=? Sale.created_at (sale r)) query
          | None => query
          end in
        match DateRangeFilter.end_date dr with
        | Some d => filter (fun r => Sale.created_at (sale r) <=? d) query
        | None => query
        end
    | None => query
    end in
  match filters with
  | Some f =>
      let query :=
        if truthy (DimensionFilter.store_ids f)
        then filter (fun r => in_ (Sale.store_id (sale r))
                                  (elems (DimensionFilter.store_ids f))) query
        else query in
      let query :=
        if truthy (DimensionFilter.channel_ids f)
        then filter (fun r => in_ (Sale.channel_id (sale r))
                                  (elems (DimensionFilter.channel_ids f))) query
        else query in
      let query :=
        if truthy (DimensionFilter.sale_status f)
        then filter (fun r => in_str (Sale.sale_status_desc (sale r))
                                     (elems (DimensionFilter.sale_status f))) query
        else query in
      if truthy (DimensionFilter.customer_ids f)
      then filter (fun r => in_null (Sale.customer_id (sale r))
                                    (elems (DimensionFilter.customer_ids f))) query
      else query
  | None => query
  end.
End ApplyFilters.

(** *** What [_apply_filters] keeps, as one predicate on the sale *)

(** A date bound: absent means unbounded on that side. *)
Definition date_ok (date_range : option DateRangeFilter.t) (s : Sale.t) : bool :=
  match date_range with
  | Some dr =>
      match DateRangeFilter.start_date dr with
      | Some d => d <=? Sale.created_at s
      | None => true
      end
      &&
      match DateRangeFilter.end_date dr with
      | Some d => Sale.created_at s <=? d
      | None => true
      end
  | None => true
  end.

(** A dimension: an absent or empty set does not restrict. *)
Definition dim_ok {A} (member : list A -> bool) (o : option (list A)) : bool :=
  if truthy o then member (elems o) else true.

(** The four dimensions [_apply_filters] looks at. *)
Definition dims_ok (filters : option DimensionFilter.t) (s : Sale.t) : bool :=
  match filters with
  | Some f =>
      dim_ok (in_ (Sale.store_id s)) (DimensionFilter.store_ids f)
      && dim_ok (in_ (Sale.channel_id s)) (DimensionFilter.channel_ids f)
      && dim_ok (in_str (Sale.sale_status_desc s)) (DimensionFilter.sale_status f)
      && dim_ok (in_null (Sale.customer_id s)) (DimensionFilter.customer_ids f)
  | None => true
  end.

Definition passes (date_range : option DateRangeFilter.t)
    (filters : option DimensionFilter.t) (s : Sale.t) : bool :=
  date_ok date_range s && dims_ok filters s.

(** *** The filter as the specification words it: six dimensions *)

(** The products on the line items of a sale. *)
Definition sale_product_ids (db : Database) (s : Sale.t) : list Z :=
  map ProductSale.product_id
      (filter (fun ps => ProductSale.sale_id ps =? Sale.id s) (product_sales db)).

(** The categories of those products. *)
Definition sale_category_ids (db : Database) (s : Sale.t) : list Z :=
  flat_map
    (fun pid =>
       flat_map (fun p => match Product.category_id p with
                          | Some c => [c]
                          | None => []
                          end)
                (filter (fun p => Product.id p =? pid) (products db)))
    (sale_product_ids db s).

(** Specification-side predicate: AND across the six dimensions named by the
    specification, IN within each; a sale meets a product (category) set when
    one of its line items does. *)
Definition spec_six_dimensions (db : Database) (f : DimensionFilter.t)
    (s : Sale.t) : bool :=
  dim_ok (in_ (Sale.store_id s)) (DimensionFilter.store_ids f)
  && dim_ok (in_ (Sale.channel_id s)) (DimensionFilter.channel_ids f)
  && dim_ok (fun ids => existsb (fun p => in_ p ids) (sale_product_ids db s))
            (DimensionFilter.product_ids f)
  && dim_ok (fun ids => existsb (fun c => in_ c ids) (sale_category_ids db s))
            (DimensionFilter.category_ids f)
  && dim_ok (in_null (Sale.customer_id s)) (DimensionFilter.customer_ids f)
  && dim_ok (in_str (Sale.sale_status_desc s)) (DimensionFilter.sale_status f).

(** ** Python exceptions *)

Inductive exn :=
| ZeroDivisionError   (* [Decimal / 0] *)
| TypeError           (* arithmetic on [None] *)
| ValueError          (* [int("x")] *)
| ValidationError     (* a response model refuses a field, or a request
                         parameter fails its declared constraint *)
| DBAPIError          (* the database refuses the statement: a division by
                         zero, a negative [LIMIT] *)
| OverflowError.      (* a [timedelta] or a [datetime] out of range *)

Inductive result (A : Type) :=
| Ok (a : A)
| Raise (e : exn).
Arguments Ok {A} a.
Arguments Raise {A} e.

Definition bind {A B} (c : result A) (k : A -> result B) : result B :=
  match c with
  | Ok a => k a
  | Raise e => Raise e
  end.

Notation "x <- c ;; k" := (bind c (fun x => k))
  (at level 61, c at next level, right associativity).

(** A list comprehension whose element expression may raise: the first
    exception aborts it. *)
Fixpoint mapM {A B} (f : A -> result B) (l : list A) : result (list B) :=
  match l with
  | [] => Ok []
  | x :: l' => y <- f x ;; ys <- mapM f l' ;; Ok (y :: ys)
  end.

(** ** Numbers *)

Definition Qlt_bool (a b : Q) : bool := negb (Qle_bool b a).

Definition Qsum (l : list Q) : Q := fold_right Qplus 0%Q l.

Definition Zsum (l : list Z) : Z := fold_right Z.add 0 l.

(** [float(x)]: exact in this embedding. *)
Definition float (x : Q) : Q := x.

(** [x or 0] on a numeric value that may be [None]: [None] and zero are
    falsy, so both give the integer [0]. *)
Definition or_zero (x : option Q) : Q :=
  match x with
  | Some q => if Qeq_bool q 0 then 0%Q else q
  | None => 0%Q
  end.

Definition or_zero_int (x : option Z) : Z :=
  match x with
  | Some n => if n =? 0 then 0 else n
  | None => 0
  end.

(** [a / b] on [Decimal]s. *)
Definition py_div (a b : Q) : result Q :=
  if Qeq_bool b 0 then Raise ZeroDivisionError else Ok (a / b)%Q.

(** ** SQL aggregates: [NULL]s are skipped; over no value the result is
    [NULL], except for [count]. *)

Fixpoint non_null {A} (l : list (option A)) : list A :=
  match l with
  | [] => []
  | Some x :: l' => x :: non_null l'
  | None :: l' => non_null l'
  end.

Definition sql_count {A} (l : list (option A)) : option Z :=
  Some (Z.of_nat (List.length (non_null l))).

Definition sql_sum (l : list (option Q)) : option Q :=
  match non_null l with
  | [] => None
  | vs => Some (Qsum vs)
  end.

Definition sql_sum_int (l : list (option Z)) : option Z :=
  match non_null l with
  | [] => None
  | vs => Some (Zsum vs)
  end.

Definition sql_avg (l : list (option Q)) : option Q :=
  match non_null l with
  | [] => None
  | vs => Some (Qsum vs / inject_Z (Z.of_nat (List.length vs)))%Q
  end.

Definition sql_max (l : list (option Z)) : option Z :=
  match non_null l with
  | [] => None
  | v :: vs => Some (fold_right Z.max v vs)
  end.

Definition sql_min (l : list (option Z)) : option Z :=
  match non_null l with
  | [] => None
  | v :: vs => Some (fold_right Z.min v vs)
  end.

(** [a + b] in SQL: [NULL] as soon as one side is. *)
Definition sql_add (a b : option Q) : option Q :=
  match a, b with
  | Some x, Some y => Some (x + y)%Q
  | _, _ => None
  end.

(** ** Relational operators *)

(** [query.join(B, on)]: an inner join. *)
Definition join {A B} (on : A -> B -> bool) (l : list A) (r : list B)
    : list (A * B) :=
  flat_map (fun a => map (pair a) (filter (on a) r)) l.

(** [query.outerjoin(B, on)]: a left outer join. *)
Definition outerjoin {A B} (on : A -> B -> bool) (l : list A) (r : list B)
    : list (A * option B) :=
  flat_map (fun a => match filter (on a) r with
                     | [] => [(a, None)]
                     | bs => map (fun b => (a, Some b)) bs
                     end) l.

(** [LIMIT n]: the database refuses a negative [n]. *)
Definition sql_limit {A} (n : Z) (l : list A) : result (list A) :=
  if n <? 0 then Raise DBAPIError else Ok (firstn (Z.to_nat n) l).

(** [a / b] on floating-point columns: the database refuses a zero divisor. *)
Definition sql_div (a b : Q) : result Q :=
  if Qeq_bool b 0 then Raise DBAPIError else Ok (a / b)%Q.

Section GroupBy.
Context {R K : Type} (K_eq_dec : forall x y : K, {x = y} + {x <> y}).

Definition same_key (key : R -> K) (k : K) (r : R) : bool :=
  if K_eq_dec (key r) k then true else false.

(** [query.group_by(key)]: one group per distinct key, with its rows. *)
Definition group_by (key : R -> K) (rows : list R) : list (K * list R) :=
  map (fun k => (k, filter (same_key key k) rows))
      (nodup K_eq_dec (map key rows)).
End GroupBy.

Section OrderBy.
Context {A : Type} (leb : A -> A -> bool).

Fixpoint insert_sorted (x : A) (l : list A) : list A :=
  match l with
  | [] => [x]
  | y :: l' => if leb x y then x :: l else y :: insert_sorted x l'
  end.

(** [query.order_by(...)]: rows that compare equal keep their order (SQL
    leaves the order of ties open). *)
Definition order_by (l : list A) : list A :=
  fold_right insert_sorted [] l.
End OrderBy.

(** Descending order on a nullable numeric key, [NULL]s first. *)
Definition desc_leb (a b : option Q) : bool :=
  match a, b with
  | None, _ => true
  | Some _, None => false
  | Some x, Some y => Qle_bool y x
  end.

Definition option_eq_dec {A} (A_eq_dec : forall x y : A, {x = y} + {x <> y})
    : forall x y : option A, {x = y} + {x <> y}.
Proof. decide equality. Defined.

Definition pair_eq_dec {A B} (A_eq_dec : forall x y : A, {x = y} + {x <> y})
    (B_eq_dec : forall x y : B, {x = y} + {x <> y})
    : forall x y : A * B, {x = y} + {x <> y}.
Proof. decide equality. Defined.

(** ** "Completed" in the two query layers *)

(** Production (ORM): [Sale.sale_status_desc == 'COMPLETED']. *)
Definition completed (s : Sale.t) : bool :=
  String.eqb (Sale.sale_status_desc s) "COMPLETED".

(** [LIKE]: [%] matches any run of characters, [_] one character, a
    backslash takes the next pattern character literally (a pattern that
    ends in a lone backslash matches nothing here). *)
Fixpoint like_star (rest : string -> bool) (s : string) : bool :=
  rest s ||
  match s with
  | EmptyString => false
  | String _ s' => like_star rest s'
  end.

Fixpoint like_at (escaped : bool) (pattern : string) : string -> bool :=
  match pattern with
  | EmptyString =>
      fun s => match s with
               | EmptyString => negb escaped
               | String _ _ => false
               end
  | String p pattern' =>
      if negb escaped && Ascii.eqb p "%"%char
      then like_star (like_at false pattern')
      else if negb escaped && Ascii.eqb p "\"%char
      then like_at true pattern'
      else
        fun s => match s with
                 | EmptyString => false
                 | String c s' =>
                     (negb escaped && Ascii.eqb p "_"%char || Ascii.eqb p c)
                     && like_at false pattern' s'
                 end
  end.

Definition like (s pattern : string) : bool := like_at false pattern s.

Definition lower_ascii (c : ascii) : ascii :=
  let n := nat_of_ascii c in
  if (65 <=? n)%nat && (n <=? 90)%nat then ascii_of_nat (n + 32) else c.

Fixpoint lower (s : string) : string :=
  match s with
  | EmptyString => EmptyString
  | String c s' => String (lower_ascii c) (lower s')
  end.

(** [s ILIKE pattern]: [LIKE] without regard to letter case. *)
Definition ilike (s pattern : string) : bool := like (lower s) (lower pattern).

(** Prototype (raw SQL): [s.sale_status_desc ILIKE 'completed']. *)
Definition completed_prototype (s : Sale.t) : bool :=
  ilike (Sale.sale_status_desc s) "completed".

(** ** Response models ([app/schemas/analytics.py]) *)

Module SalesOverviewResponse.
Record t := {
  total_sales : Z;
  total_revenue : Q;
  average_ticket : Q;
  completed_sales : Z;
  cancelled_sales : Z;
  total_discount : Q;
  total_delivery_fee : Q
}.
End SalesOverviewResponse.

Module ProductRankingItem.
Record t := {
  product_id : Z;
  product_name : string;
  category_name : option string;
  total_quantity : Q;
  total_revenue : Q;
  order_count : Z;
  average_price : Q
}.
End ProductRankingItem.

(** Response model of the prototype ([app/schemas.py]). *)
Module TopProductItem.
Record t := {
  product_id : Z;
  product_name : string;
  quantity : Q
}.
End TopProductItem.

Module ChannelPerformanceItem.
Record t := {
  channel_id : Z;
  channel_name : string;
  channel_type : string;
  total_sales : Z;
  total_revenue : Q;
  average_ticket : Q;
  revenue_percentage : Q
}.
End ChannelPerformanceItem.

Module StorePerformanceItem.
Record t := {
  store_id : Z;
  store_name : string;
  city : option string;
  state : option string;
  total_sales : Z;
  total_revenue : Q;
  average_ticket : Q;
  revenue_percentage : Q
}.
End StorePerformanceItem.

Module TimeSeriesDataPoint.
Record t := {
  date : string;
  sales_count : Z;
  revenue : Q;
  average_ticket : Q
}.
End TimeSeriesDataPoint.

Module TimeSeriesResponse.
Record t := {
  data : list TimeSeriesDataPoint.t;
  period_type : string
}.
End TimeSeriesResponse.

Module CustomerRetentionItem.
Record t := {
  customer_id : Z;
  customer_name : option string;
  email : option string;
  phone_number : option string;
  total_orders : Z;
  total_spent : Q;
  average_ticket : Q;
  last_order_date : Z;
  days_since_last_order : Z;
  first_order_date : Z
}.
End CustomerRetentionItem.

Module DeliveryPerformanceItem.
Record t := {
  neighborhood : option string;
  city : option string;
  total_deliveries : Z;
  avg_delivery_time_minutes : Q;
  avg_production_time_minutes : Q;
  total_delivery_time_minutes : Q
}.
End DeliveryPerformanceItem.

(** A required field of a response model: [None] is refused. *)
Definition required {A} (x : option A) : result A :=
  match x with
  | Some a => Ok a
  | None => Raise ValidationError
  end.

(** ** [AnalyticsService.get_sales_overview] *)

(** The single row of the aggregate query, as [query.first()] returns it. *)
Module OverviewRow.
Record t := {
  total_sales : option Z;
  total_revenue : option Q;
  average_ticket : option Q;
  completed_sales : option Z;
  cancelled_sales : option Z;
  total_discount : option Q;
  total_delivery_fee : option Q
}.
End OverviewRow.

(** [case((Sale.sale_status_desc == status, 1), else_=0)] *)
Definition case_status (status : string) (s : Sale.t) : option Z :=
  Some (if String.eqb (Sale.sale_status_desc s) status then 1 else 0).

Definition overview_row (query : list Sale.t) : OverviewRow.t :=
  {| OverviewRow.total_sales := sql_count (map (fun s => Some (Sale.id s)) query);
     OverviewRow.total_revenue :=
       sql_sum (map (fun s => Some (Sale.total_amount s)) query);
     OverviewRow.average_ticket :=
       sql_avg (map (fun s => Some (Sale.total_amount s)) query);
     OverviewRow.completed_sales := sql_sum_int (map (case_status "COMPLETED") query);
     OverviewRow.cancelled_sales := sql_sum_int (map (case_status "CANCELLED") query);
     OverviewRow.total_discount := sql_sum (map Sale.total_discount query);
     OverviewRow.total_delivery_fee := sql_sum (map Sale.delivery_fee query) |}.

Definition get_sales_overview (db : Database)
    (date_range : option DateRangeFilter.t)
    (filters : option DimensionFilter.t) : SalesOverviewResponse.t :=
  let query := sales db in
  let query := _apply_filters (fun s => s) query date_range filters in
  let result := overview_row query in
  {| SalesOverviewResponse.total_sales :=
       or_zero_int (OverviewRow.total_sales result);
     SalesOverviewResponse.total_revenue :=
       float (or_zero (OverviewRow.total_revenue result));
     SalesOverviewResponse.average_ticket :=
       float (or_zero (OverviewRow.average_ticket result));
     SalesOverviewResponse.completed_sales :=
       or_zero_int (OverviewRow.completed_sales result);
     SalesOverviewResponse.cancelled_sales :=
       or_zero_int (OverviewRow.cancelled_sales result);
     SalesOverviewResponse.total_discount :=
       float (or_zero (OverviewRow.total_discount result));
     SalesOverviewResponse.total_delivery_fee :=
       float (or_zero (OverviewRow.total_delivery_fee result)) |}.

(** ** [AnalyticsService.get_channel_performance] and
    [AnalyticsService.get_store_performance] *)

(** [func.sum(Sale.total_amount)] over the sales of a query. *)
Definition sum_total_amount {R} (sale : R -> Sale.t) (rows : list R) : option Q :=
  sql_sum (map (fun r => Some (Sale.total_amount (sale r))) rows).

Definition avg_total_amount {R} (sale : R -> Sale.t) (rows : list R) : option Q :=
  sql_avg (map (fun r => Some (Sale.total_amount (sale r))) rows).

Definition count_sale_id {R} (sale : R -> Sale.t) (rows : list R) : option Z :=
  sql_count (map (fun r => Some (Sale.id (sale r))) rows).

(** First query of both functions: the completed revenue under the filter,
    [total_revenue_query.scalar() or 0]. *)
Definition total_revenue_under (db : Database)
    (date_range : option DateRangeFilter.t)
    (filters : option DimensionFilter.t) : Q :=
  let total_revenue_query := sales db in
  let total_revenue_query :=
    _apply_filters (fun s => s) total_revenue_query date_range filters in
  let total_revenue_query := filter completed total_revenue_query in
  or_zero (sum_total_amount (fun s => s) total_revenue_query).

(** [(r.total_revenue / total_revenue * 100) if total_revenue > 0 else 0] *)
Definition percentage_of (r_total_revenue : option Q) (total_revenue : Q)
    : result Q :=
  if Qlt_bool 0 total_revenue
  then match r_total_revenue with
       | Some g => q <- py_div g total_revenue ;; Ok (q * 100)%Q
       | None => Raise TypeError
       end
  else Ok 0%Q.

Definition channel_key : Type := Z * string * option string.

Definition channel_key_eq_dec : forall x y : channel_key, {x = y} + {x <> y} :=
  pair_eq_dec (pair_eq_dec Z.eq_dec string_dec) (option_eq_dec string_dec).

Definition channel_key_of (r : Sale.t * Channel.t) : channel_key :=
  (Channel.id (snd r), Channel.name (snd r), Channel.type (snd r)).

(** [order_by(func.sum(Sale.total_amount).desc())] on groups. *)
Definition by_revenue_desc {K R} (sale : R -> Sale.t) (g1 g2 : K * list R) : bool :=
  desc_leb (sum_total_amount sale (snd g1)) (sum_total_amount sale (snd g2)).

(** The element of the comprehension: the item of a result row [r]. *)
Definition channel_performance_item (total_revenue : Q)
    (r : channel_key * list (Sale.t * Channel.t))
    : result ChannelPerformanceItem.t :=
  let '((channel_id, channel_name, channel_type), rows) := r in
  percentage <- percentage_of (sum_total_amount fst rows) total_revenue ;;
  channel_type <- required channel_type ;;
  Ok {| ChannelPerformanceItem.channel_id := channel_id;
        ChannelPerformanceItem.channel_name := channel_name;
        ChannelPerformanceItem.channel_type := channel_type;
        ChannelPerformanceItem.total_sales := or_zero_int (count_sale_id fst rows);
        ChannelPerformanceItem.total_revenue :=
          float (or_zero (sum_total_amount fst rows));
        ChannelPerformanceItem.average_ticket :=
          float (or_zero (avg_total_amount fst rows));
        ChannelPerformanceItem.revenue_percentage := float percentage |}.

Definition get_channel_performance (db : Database)
    (date_range : option DateRangeFilter.t)
    (filters : option DimensionFilter.t)
    : result (list ChannelPerformanceItem.t) :=
  let total_revenue := total_revenue_under db date_range filters in
  let query :=
    join (fun s c => Sale.channel_id s =? Channel.id c) (sales db) (channels db) in
  let query := _apply_filters fst query date_range filters in
  let query := filter (fun r => completed (fst r)) query in
  let query := group_by channel_key_eq_dec channel_key_of query in
  let query := order_by (by_revenue_desc fst) query in
  let results := query in
  mapM (channel_performance_item total_revenue) results.

Definition store_key : Type := Z * string * option string * option string.

Definition store_key_eq_dec : forall x y : store_key, {x = y} + {x <> y} :=
  pair_eq_dec
    (pair_eq_dec (pair_eq_dec Z.eq_dec string_dec) (option_eq_dec string_dec))
    (option_eq_dec string_dec).

Definition store_key_of (r : Sale.t * Store.t) : store_key :=
  (Store.id (snd r), Store.name (snd r), Store.city (snd r), Store.state (snd r)).

Definition store_performance_item (total_revenue : Q)
    (r : store_key * list (Sale.t * Store.t)) : result StorePerformanceItem.t :=
  let '((store_id, store_name, city, state), rows) := r in
  percentage <- percentage_of (sum_total_amount fst rows) total_revenue ;;
  Ok {| StorePerformanceItem.store_id := store_id;
        StorePerformanceItem.store_name := store_name;
        StorePerformanceItem.city := city;
        StorePerformanceItem.state := state;
        StorePerformanceItem.total_sales := or_zero_int (count_sale_id fst rows);
        StorePerformanceItem.total_revenue :=
          float (or_zero (sum_total_amount fst rows));
        StorePerformanceItem.average_ticket :=
          float (or_zero (avg_total_amount fst rows));
        StorePerformanceItem.revenue_percentage := float percentage |}.

Definition get_store_performance (db : Database)
    (date_range : option DateRangeFilter.t)
    (filters : option DimensionFilter.t)
    : result (list StorePerformanceItem.t) :=
  let total_revenue := total_revenue_under db date_range filters in
  let query :=
    join (fun s st => Sale.store_id s =? Store.id st) (sales db) (stores db) in
  let query := _apply_filters fst query date_range filters in
  let query := filter (fun r => completed (fst r)) query in
  let query := group_by store_key_eq_dec store_key_of query in
  let query := order_by (by_revenue_desc fst) query in
  let results := query in
  mapM (store_performance_item total_revenue) results.

(** ** Dates *)

Definition microseconds_per_day : Z := 86400000000.

(** The length of [n] days. *)
Definition timedelta_days (n : Z) : Z := n * microseconds_per_day.

(** [timedelta(days=n)]: at most 999999999 days, either way. *)
Definition timedelta (days : Z) : result Z :=
  if Z.abs days <=? 999999999
  then Ok (timedelta_days days)
  else Raise OverflowError.

(** [(a - b).days] *)
Definition days_between (a b : Z) : Z := (a - b) / microseconds_per_day.

(** Day number (days since 1970-01-01) of a timestamp. *)
Definition day_of (ts : Z) : Z := ts / microseconds_per_day.

(** Proleptic Gregorian calendar: day number to (year, month, day). *)
Definition civil_from_days (z : Z) : Z * Z * Z :=
  let z := z + 719468 in
  let era := z / 146097 in
  let doe := z - era * 146097 in
  let yoe := (doe - doe / 1460 + doe / 36524 - doe / 146096) / 365 in
  let doy := doe - (365 * yoe + yoe / 4 - yoe / 100) in
  let mp := (5 * doy + 2) / 153 in
  let d := doy - (153 * mp + 2) / 5 + 1 in
  let m := if mp <? 10 then mp + 3 else mp - 9 in
  let y := yoe + era * 400 + (if m <=? 2 then 1 else 0) in
  (y, m, d).

(** (year, month, day) to day number. *)
Definition days_from_civil (y m d : Z) : Z :=
  let y := if m <=? 2 then y - 1 else y in
  let era := y / 400 in
  let yoe := y - era * 400 in
  let mp := if 2 <? m then m - 3 else m + 9 in
  let doy := (153 * mp + 2) / 5 + d - 1 in
  let doe := yoe * 365 + yoe / 4 - yoe / 100 + doy in
  era * 146097 + doe - 719468.

(** [datetime.min] and [datetime.max]: years 1 to 9999. *)
Definition datetime_min : Z := days_from_civil 1 1 1 * microseconds_per_day.

Definition datetime_max : Z :=
  days_from_civil 9999 12 31 * microseconds_per_day + (microseconds_per_day - 1).

(** [t - delta] on a [datetime] and a [timedelta]. *)
Definition datetime_sub (t delta : Z) : result Z :=
  let r := t - delta in
  if (datetime_min <=? r) && (r <=? datetime_max)
  then Ok r
  else Raise OverflowError.

(** [now - timedelta(days=days)] *)
Definition days_ago (now days : Z) : result Z :=
  delta <- timedelta days ;;
  datetime_sub now delta.

(** The value a date grouping expression yields. *)
Inductive date_value :=
| DateValue (day : Z)             (* [cast(Sale.created_at, Date)] *)
| TimestampValue (ts : Z).        (* [func.date_trunc(unit, Sale.created_at)] *)

Definition cast_date (ts : Z) : date_value := DateValue (day_of ts).

(** [date_trunc('week', ts)]: the Monday of the week, at midnight
    (1970-01-01 was a Thursday). *)
Definition date_trunc_week (ts : Z) : date_value :=
  let d := day_of ts in
  TimestampValue ((d - (d + 3) mod 7) * microseconds_per_day).

(** [date_trunc('month', ts)]: the first of the month, at midnight. *)
Definition date_trunc_month (ts : Z) : date_value :=
  let '(y, m, _) := civil_from_days (day_of ts) in
  TimestampValue (days_from_civil y m 1 * microseconds_per_day).

Definition date_value_eq_dec : forall x y : date_value, {x = y} + {x <> y}.
Proof. decide equality; apply Z.eq_dec. Defined.

(** Order of two values of one grouping expression. *)
Definition date_value_leb (a b : date_value) : bool :=
  match a, b with
  | DateValue x, DateValue y => x <=? y
  | TimestampValue x, TimestampValue y => x <=? y
  | DateValue _, TimestampValue _ => true
  | TimestampValue _, DateValue _ => false
  end.

Definition digit (n : Z) : ascii := ascii_of_nat (48 + Z.to_nat (n mod 10)).

Definition digits2 (n : Z) : string :=
  String (digit (n / 10)) (String (digit n) EmptyString).

Definition digits4 (n : Z) : string :=
  String (digit (n / 1000)) (String (digit (n / 100)) (digits2 n)).

Definition digits6 (n : Z) : string :=
  String (digit (n / 100000)) (String (digit (n / 10000)) (digits4 n)).

Definition isoformat_day (day : Z) : string :=
  let '(y, m, d) := civil_from_days day in
  digits4 y ++ "-" ++ digits2 m ++ "-" ++ digits2 d.

(** [r.date.isoformat()] (both a [date] and a [datetime] have the method). *)
Definition isoformat (v : date_value) : string :=
  match v with
  | DateValue day => isoformat_day day
  | TimestampValue ts =>
      let rest := ts mod microseconds_per_day in
      let us := rest mod 1000000 in
      let sec := rest / 1000000 in
      isoformat_day (day_of ts) ++ "T" ++ digits2 (sec / 3600) ++ ":"
        ++ digits2 (sec / 60 mod 60) ++ ":" ++ digits2 (sec mod 60)
        ++ (if us =? 0 then "" else "." ++ digits6 us)
  end.

(** ** [AnalyticsService.get_time_series] *)

Definition date_group_of (period : string) : Z -> date_value :=
  if String.eqb period "daily" then cast_date
  else if String.eqb period "weekly" then date_trunc_week
  else if String.eqb period "monthly" then date_trunc_month
  else cast_date.

Definition get_time_series (db : Database)
    (date_range : option DateRangeFilter.t)
    (filters : option DimensionFilter.t)
    (period : string) : list TimeSeriesDataPoint.t :=
  let date_group := date_group_of period in
  let query := sales db in
  let query := _apply_filters (fun s => s) query date_range filters in
  let query := filter completed query in
  let query :=
    group_by date_value_eq_dec (fun s => date_group (Sale.created_at s)) query in
  let query := order_by (fun g1 g2 => date_value_leb (fst g1) (fst g2)) query in
  map (fun r : date_value * list Sale.t =>
         let '(date, rows) := r in
         {| TimeSeriesDataPoint.date := isoformat date;
            TimeSeriesDataPoint.sales_count :=
              or_zero_int (count_sale_id (fun s => s) rows);
            TimeSeriesDataPoint.revenue :=
              float (or_zero (sum_total_amount (fun s => s) rows));
            TimeSeriesDataPoint.average_ticket :=
              float (or_zero (avg_total_amount (fun s => s) rows)) |})
      query.

(** ** The [/timeseries] endpoint ([app/api/v1/analytics.py]) *)

(** [Query('daily', regex='^(daily|weekly|monthly)$')]: the default when the
    parameter is absent, a validation error when it does not match.  The
    pattern matches the three words and nothing else (the models use
    pydantic 2, whose [$] is the end of the text). *)
Definition period_query (period : option string) : result string :=
  match period with
  | None => Ok "daily"
  | Some p =>
      if String.eqb p "daily" || String.eqb p "weekly" || String.eqb p "monthly"
      then Ok p
      else Raise ValidationError
  end.

(** [s.split(',')] *)
Fixpoint split_comma (s : string) : list string :=
  match s with
  | EmptyString => [EmptyString]
  | String c s' =>
      if Ascii.eqb c ","%char
      then EmptyString :: split_comma s'
      else match split_comma s' with
           | [] => [String c EmptyString]
           | w :: ws => String c w :: ws
           end
  end.

Section Endpoint.
(** Python's [int(x)] on a string; [None] stands for [ValueError]. *)
Variable py_int : string -> option Z.

(** [[int(x) for x in ids.split(',')]] *)
Definition parse_ids (ids : string) : result (list Z) :=
  mapM (fun x => match py_int x with
                 | Some n => Ok n
                 | None => Raise ValueError
                 end)
       (split_comma ids).

(** [if ids: filters.field = [int(x) for x in ids.split(',')]] *)
Definition ids_param (ids : option string) : result (option (list Z)) :=
  match ids with
  | None => Ok None
  | Some EmptyString => Ok None
  | Some s => l <- parse_ids s ;; Ok (Some l)
  end.

Definition api_get_time_series (db : Database)
    (start_date end_date : option Z) (period : option string)
    (store_ids channel_ids : option string) : result TimeSeriesResponse.t :=
  period <- period_query period ;;
  let date_range :=
    {| DateRangeFilter.start_date := start_date;
       DateRangeFilter.end_date := end_date |} in
  store_ids <- ids_param store_ids ;;
  channel_ids <- ids_param channel_ids ;;
  let filters :=
    {| DimensionFilter.store_ids := store_ids;
       DimensionFilter.channel_ids := channel_ids;
       DimensionFilter.product_ids := None;
       DimensionFilter.category_ids := None;
       DimensionFilter.customer_ids := None;
       DimensionFilter.sale_status := None |} in
  let data := get_time_series db (Some date_range) (Some filters) period in
  Ok {| TimeSeriesResponse.data := data;
        TimeSeriesResponse.period_type := period |}.
End Endpoint.

(** ** [AnalyticsService.get_customer_retention] *)

(** A row of the [customer_stats] subquery. *)
Module CustomerStats.
Record t := {
  customer_id : option Z;
  total_orders : option Z;
  total_spent : option Q;
  average_ticket : option Q;
  last_order_date : option Z;
  first_order_date : option Z
}.
End CustomerStats.

Definition is_not_none {A} (x : option A) : bool :=
  match x with
  | Some _ => true
  | None => false
  end.

(** [a >= b] and [a < b] in SQL on a nullable left side: not true on [NULL]. *)
Definition sql_ge (a : option Z) (b : Z) : bool :=
  match a with
  | Some x => b <=? x
  | None => false
  end.

Definition sql_lt (a : option Z) (b : Z) : bool :=
  match a with
  | Some x => x <? b
  | None => false
  end.

(** The aggregates of one group of the subquery. *)
Definition customer_stats_row (g : option Z * list Sale.t) : CustomerStats.t :=
  let '(customer_id, rows) := g in
  {| CustomerStats.customer_id := customer_id;
     CustomerStats.total_orders := count_sale_id (fun s => s) rows;
     CustomerStats.total_spent := sum_total_amount (fun s => s) rows;
     CustomerStats.average_ticket := avg_total_amount (fun s => s) rows;
     CustomerStats.last_order_date :=
       sql_max (map (fun s => Some (Sale.created_at s)) rows);
     CustomerStats.first_order_date :=
       sql_min (map (fun s => Some (Sale.created_at s)) rows) |}.

Definition customer_stats (db : Database) : list CustomerStats.t :=
  let query :=
    filter (fun s => is_not_none (Sale.customer_id s) && completed s) (sales db) in
  map customer_stats_row
      (group_by (option_eq_dec Z.eq_dec) Sale.customer_id query).

(** The elements of a comprehension, each with the number of the clock
    reading its expression makes. *)
Fixpoint numbered {A} (n : nat) (l : list A) : list (nat * A) :=
  match l with
  | [] => []
  | x :: l' => (n, x) :: numbered (S n) l'
  end.

(** The element of the comprehension: the item of the row [(c, r)], built
    with the [k]-th reading of the clock. *)
Definition customer_retention_item (now : nat -> Z)
    (nr : nat * (Customer.t * CustomerStats.t)) : result CustomerRetentionItem.t :=
  let '(k, (c, r)) := nr in
  days_since_last_order <-
    match CustomerStats.last_order_date r with
    | Some d => Ok (days_between (now k) d)
    | None => Raise TypeError
    end ;;
  total_orders <- required (CustomerStats.total_orders r) ;;
  last_order_date <- required (CustomerStats.last_order_date r) ;;
  first_order_date <- required (CustomerStats.first_order_date r) ;;
  Ok {| CustomerRetentionItem.customer_id := Customer.id c;
        CustomerRetentionItem.customer_name := Customer.customer_name c;
        CustomerRetentionItem.email := Customer.email c;
        CustomerRetentionItem.phone_number := Customer.phone_number c;
        CustomerRetentionItem.total_orders := total_orders;
        CustomerRetentionItem.total_spent :=
          float (or_zero (CustomerStats.total_spent r));
        CustomerRetentionItem.average_ticket :=
          float (or_zero (CustomerStats.average_ticket r));
        CustomerRetentionItem.last_order_date := last_order_date;
        CustomerRetentionItem.days_since_last_order := days_since_last_order;
        CustomerRetentionItem.first_order_date := first_order_date |}.

(** [now k] is what the [k]-th call of [datetime.now()] returns: the function
    reads the clock once for the cut-off and once for every returned row.
    [date_range] is a parameter of the function. *)
Definition get_customer_retention (db : Database) (now : nat -> Z)
    (min_orders days_inactive : Z)
    (date_range : option DateRangeFilter.t)
    : result (list CustomerRetentionItem.t) :=
  cutoff_date <- days_ago (now 0%nat) days_inactive ;;
  let customer_stats := customer_stats db in
  let query :=
    join (fun c st => match CustomerStats.customer_id st with
                      | Some id => Customer.id c =? id
                      | None => false
                      end)
         (customers db) customer_stats in
  let query :=
    filter (fun r => sql_ge (CustomerStats.total_orders (snd r)) min_orders
                     && sql_lt (CustomerStats.last_order_date (snd r)) cutoff_date)
           query in
  let query :=
    order_by (fun r1 r2 => desc_leb (CustomerStats.total_spent (snd r1))
                                    (CustomerStats.total_spent (snd r2))) query in
  let results := query in
  mapM (customer_retention_item now) (numbered 1 results).

(** ** [AnalyticsService.get_delivery_performance] *)

Definition location_key : Type := option string * option string.

Definition location_key_eq_dec : forall x y : location_key, {x = y} + {x <> y} :=
  pair_eq_dec (option_eq_dec string_dec) (option_eq_dec string_dec).

Definition location_key_of (r : Sale.t * DeliveryAddress.t) : location_key :=
  (DeliveryAddress.neighborhood (snd r), DeliveryAddress.city (snd r)).

(** [column / 60.0] on a nullable integer column. *)
Definition minutes (seconds : option Z) : option Q :=
  match seconds with
  | Some n => Some (inject_Z n / 60)%Q
  | None => None
  end.

Definition avg_delivery (rows : list (Sale.t * DeliveryAddress.t)) : option Q :=
  sql_avg (map (fun r => minutes (Sale.delivery_seconds (fst r))) rows).

Definition avg_production (rows : list (Sale.t * DeliveryAddress.t)) : option Q :=
  sql_avg (map (fun r => minutes (Sale.production_seconds (fst r))) rows).

(** The element of the comprehension: the item of a result row [r]. *)
Definition delivery_performance_item
    (r : location_key * list (Sale.t * DeliveryAddress.t))
    : DeliveryPerformanceItem.t :=
  let '((neighborhood, city), rows) := r in
  {| DeliveryPerformanceItem.neighborhood := neighborhood;
     DeliveryPerformanceItem.city := city;
     DeliveryPerformanceItem.total_deliveries :=
       or_zero_int (count_sale_id fst rows);
     DeliveryPerformanceItem.avg_delivery_time_minutes :=
       float (or_zero (avg_delivery rows));
     DeliveryPerformanceItem.avg_production_time_minutes :=
       float (or_zero (avg_production rows));
     DeliveryPerformanceItem.total_delivery_time_minutes :=
       float (or_zero (sql_add (avg_delivery rows) (avg_production rows))) |}.

(** [order_by((avg_delivery + avg_production).desc())] on groups. *)
Definition by_total_time_desc
    (g1 g2 : location_key * list (Sale.t * DeliveryAddress.t)) : bool :=
  desc_leb (sql_add (avg_delivery (snd g1)) (avg_production (snd g1)))
           (sql_add (avg_delivery (snd g2)) (avg_production (snd g2))).

Definition get_delivery_performance (db : Database)
    (date_range : option DateRangeFilter.t)
    (filters : option DimensionFilter.t) : list DeliveryPerformanceItem.t :=
  let query :=
    join (fun s a => Sale.id s =? DeliveryAddress.sale_id a)
         (sales db) (delivery_addresses db) in
  let query := _apply_filters fst query date_range filters in
  let query :=
    filter (fun r => completed (fst r) && is_not_none (Sale.delivery_seconds (fst r)))
           query in
  let query := group_by location_key_eq_dec location_key_of query in
  let query := filter (fun g => sql_ge (count_sale_id fst (snd g)) 5) query in
  let query := order_by by_total_time_desc query in
  let results := query in
  map delivery_performance_item results.

(** ** [AnalyticsService.get_product_ranking] *)

(** A row of [ProductSale JOIN Product JOIN Sale LEFT JOIN Category]. *)
Definition ranking_row : Type :=
  ProductSale.t * Product.t * Sale.t * option Category.t.

Definition ranking_sale (r : ranking_row) : Sale.t := snd (fst r).

Definition ranking_line (r : ranking_row) : ProductSale.t := fst (fst (fst r)).

Definition ranking_key : Type := Z * string * option string.

Definition ranking_key_eq_dec : forall x y : ranking_key, {x = y} + {x <> y} :=
  pair_eq_dec (pair_eq_dec Z.eq_dec string_dec) (option_eq_dec string_dec).

(** [(Product.id, Product.name, Category.name)] *)
Definition ranking_key_of (r : ranking_row) : ranking_key :=
  (Product.id (snd (fst (fst r))), Product.name (snd (fst (fst r))),
   match snd r with
   | Some c => Some (Category.name c)
   | None => None
   end).

Definition sum_quantity (rows : list ranking_row) : option Q :=
  sql_sum (map (fun r => Some (ProductSale.quantity (ranking_line r))) rows).

(** [func.count(func.distinct(Sale.id))] *)
Definition count_distinct_sales (rows : list ranking_row) : option Z :=
  Some (Z.of_nat (List.length
                    (nodup Z.eq_dec (map (fun r => Sale.id (ranking_sale r)) rows)))).

(** [func.avg(ProductSale.total_price / ProductSale.quantity)] *)
Definition avg_unit_price (rows : list ranking_row) : result (option Q) :=
  prices <- mapM (fun r => sql_div (ProductSale.total_price (ranking_line r))
                                   (ProductSale.quantity (ranking_line r)))
                 rows ;;
  Ok (sql_avg (map Some prices)).

(** A result row of the ranking query. *)
Module RankingRow.
Record t := {
  product_id : Z;
  product_name : string;
  category_name : option string;
  total_quantity : option Q;
  total_revenue : option Q;
  order_count : option Z;
  average_price : option Q
}.
End RankingRow.

Definition ranking_result_row (g : ranking_key * list ranking_row)
    : result RankingRow.t :=
  let '((product_id, product_name, category_name), rows) := g in
  average_price <- avg_unit_price rows ;;
  Ok {| RankingRow.product_id := product_id;
        RankingRow.product_name := product_name;
        RankingRow.category_name := category_name;
        RankingRow.total_quantity := sum_quantity rows;
        RankingRow.total_revenue :=
          sql_sum (map (fun r => Some (ProductSale.total_price (ranking_line r)))
                       rows);
        RankingRow.order_count := count_distinct_sales rows;
        RankingRow.average_price := average_price |}.

Definition get_product_ranking (db : Database)
    (date_range : option DateRangeFilter.t)
    (filters : option DimensionFilter.t)
    (limit : Z) : result (list ProductRankingItem.t) :=
  let query :=
    join (fun ps p => ProductSale.product_id ps =? Product.id p)
         (product_sales db) (products db) in
  let query :=
    join (fun r s => ProductSale.sale_id (fst r) =? Sale.id s) query (sales db) in
  let query :=
    outerjoin (fun r c => match Product.category_id (snd (fst r)) with
                          | Some id => id =? Category.id c
                          | None => false
                          end)
              query (categories db) in
  let query := _apply_filters ranking_sale query date_range filters in
  let query := filter (fun r => completed (ranking_sale r)) query in
  let query := group_by ranking_key_eq_dec ranking_key_of query in
  let query :=
    order_by (fun g1 g2 => desc_leb (sum_quantity (snd g1)) (sum_quantity (snd g2)))
             query in
  rows <- mapM ranking_result_row query ;;
  results <- sql_limit limit rows ;;
  Ok (map (fun r =>
             {| ProductRankingItem.product_id := RankingRow.product_id r;
                ProductRankingItem.product_name := RankingRow.product_name r;
                ProductRankingItem.category_name := RankingRow.category_name r;
                ProductRankingItem.total_quantity :=
                  float (or_zero (RankingRow.total_quantity r));
                ProductRankingItem.total_revenue :=
                  float (or_zero (RankingRow.total_revenue r));
                ProductRankingItem.order_count :=
                  or_zero_int (RankingRow.order_count r);
                ProductRankingItem.average_price :=
                  float (or_zero (RankingRow.average_price r)) |})
          results).

(** ** The prototype's [top_products] ([app/routers/analytics.py]) *)

(** [EXTRACT(DOW FROM ts)]: 0 is Sunday (1970-01-01 was a Thursday). *)
Definition extract_dow (ts : Z) : Z := (day_of ts + 4) mod 7.

(** [EXTRACT(HOUR FROM ts)] *)
Definition extract_hour (ts : Z) : Z := (ts mod microseconds_per_day) / 3600000000.

(** A row of [sales JOIN product_sales JOIN products JOIN channels]. *)
Definition top_row : Type := Sale.t * ProductSale.t * Product.t * Channel.t.

Definition top_sale (r : top_row) : Sale.t := fst (fst (fst r)).

Definition top_quantity (rows : list top_row) : option Q :=
  sql_sum (map (fun r => Some (ProductSale.quantity (snd (fst (fst r))))) rows).

(** Python truthiness of an [Optional[str]]. *)
Definition truthy_str (o : option string) : bool :=
  match o with
  | Some (String _ _) => true
  | _ => false
  end.

Definition top_products (db : Database) (channel : option string)
    (dow hour_start hour_end : option Z) (limit : Z)
    : result (list TopProductItem.t) :=
  let rows :=
    join (fun s ps => ProductSale.sale_id ps =? Sale.id s)
         (sales db) (product_sales db) in
  let rows :=
    join (fun r p => Product.id p =? ProductSale.product_id (snd r))
         rows (products db) in
  let rows :=
    join (fun r c => Channel.id c =? Sale.channel_id (fst (fst r)))
         rows (channels db) in
  let rows := filter (fun r => completed_prototype (top_sale r)) rows in
  let rows :=
    match channel with
    | Some name =>
        if truthy_str channel
        then filter (fun r => ilike (Channel.name (snd r)) ("%" ++ name ++ "%")) rows
        else rows
    | None => rows
    end in
  let rows :=
    match dow with
    | Some d => filter (fun r => extract_dow (Sale.created_at (top_sale r)) =? d) rows
    | None => rows
    end in
  let rows :=
    match hour_start, hour_end with
    | Some hs, Some he =>
        filter (fun r => let h := extract_hour (Sale.created_at (top_sale r)) in
                         (hs <=? h) && (h <=? he)) rows
    | _, _ => rows
    end in
  let groups :=
    group_by (pair_eq_dec Z.eq_dec string_dec)
             (fun r : top_row => (Product.id (snd (fst r)), Product.name (snd (fst r))))
             rows in
  let groups :=
    order_by (fun g1 g2 => desc_leb (top_quantity (snd g1)) (top_quantity (snd g2)))
             groups in
  rows <- sql_limit limit groups ;;
  mapM (fun g : Z * string * list top_row =>
          let '((product_id, product_name), rows) := g in
          quantity <- required (top_quantity rows) ;;
          Ok {| TopProductItem.product_id := product_id;
                TopProductItem.product_name := product_name;
                TopProductItem.quantity := quantity |})
       rows.

(** ** Example data *)

Module Examples.
Definition sale (id store channel : Z) (customer : option Z) (created_at : Z)
    (status : string) (amount : Q) : Sale.t :=
  {| Sale.id := id; Sale.store_id := store; Sale.customer_id := customer;
     Sale.channel_id := channel; Sale.created_at := created_at;
     Sale.sale_status_desc := status; Sale.total_discount := Some 0%Q;
     Sale.delivery_fee := Some 0%Q; Sale.total_amount := amount;
     Sale.production_seconds := Some 600; Sale.delivery_seconds := Some 1200 |}.

Definition empty_db : Database :=
  {| sales := []; stores := []; channels := []; customers := [];
     categories := []; products := []; product_sales := []; delivery_addresses := [] |}.

(** One sale of product 2; the filter asks for product 7. *)
Definition burger_sale : Sale.t := sale 1 1 1 None 0 "COMPLETED" 25.

Definition burger_db : Database :=
  {| sales := [burger_sale]; stores := []; channels := []; customers := [];
     categories := [{| Category.id := 5; Category.name := "Lanches" |}];
     products := [{| Product.id := 2; Product.name := "Burger";
                     Product.category_id := Some 5 |}];
     product_sales := [{| ProductSale.id := 1; ProductSale.sale_id := 1;
                          ProductSale.product_id := 2; ProductSale.quantity := 1;
                          ProductSale.base_price := 25;
                          ProductSale.total_price := 25 |}];
     delivery_addresses := [] |}.

Definition product_7_filter : DimensionFilter.t :=
  {| DimensionFilter.store_ids := None; DimensionFilter.channel_ids := None;
     DimensionFilter.product_ids := Some [7];
     DimensionFilter.category_ids := None;
     DimensionFilter.customer_ids := None;
     DimensionFilter.sale_status := None |}.

Definition store_1_filter : DimensionFilter.t :=
  {| DimensionFilter.store_ids := Some [1]; DimensionFilter.channel_ids := None;
     DimensionFilter.product_ids := None;
     DimensionFilter.category_ids := None;
     DimensionFilter.customer_ids := None;
     DimensionFilter.sale_status := None |}.

(** A sale whose status is written in lower case. *)
Definition lowercase_sale : Sale.t := sale 1 1 1 None 0 "completed" 10.

(** That sale, of one burger, in the tables. *)
Definition lowercase_db : Database :=
  {| sales := [lowercase_sale]; stores := [];
     channels := [{| Channel.id := 1; Channel.name := "iFood";
                     Channel.type := Some "D" |}];
     customers := [];
     categories := [{| Category.id := 5; Category.name := "Lanches" |}];
     products := [{| Product.id := 2; Product.name := "Burger";
                     Product.category_id := Some 5 |}];
     product_sales := [{| ProductSale.id := 1; ProductSale.sale_id := 1;
                          ProductSale.product_id := 2; ProductSale.quantity := 1;
                          ProductSale.base_price := 10;
                          ProductSale.total_price := 10 |}];
     delivery_addresses := [] |}.

Definition one_burger : TopProductItem.t :=
  {| TopProductItem.product_id := 2; TopProductItem.product_name := "Burger";
     TopProductItem.quantity := 1 |}.

Definition ifood : Channel.t :=
  {| Channel.id := 1; Channel.name := "iFood"; Channel.type := Some "D" |}.

Definition counter : Channel.t :=
  {| Channel.id := 2; Channel.name := "Balcao"; Channel.type := Some "P" |}.

Definition centro : Store.t :=
  {| Store.id := 1; Store.name := "Centro"; Store.city := Some "Sao Paulo";
     Store.state := Some "SP" |}.

(** Two completed sales (30 on channel 1, 10 on channel 2) and a cancelled
    one. *)
Definition two_channel_db : Database :=
  {| sales := [sale 1 1 1 None 0 "COMPLETED" 30;
               sale 2 1 2 None 0 "COMPLETED" 10;
               sale 3 1 1 None 0 "CANCELLED" 5];
     stores := [centro]; channels := [ifood; counter]; customers := [];
     categories := []; products := []; product_sales := []; delivery_addresses := [] |}.

(** One completed sale, of amount 0. *)
Definition free_sale_db : Database :=
  {| sales := [sale 1 1 1 None 0 "COMPLETED" 0];
     stores := [centro]; channels := [ifood]; customers := [];
     categories := []; products := []; product_sales := []; delivery_addresses := [] |}.

(** Day [n] at noon, in microseconds. *)
Definition day (n : Z) : Z := n * microseconds_per_day + 43200000000.

(** A clock that stands at noon of day 100. *)
Definition noon_100 (k : nat) : Z := day 100.

Definition ana : Customer.t :=
  {| Customer.id := 7; Customer.customer_name := Some "Ana";
     Customer.email := None; Customer.phone_number := None |}.

(** Ana has three completed orders, the last one on day [last]. *)
Definition ana_db (last : Z) : Database :=
  {| sales := [sale 1 1 1 (Some 7) (day 10) "COMPLETED" 20;
               sale 2 1 1 (Some 7) (day 20) "COMPLETED" 35;
               sale 3 1 1 (Some 7) (day last) "COMPLETED" 15;
               sale 4 1 1 (Some 7) (day 99) "CANCELLED" 50];
     stores := [centro]; channels := [ifood]; customers := [ana];
     categories := []; products := []; product_sales := []; delivery_addresses := [] |}.

Definition centro_address (id sale_id : Z) : DeliveryAddress.t :=
  {| DeliveryAddress.id := id; DeliveryAddress.sale_id := sale_id;
     DeliveryAddress.neighborhood := Some "Centro";
     DeliveryAddress.city := Some "Sao Paulo" |}.

Definition centro_location : location_key := (Some "Centro", Some "Sao Paulo").

(** Four completed deliveries to one neighborhood. *)
Definition four_deliveries_db : Database :=
  {| sales := [sale 1 1 1 None (day 1) "COMPLETED" 20;
               sale 2 1 1 None (day 2) "COMPLETED" 20;
               sale 3 1 1 None (day 3) "COMPLETED" 20;
               sale 4 1 1 None (day 4) "COMPLETED" 20];
     stores := [centro]; channels := [ifood]; customers := [];
     categories := []; products := []; product_sales := [];
     delivery_addresses := [centro_address 1 1; centro_address 2 2;
                            centro_address 3 3; centro_address 4 4] |}.

Definition fifth_sale : Sale.t := sale 5 1 1 None (day 5) "COMPLETED" 20.

Definition fifth_address : DeliveryAddress.t := centro_address 5 5.
End Examples.

(** ** Vocabulary of the statements *)

(** The database with another [sales] table. *)
Definition with_sales (db : Database) (l : list Sale.t) : Database :=
  {| sales := l;
     stores := stores db;
     channels := channels db;
     customers := customers db;
     categories := categories db;
     products := products db;
     product_sales := product_sales db;
     delivery_addresses := delivery_addresses db |}.

(** Number of rows of a query that satisfy a condition. *)
Definition count_where {A} (p : A -> bool) (l : list A) : Z :=
  Z.of_nat (List.length (filter p l)).

(** A nullable aggregate read as a number: [NULL] counts for zero. *)
Definition null_as_zero (x : option Q) : Q :=
  match x with
  | Some q => q
  | None => 0%Q
  end.

Definition null_as_zero_int (x : option Z) : Z :=
  match x with
  | Some n => n
  | None => 0
  end.

(** The overview of no sale at all. *)
Definition zero_overview : SalesOverviewResponse.t :=
  {| SalesOverviewResponse.total_sales := 0;
     SalesOverviewResponse.total_revenue := 0%Q;
     SalesOverviewResponse.average_ticket := 0%Q;
     SalesOverviewResponse.completed_sales := 0;
     SalesOverviewResponse.cancelled_sales := 0;
     SalesOverviewResponse.total_discount := 0%Q;
     SalesOverviewResponse.total_delivery_fee := 0%Q |}.

(** The completed sales a filter lets through: the input of both queries
    of the channel and store performance. *)
Definition completed_under (db : Database)
    (date_range : option DateRangeFilter.t)
    (filters : option DimensionFilter.t) : list Sale.t :=
  filter completed (_apply_filters (fun s => s) (sales db) date_range filters).

(** Revenue of a list of sales. *)
Definition revenue (l : list Sale.t) : Q := Qsum (map Sale.total_amount l).

(** Share of a group revenue in a total, in percent, 0 without a positive
    total. *)
Definition share (total group : Q) : Q :=
  if Qlt_bool 0 total then (group / total * 100)%Q else 0%Q.

(** The completed sales linked to a customer. *)
Definition completed_orders (db : Database) (customer : Z) : list Sale.t :=
  filter (fun s => match Sale.customer_id s with
                   | Some c => c =? customer
                   | None => false
                   end && completed s)
         (sales db).

(** The most recent of some sales was made at [t]. *)
Definition most_recent_at (orders : list Sale.t) (t : Z) : Prop :=
  exists s, In s orders
            /\ (forall s', In s' orders -> Sale.created_at s' <= Sale.created_at s)
            /\ Sale.created_at s = t.

(** There is a most recent one, made strictly before [t]. *)
Definition most_recent_before (orders : list Sale.t) (t : Z) : Prop :=
  exists t', most_recent_at orders t' /\ t' < t.

(** A time a [datetime] can hold. *)
Definition representable (t : Z) : Prop := datetime_min <= t <= datetime_max.

(** The cut-off date [now - timedelta(days=days_inactive)] exists. *)
Definition cutoff_exists (now days_inactive : Z) : Prop :=
  Z.abs days_inactive <= 999999999
  /\ representable (now - timedelta_days days_inactive).

(** A customer of the [customers] table. *)
Definition registered (db : Database) (customer : Z) : Prop :=
  exists c, In c (customers db) /\ Customer.id c = customer.

(** The retention condition on a customer, at the time [now]. *)
Definition churn_candidate (db : Database) (now min_orders days_inactive : Z)
    (customer : Z) : Prop :=
  let orders := completed_orders db customer in
  min_orders <= Z.of_nat (List.length orders)
  /\ most_recent_before orders (now - timedelta_days days_inactive).

(** The sales that count for delivery performance: under the filter,
    completed, with a delivery time. *)
Definition qualifying_sales (db : Database)
    (date_range : option DateRangeFilter.t)
    (filters : option DimensionFilter.t) : list Sale.t :=
  filter (fun s => completed s && is_not_none (Sale.delivery_seconds s))
         (_apply_filters (fun s => s) (sales db) date_range filters).

(** The sale has a delivery address at the location. *)
Definition delivered_to (db : Database) (location : location_key) (s : Sale.t)
    : bool :=
  existsb (fun a => (Sale.id s =? DeliveryAddress.sale_id a)
                    && same_key location_key_eq_dec
                                (fun a => (DeliveryAddress.neighborhood a,
                                           DeliveryAddress.city a))
                                location a)
          (delivery_addresses db).

(** Number of qualifying sales delivered to a location. *)
Definition qualifying_deliveries (db : Database)
    (date_range : option DateRangeFilter.t)
    (filters : option DimensionFilter.t) (location : location_key) : Z :=
  count_where (delivered_to db location) (qualifying_sales db date_range filters).

(** The deliveries that count: a qualifying sale with a delivery address of
    it. *)
Definition qualifying_rows (db : Database)
    (date_range : option DateRangeFilter.t)
    (filters : option DimensionFilter.t) : list (Sale.t * DeliveryAddress.t) :=
  join (fun s a => Sale.id s =? DeliveryAddress.sale_id a)
       (qualifying_sales db date_range filters) (delivery_addresses db).

(** Number of deliveries that count at a location. *)
Definition deliveries_at (db : Database)
    (date_range : option DateRangeFilter.t)
    (filters : option DimensionFilter.t) (location : location_key) : Z :=
  count_where (same_key location_key_eq_dec location_key_of location)
              (qualifying_rows db date_range filters).

(** The (neighborhood, city) groups a result lists. *)
Definition listed_locations (items : list DeliveryPerformanceItem.t)
    : list location_key :=
  map (fun it => (DeliveryPerformanceItem.neighborhood it,
                  DeliveryPerformanceItem.city it)) items.

(** The database after one more sale with its delivery address came in. *)
Definition add_delivery (db : Database) (s : Sale.t) (a : DeliveryAddress.t)
    : Database :=
  {| sales := s :: sales db;
     stores := stores db;
     channels := channels db;
     customers := customers db;
     categories := categories db;
     products := products db;
     product_sales := product_sales db;
     delivery_addresses := a :: delivery_addresses db |}.

(** * The rest of the service, its endpoints and the metadata endpoints *)

(** ** [AnalyticsService.get_product_margin_analysis] *)

Module ProductMarginItem.
Record t := {
  product_id : Z;
  product_name : string;
  category_name : option string;
  avg_base_price : Q;
  avg_total_price : Q;
  avg_customization_value : Q;
  total_revenue : Q;
  order_count : Z
}.
End ProductMarginItem.

(** The rows of [ProductSale JOIN Product JOIN Sale LEFT JOIN Category]
    (the [FROM] clause of product ranking and of margin analysis). *)
Definition product_lines (db : Database) : list ranking_row :=
  let query :=
    join (fun ps p => ProductSale.product_id ps =? Product.id p)
         (product_sales db) (products db) in
  let query :=
    join (fun r s => ProductSale.sale_id (fst r) =? Sale.id s) query (sales db) in
  outerjoin (fun r c => match Product.category_id (snd (fst r)) with
                        | Some id => id =? Category.id c
                        | None => false
                        end)
            query (categories db).

(** [func.avg(ProductSale.base_price)] *)
Definition avg_base (rows : list ranking_row) : option Q :=
  sql_avg (map (fun r => Some (ProductSale.base_price (ranking_line r))) rows).

(** [func.avg(ProductSale.total_price)] *)
Definition avg_total (rows : list ranking_row) : option Q :=
  sql_avg (map (fun r => Some (ProductSale.total_price (ranking_line r))) rows).

(** [func.avg(ProductSale.total_price - ProductSale.base_price)] *)
Definition avg_customization (rows : list ranking_row) : option Q :=
  sql_avg (map (fun r => Some (ProductSale.total_price (ranking_line r)
                               - ProductSale.base_price (ranking_line r))%Q) rows).

(** [func.sum(ProductSale.total_price)] *)
Definition sum_total_price (rows : list ranking_row) : option Q :=
  sql_sum (map (fun r => Some (ProductSale.total_price (ranking_line r))) rows).

(** The element of the comprehension: the item of a result row [r]. *)
Definition product_margin_item (r : ranking_key * list ranking_row)
    : ProductMarginItem.t :=
  let '((product_id, product_name, category_name), rows) := r in
  {| ProductMarginItem.product_id := product_id;
     ProductMarginItem.product_name := product_name;
     ProductMarginItem.category_name := category_name;
     ProductMarginItem.avg_base_price := float (or_zero (avg_base rows));
     ProductMarginItem.avg_total_price := float (or_zero (avg_total rows));
     ProductMarginItem.avg_customization_value :=
       float (or_zero (avg_customization rows));
     ProductMarginItem.total_revenue := float (or_zero (sum_total_price rows));
     ProductMarginItem.order_count := or_zero_int (count_distinct_sales rows) |}.

(** [order_by(func.sum(ProductSale.total_price).desc())] on groups. *)
Definition by_total_price_desc (g1 g2 : ranking_key * list ranking_row) : bool :=
  desc_leb (sum_total_price (snd g1)) (sum_total_price (snd g2)).

Definition get_product_margin_analysis (db : Database)
    (date_range : option DateRangeFilter.t)
    (filters : option DimensionFilter.t)
    (limit : Z) : result (list ProductMarginItem.t) :=
  let query := product_lines db in
  let query := _apply_filters ranking_sale query date_range filters in
  let query := filter (fun r => completed (ranking_sale r)) query in
  let query := group_by ranking_key_eq_dec ranking_key_of query in
  let query := order_by by_total_price_desc query in
  results <- sql_limit limit query ;;
  Ok (map product_margin_item results).

(** ** [AnalyticsService.get_hourly_performance] *)

Module HourlyPerformanceItem.
Record t := {
  hour : Z;
  day_of_week : option Z;
  day_name : option string;
  sales_count : Z;
  revenue : Q;
  average_ticket : Q
}.
End HourlyPerformanceItem.

(** What the function can raise: one of the exceptions above, or an
    [IndexError] of a list index. *)
Inductive exception :=
| Builtin (e : exn)
| IndexError.

Inductive outcome (A : Type) :=
| Returns (a : A)
| Raises (e : exception).
Arguments Returns {A} a.
Arguments Raises {A} e.

Definition outcome_bind {A B} (c : outcome A) (k : A -> outcome B) : outcome B :=
  match c with
  | Returns a => k a
  | Raises e => Raises e
  end.

(** A computation of the exceptions above, among the wider ones. *)
Definition lift {A} (c : result A) : outcome A :=
  match c with
  | Ok a => Returns a
  | Raise e => Raises (Builtin e)
  end.

Fixpoint outcome_mapM {A B} (f : A -> outcome B) (l : list A) : outcome (list B) :=
  match l with
  | [] => Returns []
  | x :: l' =>
      outcome_bind (f x) (fun y =>
      outcome_bind (outcome_mapM f l') (fun ys => Returns (y :: ys)))
  end.

(** Python's [l[i]]: a negative index counts from the end. *)
Definition py_index {A} (l : list A) (i : Z) : outcome A :=
  let n := Z.of_nat (List.length l) in
  let j := if i <? 0 then i + n else i in
  if (0 <=? j) && (j <? n)
  then match nth_error l (Z.to_nat j) with
       | Some x => Returns x
       | None => Raises IndexError
       end
  else Raises IndexError.

(** The expressions of the statement that are not aggregates. *)
Inductive hourly_expr :=
| hour_extract    (* [extract('hour', Sale.created_at)] *)
| dow_extract.    (* [extract('dow', Sale.created_at)], 0 = Sunday *)

Definition hourly_expr_eqb (a b : hourly_expr) : bool :=
  match a, b with
  | hour_extract, hour_extract => true
  | dow_extract, dow_extract => true
  | _, _ => false
  end.

Definition eval_hourly (e : hourly_expr) (s : Sale.t) : Z :=
  match e with
  | hour_extract => extract_hour (Sale.created_at s)
  | dow_extract => extract_dow (Sale.created_at s)
  end.

(** PostgreSQL accepts a grouped statement only when every selected
    expression that is not an aggregate is one of the [GROUP BY]
    expressions. *)
Definition grouping_accepted (selected grouped : list hourly_expr) : bool :=
  forallb (fun e => existsb (hourly_expr_eqb e) grouped) selected.

(** A result row: the two labelled expressions and the aggregates. *)
Module HourlyRow.
Record t := {
  hour : Z;
  day_of_week : option Z;
  sales_count : option Z;
  revenue : option Q;
  average_ticket : option Q
}.
End HourlyRow.

(** The rows of the statement that selects [hour_extract], [dow_extract]
    and the aggregates, grouped by [grouped]: when it is accepted both
    expressions are grouping expressions, and a group is the sales of one
    hour of one day of the week. *)
Definition hourly_rows (grouped : list hourly_expr) (query : list Sale.t)
    : result (list HourlyRow.t) :=
  if grouping_accepted [hour_extract; dow_extract] grouped
  then
    Ok (map (fun g : Z * Z * list Sale.t =>
               let '((hour, dow), rows) := g in
               {| HourlyRow.hour := hour;
                  HourlyRow.day_of_week := Some dow;
                  HourlyRow.sales_count := count_sale_id (fun s => s) rows;
                  HourlyRow.revenue := sum_total_amount (fun s => s) rows;
                  HourlyRow.average_ticket := avg_total_amount (fun s => s) rows |})
            (group_by (pair_eq_dec Z.eq_dec Z.eq_dec)
                      (fun s => (eval_hourly hour_extract s, eval_hourly dow_extract s))
                      query))
  else Raise DBAPIError.

Definition day_names : list string :=
  ["Domingo"; "Segunda"; "Terça"; "Quarta"; "Quinta"; "Sexta"; "Sábado"].

(** The element of the comprehension: the item of a result row [r]. *)
Definition hourly_performance_item (r : HourlyRow.t)
    : outcome HourlyPerformanceItem.t :=
  outcome_bind
    (match HourlyRow.day_of_week r with
     | Some d => outcome_bind (py_index day_names d) (fun n => Returns (Some n))
     | None => Returns None
     end)
    (fun day_name =>
       Returns {| HourlyPerformanceItem.hour := HourlyRow.hour r;
                  HourlyPerformanceItem.day_of_week := HourlyRow.day_of_week r;
                  HourlyPerformanceItem.day_name := day_name;
                  HourlyPerformanceItem.sales_count :=
                    or_zero_int (HourlyRow.sales_count r);
                  HourlyPerformanceItem.revenue :=
                    float (or_zero (HourlyRow.revenue r));
                  HourlyPerformanceItem.average_ticket :=
                    float (or_zero (HourlyRow.average_ticket r)) |}).

Definition get_hourly_performance (db : Database)
    (date_range : option DateRangeFilter.t)
    (filters : option DimensionFilter.t)
    (day_of_week : option Z) : outcome (list HourlyPerformanceItem.t) :=
  let query := sales db in
  let query := _apply_filters (fun s => s) query date_range filters in
  let query := filter completed query in
  outcome_bind
    (lift
       match day_of_week with
       | Some d =>
           let query := filter (fun s => eval_hourly dow_extract s =? d) query in
           hourly_rows [hour_extract] query
       | None => hourly_rows [hour_extract; dow_extract] query
       end)
    (fun rows =>
       let results :=
         order_by (fun r1 r2 => HourlyRow.hour r1 <=? HourlyRow.hour r2) rows in
       outcome_mapM hourly_performance_item results).

(** ** The endpoints of [app/api/v1/analytics.py] *)

Module ProductRankingResponse.
Record t := {
  products : list ProductRankingItem.t;
  total_count : Z
}.
End ProductRankingResponse.

Module CustomerRetentionResponse.
Record t := {
  customers : list CustomerRetentionItem.t;
  total_count : Z
}.
End CustomerRetentionResponse.

(** [Query(default, ge=lo, le=hi)] on an integer parameter: the default
    when it is absent, a validation error outside the bounds. *)
Definition int_query (default : Z) (lo hi : option Z) (v : option Z) : result Z :=
  match v with
  | None => Ok default
  | Some n =>
      if match lo with Some l => l <=? n | None => true end
         && match hi with Some h => n <=? h | None => true end
      then Ok n
      else Raise ValidationError
  end.

(** [Query(None, ge=lo, le=hi)] on an optional integer parameter. *)
Definition optional_int_query (lo hi : Z) (v : option Z) : result (option Z) :=
  match v with
  | None => Ok None
  | Some n => if (lo <=? n) && (n <=? hi) then Ok (Some n) else Raise ValidationError
  end.

Section Endpoints.
(** Python's [int(x)] on a string; [None] stands for [ValueError]. *)
Variable py_int : string -> option Z.

(** [filters = DimensionFilter()], then the two optional id lists. *)
Definition request_filters (store_ids channel_ids : option string)
    : result DimensionFilter.t :=
  store_ids <- ids_param py_int store_ids ;;
  channel_ids <- ids_param py_int channel_ids ;;
  Ok {| DimensionFilter.store_ids := store_ids;
        DimensionFilter.channel_ids := channel_ids;
        DimensionFilter.product_ids := None;
        DimensionFilter.category_ids := None;
        DimensionFilter.customer_ids := None;
        DimensionFilter.sale_status := None |}.

Definition request_date_range (start_date end_date : option Z)
    : DateRangeFilter.t :=
  {| DateRangeFilter.start_date := start_date;
     DateRangeFilter.end_date := end_date |}.

Definition api_get_sales_overview (db : Database)
    (start_date end_date : option Z) (store_ids channel_ids : option string)
    : result SalesOverviewResponse.t :=
  let date_range := request_date_range start_date end_date in
  filters <- request_filters store_ids channel_ids ;;
  Ok (get_sales_overview db (Some date_range) (Some filters)).

Definition api_get_product_ranking (db : Database)
    (start_date end_date : option Z) (store_ids channel_ids : option string)
    (limit : option Z) : result ProductRankingResponse.t :=
  limit <- int_query 20 (Some 1) (Some 100) limit ;;
  let date_range := request_date_range start_date end_date in
  filters <- request_filters store_ids channel_ids ;;
  products <- get_product_ranking db (Some date_range) (Some filters) limit ;;
  Ok {| ProductRankingResponse.products := products;
        ProductRankingResponse.total_count := Z.of_nat (List.length products) |}.

Definition api_get_channel_performance (db : Database)
    (start_date end_date : option Z) (store_ids : option string)
    : result (list ChannelPerformanceItem.t) :=
  let date_range := request_date_range start_date end_date in
  filters <- request_filters store_ids None ;;
  get_channel_performance db (Some date_range) (Some filters).

Definition api_get_store_performance (db : Database)
    (start_date end_date : option Z) (channel_ids : option string)
    : result (list StorePerformanceItem.t) :=
  let date_range := request_date_range start_date end_date in
  filters <- request_filters None channel_ids ;;
  get_store_performance db (Some date_range) (Some filters).

Definition api_get_delivery_performance (db : Database)
    (start_date end_date : option Z) (store_ids channel_ids : option string)
    : result (list DeliveryPerformanceItem.t) :=
  let date_range := request_date_range start_date end_date in
  filters <- request_filters store_ids channel_ids ;;
  Ok (get_delivery_performance db (Some date_range) (Some filters)).

Definition api_get_hourly_performance (db : Database)
    (start_date end_date : option Z) (day_of_week : option Z)
    (store_ids channel_ids : option string)
    : outcome (list HourlyPerformanceItem.t) :=
  outcome_bind (lift (optional_int_query 0 6 day_of_week)) (fun day_of_week =>
  let date_range := request_date_range start_date end_date in
  outcome_bind (lift (request_filters store_ids channel_ids)) (fun filters =>
  get_hourly_performance db (Some date_range) (Some filters) day_of_week)).

Definition api_get_product_margin_analysis (db : Database)
    (start_date end_date : option Z) (store_ids channel_ids : option string)
    (limit : option Z) : result (list ProductMarginItem.t) :=
  limit <- int_query 50 (Some 1) (Some 200) limit ;;
  let date_range := request_date_range start_date end_date in
  filters <- request_filters store_ids channel_ids ;;
  get_product_margin_analysis db (Some date_range) (Some filters) limit.
End Endpoints.

(** The retention endpoint takes no id list. *)
Definition api_get_customer_retention (db : Database) (now : nat -> Z)
    (min_orders days_inactive : option Z) : result CustomerRetentionResponse.t :=
  min_orders <- int_query 3 (Some 1) None min_orders ;;
  days_inactive <- int_query 30 (Some 1) None days_inactive ;;
  customers <- get_customer_retention db now min_orders days_inactive None ;;
  Ok {| CustomerRetentionResponse.customers := customers;
        CustomerRetentionResponse.total_count := Z.of_nat (List.length customers) |}.

(** ** The metadata endpoints ([app/api/v1/metadata.py]) *)

(** The rows of the dimension tables with the columns only these endpoints
    read. *)
Module StoreRow.
Record t := {
  store : Store.t;
  is_active : option bool
}.
End StoreRow.

Module ChannelRow.
Record t := {
  channel : Channel.t;
  description : option string
}.
End ChannelRow.

Module CategoryRow.
Record t := {
  category : Category.t;
  type : option string;
  deleted_at : option Z
}.
End CategoryRow.

Module ProductRow.
Record t := {
  product : Product.t;
  deleted_at : option Z
}.
End ProductRow.

Record Catalog := {
  store_rows : list StoreRow.t;
  channel_rows : list ChannelRow.t;
  category_rows : list CategoryRow.t;
  product_rows : list ProductRow.t
}.

Module StoreInfo.
Record t := {
  id : Z;
  name : string;
  city : option string;
  state : option string;
  is_active : bool
}.
End StoreInfo.

Module ChannelInfo.
Record t := {
  id : Z;
  name : string;
  type : string;
  description : option string
}.
End ChannelInfo.

Module CategoryInfo.
Record t := {
  id : Z;
  name : string;
  type : string
}.
End CategoryInfo.

Module ProductInfo.
Record t := {
  id : Z;
  name : string;
  category_id : option Z;
  category_name : option string
}.
End ProductInfo.

Module MetadataResponse.
Record t := {
  stores : list StoreInfo.t;
  channels : list ChannelInfo.t;
  categories : list CategoryInfo.t
}.
End MetadataResponse.

(** [Store.is_active == True]: not true on [NULL]. *)
Definition is_true (b : option bool) : bool :=
  match b with
  | Some true => true
  | _ => false
  end.

(** [column.is_(None)] *)
Definition is_none {A} (x : option A) : bool :=
  match x with
  | Some _ => false
  | None => true
  end.

Definition store_info (s : StoreRow.t) : result StoreInfo.t :=
  is_active <- required (StoreRow.is_active s) ;;
  Ok {| StoreInfo.id := Store.id (StoreRow.store s);
        StoreInfo.name := Store.name (StoreRow.store s);
        StoreInfo.city := Store.city (StoreRow.store s);
        StoreInfo.state := Store.state (StoreRow.store s);
        StoreInfo.is_active := is_active |}.

Definition channel_info (c : ChannelRow.t) : result ChannelInfo.t :=
  type <- required (Channel.type (ChannelRow.channel c)) ;;
  Ok {| ChannelInfo.id := Channel.id (ChannelRow.channel c);
        ChannelInfo.name := Channel.name (ChannelRow.channel c);
        ChannelInfo.type := type;
        ChannelInfo.description := ChannelRow.description c |}.

Definition category_info (c : CategoryRow.t) : result CategoryInfo.t :=
  type <- required (CategoryRow.type c) ;;
  Ok {| CategoryInfo.id := Category.id (CategoryRow.category c);
        CategoryInfo.name := Category.name (CategoryRow.category c);
        CategoryInfo.type := type |}.

Definition product_info (p : ProductRow.t) : ProductInfo.t :=
  {| ProductInfo.id := Product.id (ProductRow.product p);
     ProductInfo.name := Product.name (ProductRow.product p);
     ProductInfo.category_id := Product.category_id (ProductRow.product p);
     ProductInfo.category_name := None |}.

Definition get_stores (db : Catalog) (active_only : bool)
    : result (list StoreInfo.t) :=
  let query := store_rows db in
  let query :=
    if active_only
    then filter (fun s => is_true (StoreRow.is_active s)) query
    else query in
  let stores := query in
  mapM store_info stores.

Definition get_channels (db : Catalog) : result (list ChannelInfo.t) :=
  let channels := channel_rows db in
  mapM channel_info channels.

Definition get_categories (db : Catalog) : result (list CategoryInfo.t) :=
  let categories :=
    filter (fun c => is_none (CategoryRow.deleted_at c)) (category_rows db) in
  mapM category_info categories.

Definition get_metadata (db : Catalog) : result MetadataResponse.t :=
  let stores_query :=
    filter (fun s => is_true (StoreRow.is_active s)) (store_rows db) in
  stores <- mapM store_info stores_query ;;
  let channels_query := channel_rows db in
  channels <- mapM channel_info channels_query ;;
  let categories_query :=
    filter (fun c => is_none (CategoryRow.deleted_at c)) (category_rows db) in
  categories <- mapM category_info categories_query ;;
  Ok {| MetadataResponse.stores := stores;
        MetadataResponse.channels := channels;
        MetadataResponse.categories := categories |}.

(** [category_id: int = None] and [if category_id:]: [None] and [0] are
    falsy. *)
Definition truthy_int (x : option Z) : bool :=
  match x with
  | Some n => negb (n =? 0)
  | None => false
  end.

Definition get_products (db : Catalog) (category_id : option Z) (limit : Z)
    : result (list ProductInfo.t) :=
  let query :=
    filter (fun p => is_none (ProductRow.deleted_at p)) (product_rows db) in
  let query :=
    match category_id with
    | Some id =>
        if truthy_int category_id
        then filter (fun p => match Product.category_id (ProductRow.product p) with
                              | Some c => c =? id
                              | None => false
                              end) query
        else query
    | None => query
    end in
  products <- sql_limit limit query ;;
  Ok (map product_info products).

(** ** Vocabulary of the properties of the results *)

(** Every element of [l] comes before ([leb]) all the later ones. *)
Fixpoint sorted_by {A} (leb : A -> A -> bool) (l : list A) : Prop :=
  match l with
  | [] => True
  | x :: l' => (forall y, In y l' -> leb x y = true) /\ sorted_by leb l'
  end.

(** The values of [f] do not increase along [l]. *)
Definition descending {A} (f : A -> Q) (l : list A) : Prop :=
  sorted_by (fun a b => Qle_bool (f b) (f a)) l.

(** The values of [f] do not decrease along [l]. *)
Definition ascending {A} (f : A -> Z) (l : list A) : Prop :=
  sorted_by (fun a b => f a <=? f b) l.

(** The number of commas of a text. *)
Fixpoint count_commas (s : string) : nat :=
  match s with
  | EmptyString => 0%nat
  | String c s' => if Ascii.eqb c ","%char then S (count_commas s') else count_commas s'
  end.

(** [int(x)] on a text of decimal digits (the texts a client sends for an
    id); other texts are refused here. *)
Fixpoint digits_value (acc : Z) (s : string) : option Z :=
  match s with
  | EmptyString => Some acc
  | String c s' =>
      let n := Z.of_N (N_of_ascii c) - 48 in
      if (0 <=? n) && (n <=? 9) then digits_value (10 * acc + n) s' else None
  end.

Definition int_of_digits (s : string) : option Z :=
  match s with
  | EmptyString => None
  | _ => digits_value 0 s
  end.

(** A small catalog: an active store, a closed store, a store whose
    [is_active] was never set; one channel; a live and a deleted
    category. *)
Module CatalogExamples.
Definition store (id : Z) (name : string) : Store.t :=
  {| Store.id := id; Store.name := name; Store.city := None; Store.state := None |}.

Definition stores : list StoreRow.t :=
  [{| StoreRow.store := store 1 "Centro"; StoreRow.is_active := Some true |};
   {| StoreRow.store := store 2 "Norte"; StoreRow.is_active := Some false |};
   {| StoreRow.store := store 3 "Sul"; StoreRow.is_active := None |}].

Definition catalog : Catalog :=
  {| store_rows := stores;
     channel_rows :=
       [{| ChannelRow.channel :=
             {| Channel.id := 1; Channel.name := "iFood"; Channel.type := Some "D" |};
           ChannelRow.description := None |}];
     category_rows :=
       [{| CategoryRow.category := {| Category.id := 5; Category.name := "Lanches" |};
           CategoryRow.type := Some "P"; CategoryRow.deleted_at := None |};
        {| CategoryRow.category := {| Category.id := 6; Category.name := "Antigos" |};
           CategoryRow.type := None; CategoryRow.deleted_at := Some 0 |}];
     product_rows :=
       [{| ProductRow.product :=
             {| Product.id := 2; Product.name := "Burger";
                Product.category_id := Some 5 |};
           ProductRow.deleted_at := None |};
        {| ProductRow.product :=
             {| Product.id := 3; Product.name := "Suco";
                Product.category_id := None |};
           ProductRow.deleted_at := Some 0 |}] |}.
End CatalogExamples.

(** ** The prototype's [delivery_performance] ([app/routers/analytics.py]) *)

(** A result row ([dict(r)]). *)
Module DeliveryPerfRow.
Record t := {
  day_of_week : Z;
  hour : Z;
  avg_delivery_seconds : option Q
}.
End DeliveryPerfRow.

(** [ORDER BY day_of_week, hour] on groups keyed by the two. *)
Definition by_day_and_hour (k1 k2 : Z * Z) : bool :=
  (fst k1 <? fst k2) || ((fst k1 =? fst k2) && (snd k1 <=? snd k2)).

(** [AVG(s.delivery_seconds)] *)
Definition avg_delivery_seconds (rows : list Sale.t) : option Q :=
  sql_avg (map (fun s => match Sale.delivery_seconds s with
                         | Some n => Some (inject_Z n)
                         | None => None
                         end) rows).

(** [if start:] is true of every [datetime], so a bound is applied whenever
    it is given. *)
Definition delivery_performance (db : Database) (start end_ : option Z)
    : list DeliveryPerfRow.t :=
  let rows :=
    filter (fun s => completed_prototype s && is_not_none (Sale.delivery_seconds s))
           (sales db) in
  let rows :=
    match start with
    | Some t => filter (fun s => t <=? Sale.created_at s) rows
    | None => rows
    end in
  let rows :=
    match end_ with
    | Some t => filter (fun s => Sale.created_at s <=? t) rows
    | None => rows
    end in
  let groups :=
    group_by (pair_eq_dec Z.eq_dec Z.eq_dec)
             (fun s => (extract_dow (Sale.created_at s),
                        extract_hour (Sale.created_at s)))
             rows in
  let groups := order_by (fun g1 g2 => by_day_and_hour (fst g1) (fst g2)) groups in
  map (fun g : Z * Z * list Sale.t =>
         let '((day_of_week, hour), rows) := g in
         {| DeliveryPerfRow.day_of_week := day_of_week;
            DeliveryPerfRow.hour := hour;
            DeliveryPerfRow.avg_delivery_seconds := avg_delivery_seconds rows |})
      groups.

(** A text without the characters [LIKE] gives a meaning to. *)
Definition plain_text (s : string) : Prop :=
  forall c, In c (list_ascii_of_string s) ->
            c <> "%"%char /\ c <> "_"%char /\ c <> "\"%char.

(** What a ranking item and a margin item both say of a product. *)
Definition product_summary : Type := Z * string * option string * Q * Z.

Definition ranking_summary (it : ProductRankingItem.t) : product_summary :=
  (ProductRankingItem.product_id it, ProductRankingItem.product_name it,
   ProductRankingItem.category_name it, ProductRankingItem.total_revenue it,
   ProductRankingItem.order_count it).

Definition margin_summary (it : ProductMarginItem.t) : product_summary :=
  (ProductMarginItem.product_id it, ProductMarginItem.product_name it,
   ProductMarginItem.category_name it, ProductMarginItem.total_revenue it,
   ProductMarginItem.order_count it).

(** * Properties *)

(** ** Lists *)

Lemma filter_filter {A} (p q : A -> bool) (l : list A) :
  filter q (filter p l) = filter (fun x => p x && q x) l.
Proof.
  induction l as [|x l IH]; simpl; [reflexivity|].
  destruct (p x); simpl; [destruct (q x)|]; rewrite IH; reflexivity.
Qed.

Lemma filter_true {A} (l : list A) : filter (fun _ => true) l = l.
Proof. induction l; simpl; congruence. Qed.

Lemma existsb_Z_In (x : Z) (l : list Z) : in_ x l = true <-> In x l.
Proof.
  unfold in_. rewrite existsb_exists. split.
  - intros [y [Hy E]]. apply Z.eqb_eq in E. subst. assumption.
  - intros H. exists x. split; [assumption | apply Z.eqb_refl].
Qed.

Lemma in_str_In (x : string) (l : list string) : in_str x l = true <-> In x l.
Proof.
  unfold in_str. rewrite existsb_exists. split.
  - intros [y [Hy E]]. apply String.eqb_eq in E. subst. assumption.
  - intros H. exists x. split; [assumption | apply String.eqb_refl].
Qed.

Lemma in_null_In (x : option Z) (l : list Z) :
  in_null x l = true <-> exists c, x = Some c /\ In c l.
Proof.
  destruct x as [c|]; simpl.
  - rewrite existsb_Z_In. split; [eauto|]. intros [c' [E H]]. congruence.
  - split; [discriminate|]. intros [c [E _]]. discriminate.
Qed.

Lemma dim_ok_iff {A} (member : list A -> bool) (o : option (list A)) :
  dim_ok member o = true <->
  (forall ids, o = Some ids -> ids <> [] -> member ids = true).
Proof.
  unfold dim_ok. destruct o as [[|x l]|]; simpl; split; try reflexivity.
  - intros _ ids E N. inversion E. subst. contradiction.
  - intros H ids E _. inversion E. subst. assumption.
  - intros H. apply (H (x :: l)); [reflexivity | discriminate].
  - intros _ ids E. discriminate.
Qed.

(** ** [_apply_filters] is one filter on the sale of each row *)

Lemma filter_if {A} (b : bool) (p : A -> bool) (l : list A) :
  (if b then filter p l else l) = filter (fun x => if b then p x else true) l.
Proof. destruct b; [reflexivity | symmetry; apply filter_true]. Qed.

Lemma filter_bound {A} (d : option Z) (p : Z -> A -> bool) (l : list A) :
  match d with Some v => filter (p v) l | None => l end
  = filter (fun x => match d with Some v => p v x | None => true end) l.
Proof. destruct d; [reflexivity | symmetry; apply filter_true]. Qed.

Lemma apply_filters_filter {R} (sale : R -> Sale.t) (query : list R) date_range filters :
  _apply_filters sale query date_range filters
  = filter (fun r => passes date_range filters (sale r)) query.
Proof.
  unfold _apply_filters, passes, date_ok, dims_ok, dim_ok.
  destruct date_range as [dr|]; destruct filters as [f|]; cbv zeta;
    rewrite ?filter_if;
    rewrite ?(filter_bound _ (fun d r => d <=? Sale.created_at (sale r)));
    rewrite ?(filter_bound _ (fun d r => Sale.created_at (sale r) <=? d));
    rewrite ?filter_filter;
    first [ symmetry; apply filter_true
          | apply filter_ext; intros r; simpl;
            rewrite ?andb_true_r, ?andb_assoc; reflexivity ].
Qed.

Lemma apply_filters_In {R} (sale : R -> Sale.t) (query : list R) date_range filters r :
  In r (_apply_filters sale query date_range filters)
  <-> In r query /\ passes date_range filters (sale r) = true.
Proof. rewrite apply_filters_filter. apply filter_In. Qed.

Lemma date_ok_iff (date_range : option DateRangeFilter.t) (s : Sale.t) :
  date_ok date_range s = true
  <-> forall dr, date_range = Some dr ->
        (forall d, DateRangeFilter.start_date dr = Some d -> d <= Sale.created_at s)
        /\ (forall d, DateRangeFilter.end_date dr = Some d -> Sale.created_at s <= d).
Proof.
  unfold date_ok. destruct date_range as [dr|].
  - rewrite andb_true_iff. split.
    + intros [H1 H2] dr' E. inversion E. subst dr'. split; intros d Ed.
      * rewrite Ed in H1. apply Z.leb_le. exact H1.
      * rewrite Ed in H2. apply Z.leb_le. exact H2.
    + intros H. destruct (H dr eq_refl) as [H1 H2]. split.
      * destruct (DateRangeFilter.start_date dr) as [d|]; [|reflexivity].
        apply Z.leb_le. auto.
      * destruct (DateRangeFilter.end_date dr) as [d|]; [|reflexivity].
        apply Z.leb_le. auto.
  - split; [intros _ dr E; discriminate | reflexivity].
Qed.

(** C1 (amended).  A row is in the input of an aggregate iff it is a row of
    the query, its sale lies within the bounds of the date range that are
    given, and its sale satisfies every one of the four dimension sets
    [store_ids], [channel_ids], [customer_ids] and [sale_status] that is
    present and non-empty in the filter (AND across them, membership within
    each; a sale without customer satisfies no customer set).  An absent or
    empty set does not restrict, and [product_ids] and [category_ids] are
    never looked at. *)
Theorem apply_filters_four_dimensions {R : Type}
    (sale : R -> Sale.t) (query : list R)
    (date_range : option DateRangeFilter.t)
    (f : DimensionFilter.t) (r : R) :
  (In r (_apply_filters sale query date_range (Some f)) <->
   In r query
   /\ (forall dr, date_range = Some dr ->
         (forall d, DateRangeFilter.start_date dr = Some d ->
                    d <= Sale.created_at (sale r))
         /\ (forall d, DateRangeFilter.end_date dr = Some d ->
                       Sale.created_at (sale r) <= d))
   /\ (forall ids, DimensionFilter.store_ids f = Some ids -> ids <> [] ->
         In (Sale.store_id (sale r)) ids)
   /\ (forall ids, DimensionFilter.channel_ids f = Some ids -> ids <> [] ->
         In (Sale.channel_id (sale r)) ids)
   /\ (forall ids, DimensionFilter.customer_ids f = Some ids -> ids <> [] ->
         exists c, Sale.customer_id (sale r) = Some c /\ In c ids)
   /\ (forall statuses, DimensionFilter.sale_status f = Some statuses ->
         statuses <> [] -> In (Sale.sale_status_desc (sale r)) statuses))
  /\ (forall product_ids category_ids,
        _apply_filters sale query date_range
          (Some {| DimensionFilter.store_ids := DimensionFilter.store_ids f;
                   DimensionFilter.channel_ids := DimensionFilter.channel_ids f;
                   DimensionFilter.product_ids := product_ids;
                   DimensionFilter.category_ids := category_ids;
                   DimensionFilter.customer_ids := DimensionFilter.customer_ids f;
                   DimensionFilter.sale_status := DimensionFilter.sale_status f |})
        = _apply_filters sale query date_range (Some f)).
Proof.
  split; [|reflexivity].
  rewrite apply_filters_In. unfold passes, dims_ok.
  rewrite !andb_true_iff, !dim_ok_iff, date_ok_iff.
  split.
  - intros [Hin [Hd [[[H1 H2] H3] H4]]].
    repeat split; try assumption; try (apply Hd; assumption).
    + intros ids E N. apply existsb_Z_In. auto.
    + intros ids E N. apply existsb_Z_In. auto.
    + intros ids E N. apply in_null_In. auto.
    + intros sts E N. apply in_str_In. auto.
  - intros [Hin [Hd [H1 [H2 [H3 H4]]]]].
    repeat split; try assumption; try (apply Hd; assumption).
    + intros ids E N. apply existsb_Z_In. auto.
    + intros ids E N. apply existsb_Z_In. auto.
    + intros sts E N. apply in_str_In. auto.
    + intros ids E N. apply in_null_In. auto.
Qed.

(** The theorem at a one-sale table and a filter on store 1. *)
Lemma apply_filters_four_dimensions_witness :
  In Examples.burger_sale
     (_apply_filters (fun s => s) (sales Examples.burger_db) None
                     (Some Examples.store_1_filter)).
Proof.
  apply (proj1 (apply_filters_four_dimensions (fun s => s)
                  (sales Examples.burger_db) None
                  Examples.store_1_filter Examples.burger_sale)).
  split; [left; reflexivity|].
  split; [intros dr E; discriminate|].
  repeat split; intros ids E N; try discriminate.
  inversion E. subst. left. reflexivity.
Defined.

(** C1 as stated fails: the filter asks for product 7, the only sale holds
    product 2, and the sale is still in the input of the aggregate. *)
Lemma product_ids_not_applied :
  In Examples.burger_sale
     (_apply_filters (fun s => s) (sales Examples.burger_db) None
                     (Some Examples.product_7_filter))
  /\ spec_six_dimensions Examples.burger_db Examples.product_7_filter
       Examples.burger_sale = false.
Proof. split; [left; reflexivity | reflexivity]. Qed.

(** ** The two notions of "completed" *)

(** A pattern without [%], [_] and backslash matches itself only. *)
Lemma like_literal (pattern : string) :
  (forall c, In c (list_ascii_of_string pattern) ->
             c <> "%"%char /\ c <> "_"%char /\ c <> "\"%char) ->
  forall s, like_at false pattern s = String.eqb pattern s.
Proof.
  induction pattern as [|p pattern IH]; intros Hplain s.
  - destruct s; reflexivity.
  - destruct (Hplain p (or_introl eq_refl)) as [N1 [N2 N3]].
    apply Ascii.eqb_neq in N1, N2, N3.
    simpl. rewrite N1, N3. simpl.
    destruct s as [|c s]; [reflexivity|].
    rewrite N2. simpl. rewrite IH.
    + destruct (Ascii.eqb p c); reflexivity.
    + intros c' Hc'. apply Hplain. right. assumption.
Qed.

Lemma completed_prototype_iff (s : Sale.t) :
  completed_prototype s = true <-> lower (Sale.sale_status_desc s) = "completed".
Proof.
  unfold completed_prototype, ilike, like.
  change (lower "completed") with "completed".
  rewrite like_literal.
  - rewrite String.eqb_eq. split; congruence.
  - intros c Hc. simpl in Hc.
    repeat (destruct Hc as [<-|Hc]; [repeat split; discriminate|]).
    contradiction.
Qed.

Lemma join_filter_left {A B} (p : A -> bool) (on : A -> B -> bool)
    (l : list A) (r : list B) :
  filter (fun x => p (fst x)) (join on l r) = join on (filter p l) r.
Proof.
  unfold join. induction l as [|a l IH]; simpl; [reflexivity|].
  rewrite filter_app, IH.
  destruct (p a) eqn:E; simpl.
  - f_equal. induction (filter (on a) r) as [|b bs IHb]; simpl; [reflexivity|].
    rewrite E, IHb. reflexivity.
  - induction (filter (on a) r) as [|b bs IHb]; simpl; [reflexivity|].
    rewrite E. exact IHb.
Qed.

Lemma join_filter_right {A B} (p : B -> bool) (on : A -> B -> bool)
    (l : list A) (r : list B) :
  filter (fun x => p (snd x)) (join on l r) = join on l (filter p r).
Proof.
  unfold join. induction l as [|a l IH]; simpl; [reflexivity|].
  rewrite filter_app, IH. f_equal.
  rewrite !filter_filter.
  rewrite (filter_ext (fun x => p x && on a x) (fun x => on a x && p x))
    by (intros x; apply andb_comm).
  rewrite <- filter_filter.
  induction (filter (on a) r) as [|b bs IHb]; simpl; [reflexivity|].
  destruct (p b); simpl; rewrite IHb; reflexivity.
Qed.

Lemma outerjoin_filter_left {A B} (p : A -> bool) (on : A -> B -> bool)
    (l : list A) (r : list B) :
  filter (fun x => p (fst x)) (outerjoin on l r) = outerjoin on (filter p l) r.
Proof.
  unfold outerjoin. induction l as [|a l IH]; [reflexivity|].
  cbn [flat_map]. rewrite filter_app, IH. clear IH.
  assert (E : forall bs : list B,
             filter (fun x : A * option B => p (fst x))
                    (map (fun b => (a, Some b)) bs)
             = if p a then map (fun b => (a, Some b)) bs else []).
  { induction bs as [|b bs IHb]; cbn [map filter fst].
    - destruct (p a); reflexivity.
    - rewrite IHb. destruct (p a); reflexivity. }
  cbn [filter].
  destruct (filter (on a) r) as [|b bs] eqn:F.
  - cbn [filter fst]. destruct (p a); cbn [flat_map]; rewrite ?F; reflexivity.
  - rewrite E. destruct (p a); cbn [flat_map]; rewrite ?F; reflexivity.
Qed.

Lemma filter_idem {A} (p : A -> bool) (l : list A) :
  filter p (filter p l) = filter p l.
Proof.
  rewrite filter_filter. apply filter_ext. intros x. destruct (p x); reflexivity.
Qed.

(** The production ranking only reads the sales whose status is COMPLETED. *)
Lemma product_ranking_reads_completed db date_range filters limit :
  get_product_ranking db date_range filters limit
  = get_product_ranking (with_sales db (filter completed (sales db)))
                        date_range filters limit.
Proof.
  unfold get_product_ranking. cbn [sales product_sales products categories with_sales].
  rewrite <- (join_filter_right completed).
  rewrite <- (outerjoin_filter_left (fun r => completed (snd r))).
  rewrite !apply_filters_filter, !filter_filter.
  rewrite (filter_ext
             (fun x : ranking_row =>
                completed (snd (fst x))
                && (passes date_range filters (ranking_sale x)
                    && completed (ranking_sale x)))
             (fun x : ranking_row =>
                passes date_range filters (ranking_sale x)
                && completed (ranking_sale x))).
  - reflexivity.
  - intros r. unfold ranking_sale.
    destruct (completed (snd (fst r))); simpl; [reflexivity|].
    rewrite andb_false_r. reflexivity.
Qed.

(** The prototype only reads the sales whose status matches [completed]
    without regard to case. *)
Lemma top_products_reads_prototype_completed db channel dow hour_start hour_end limit :
  top_products db channel dow hour_start hour_end limit
  = top_products (with_sales db (filter completed_prototype (sales db)))
                 channel dow hour_start hour_end limit.
Proof.
  unfold top_products. cbn [sales product_sales products channels with_sales].
  rewrite <- (join_filter_left completed_prototype).
  rewrite <- (join_filter_left (fun r => completed_prototype (fst r))).
  rewrite <- (join_filter_left (fun r => completed_prototype (fst (fst r)))).
  unfold top_sale. rewrite filter_idem. reflexivity.
Qed.


(** ** Coalescing of aggregates *)

Lemma or_zero_null_as_zero (x : option Q) : (or_zero x == null_as_zero x)%Q.
Proof.
  destruct x as [q|]; simpl; [|reflexivity].
  destruct (Qeq_bool q 0) eqn:E; [|reflexivity].
  apply Qeq_bool_iff in E. symmetry. assumption.
Qed.

Lemma or_zero_int_some (n : Z) : or_zero_int (Some n) = n.
Proof. simpl. destruct (Z.eqb_spec n 0); congruence. Qed.

Lemma non_null_map_some {A B} (f : A -> B) (l : list A) :
  non_null (map (fun x => Some (f x)) l) = map f l.
Proof. induction l; simpl; congruence. Qed.

Lemma count_sale_id_length {R} (sale : R -> Sale.t) (rows : list R) :
  count_sale_id sale rows = Some (Z.of_nat (List.length rows)).
Proof.
  unfold count_sale_id, sql_count.
  rewrite (non_null_map_some (fun r => Sale.id (sale r))), length_map. reflexivity.
Qed.

Lemma case_status_count (status : string) (query : list Sale.t) :
  or_zero_int (sql_sum_int (map (case_status status) query))
  = count_where (fun s => String.eqb (Sale.sale_status_desc s) status) query.
Proof.
  unfold sql_sum_int, case_status, count_where.
  rewrite (non_null_map_some
             (fun s => if String.eqb (Sale.sale_status_desc s) status then 1 else 0)).
  assert (E : Zsum (map (fun s => if String.eqb (Sale.sale_status_desc s) status
                                  then 1 else 0) query)
              = Z.of_nat (List.length
                  (filter (fun s => String.eqb (Sale.sale_status_desc s) status)
                          query))).
  { induction query as [|s q IH]; [reflexivity|]. simpl.
    destruct (String.eqb (Sale.sale_status_desc s) status); simpl List.length; lia. }
  rewrite <- E. destruct query as [|s q]; [reflexivity|].
  cbn [map]. apply or_zero_int_some.
Qed.

Lemma or_zero_int_null_as_zero (x : option Z) :
  or_zero_int x = null_as_zero_int x.
Proof. destruct x as [n|]; [apply or_zero_int_some | reflexivity]. Qed.

Lemma sql_avg_all_null (l : list (option Q)) :
  (forall x, In x l -> x = None) -> sql_avg l = None.
Proof.
  intros H. unfold sql_avg.
  assert (E : non_null l = []).
  { induction l as [|x l IH]; [reflexivity|].
    rewrite (H x (or_introl eq_refl)). simpl.
    apply IH. intros y Hy. apply H. right. exact Hy. }
  rewrite E. reflexivity.
Qed.

(** C7.  A nullable aggregate reaches the typed response as a number: in the
    sales overview each field equals its aggregate when that is not null and
    0 when it is; in delivery performance the average production time of a
    group without any production time, and the total time with it, are 0;
    and when no sale matches a sales-overview request the response is the
    record whose seven fields are all 0 (the function has no failing case). *)
Theorem sales_overview_null_safe
    (db : Database) (date_range : option DateRangeFilter.t)
    (filters : option DimensionFilter.t) :
  let query := _apply_filters (fun s => s) (sales db) date_range filters in
  let row := overview_row query in
  let response := get_sales_overview db date_range filters in
  (SalesOverviewResponse.total_sales response
     = null_as_zero_int (OverviewRow.total_sales row)
   /\ (SalesOverviewResponse.total_revenue response
      == null_as_zero (OverviewRow.total_revenue row))%Q
   /\ (SalesOverviewResponse.average_ticket response
      == null_as_zero (OverviewRow.average_ticket row))%Q
   /\ SalesOverviewResponse.completed_sales response
      = null_as_zero_int (OverviewRow.completed_sales row)
   /\ SalesOverviewResponse.cancelled_sales response
      = null_as_zero_int (OverviewRow.cancelled_sales row)
   /\ (SalesOverviewResponse.total_discount response
      == null_as_zero (OverviewRow.total_discount row))%Q
   /\ (SalesOverviewResponse.total_delivery_fee response
      == null_as_zero (OverviewRow.total_delivery_fee row))%Q)
  /\ (forall location rows,
        (forall r, In r rows -> Sale.production_seconds (fst r) = None) ->
        let item := delivery_performance_item (location, rows) in
        DeliveryPerformanceItem.avg_production_time_minutes item = 0%Q
        /\ DeliveryPerformanceItem.total_delivery_time_minutes item = 0%Q)
  /\ (query = [] -> response = zero_overview).
Proof.
  intros query row response. split; [|split].
  - repeat split;
      first [ apply or_zero_int_null_as_zero | apply or_zero_null_as_zero ].
  - intros [neighborhood city] rows H item.
    assert (E : avg_production rows = None).
    { unfold avg_production. apply sql_avg_all_null. intros x Hx.
      apply in_map_iff in Hx. destruct Hx as [r [<- Hr]].
      rewrite (H r Hr). reflexivity. }
    subst item. simpl. rewrite E.
    split; [reflexivity|]. destruct (avg_delivery rows); reflexivity.
  - intros E. subst response. unfold get_sales_overview.
    fold query. rewrite E. reflexivity.
Qed.

(** The theorem on the empty database. *)
Lemma sales_overview_null_safe_witness :
  get_sales_overview Examples.empty_db None None = zero_overview.
Proof.
  apply (proj2 (proj2 (sales_overview_null_safe Examples.empty_db None None))).
  reflexivity.
Defined.

Lemma count_where_partition {A} (p q : A -> bool) (l : list A) :
  (forall x, p x = true -> q x = true -> False) ->
  Z.of_nat (List.length l)
  = count_where p l + count_where q l
    + count_where (fun x => negb (p x) && negb (q x)) l.
Proof.
  intros D. unfold count_where. induction l as [|x l IH]; [reflexivity|].
  simpl. specialize (D x).
  destruct (p x), (q x); simpl List.length; try lia; exfalso; auto.
Qed.

(** C10.  In a sales overview, [completed_sales] counts the filtered sales
    whose status is exactly COMPLETED, [cancelled_sales] those whose status
    is exactly CANCELLED, [total_sales] all of them, so that the total is
    the two counts plus the number of sales with any other status, and
    [completed_sales + cancelled_sales <= total_sales]. *)
Theorem overview_counts_partition
    (db : Database) (date_range : option DateRangeFilter.t)
    (filters : option DimensionFilter.t) :
  let query := _apply_filters (fun s => s) (sales db) date_range filters in
  let response := get_sales_overview db date_range filters in
  let is_completed s := String.eqb (Sale.sale_status_desc s) "COMPLETED" in
  let is_cancelled s := String.eqb (Sale.sale_status_desc s) "CANCELLED" in
  SalesOverviewResponse.completed_sales response = count_where is_completed query
  /\ SalesOverviewResponse.cancelled_sales response = count_where is_cancelled query
  /\ SalesOverviewResponse.total_sales response
     = SalesOverviewResponse.completed_sales response
       + SalesOverviewResponse.cancelled_sales response
       + count_where (fun s => negb (is_completed s) && negb (is_cancelled s)) query
  /\ SalesOverviewResponse.completed_sales response
     + SalesOverviewResponse.cancelled_sales response
     <= SalesOverviewResponse.total_sales response.
Proof.
  intros query response is_completed is_cancelled.
  assert (E1 : SalesOverviewResponse.completed_sales response
               = count_where is_completed query)
    by apply case_status_count.
  assert (E2 : SalesOverviewResponse.cancelled_sales response
               = count_where is_cancelled query)
    by apply case_status_count.
  assert (E3 : SalesOverviewResponse.total_sales response
               = Z.of_nat (List.length query)).
  { unfold response, get_sales_overview. simpl.
    fold query. unfold sql_count.
    rewrite (non_null_map_some Sale.id), length_map.
    apply or_zero_int_some. }
  assert (P := count_where_partition is_completed is_cancelled query).
  rewrite E1, E2, E3.
  assert (D : forall s, is_completed s = true -> is_cancelled s = true -> False).
  { intros s H1 H2. unfold is_completed, is_cancelled in *.
    apply String.eqb_eq in H1, H2. rewrite H1 in H2. discriminate. }
  specialize (P D).
  repeat split; try assumption.
  assert (0 <= count_where (fun s => negb (is_completed s) && negb (is_cancelled s))
                           query)
    by (unfold count_where; lia).
  lia.
Qed.

(** C8.  Customer retention does not depend on its [date_range] argument:
    with the same data, clock, [min_orders] and [days_inactive], any two
    date ranges give the same result. *)
Theorem customer_retention_ignores_date_range
    (db : Database) (now : nat -> Z) (min_orders days_inactive : Z)
    (date_range1 date_range2 : option DateRangeFilter.t) :
  get_customer_retention db now min_orders days_inactive date_range1
  = get_customer_retention db now min_orders days_inactive date_range2.
Proof. reflexivity. Qed.

(** ** Time series *)

Lemma date_group_of_other (period : string) :
  period <> "daily" -> period <> "weekly" -> period <> "monthly" ->
  date_group_of period = date_group_of "daily".
Proof.
  intros N1 N2 N3. unfold date_group_of.
  apply String.eqb_neq in N1, N2, N3. rewrite N1, N2, N3. reflexivity.
Qed.

(** C9.  For a period other than daily, weekly and monthly the service
    groups by day and returns what it returns for [period = 'daily']; it has
    no failing case.  Such a period is refused by the declared pattern of
    the endpoint's query parameter, before the service is called, and the
    three valid periods pass it. *)
Theorem time_series_period_fallback :
  (forall db date_range filters period,
      period <> "daily" -> period <> "weekly" -> period <> "monthly" ->
      get_time_series db date_range filters period
      = get_time_series db date_range filters "daily")
  /\ (forall py_int db start_date end_date period store_ids channel_ids,
      period <> "daily" -> period <> "weekly" -> period <> "monthly" ->
      api_get_time_series py_int db start_date end_date (Some period)
                          store_ids channel_ids
      = Raise ValidationError)
  /\ (forall period,
      period = "daily" \/ period = "weekly" \/ period = "monthly" ->
      period_query (Some period) = Ok period).
Proof.
  split; [|split].
  - intros db date_range filters period N1 N2 N3.
    unfold get_time_series. rewrite (date_group_of_other period) by assumption.
    reflexivity.
  - intros py_int db start_date end_date period store_ids channel_ids N1 N2 N3.
    unfold api_get_time_series, period_query.
    apply String.eqb_neq in N1, N2, N3. rewrite N1, N2, N3. reflexivity.
  - intros period [-> | [-> | ->]]; reflexivity.
Qed.

(** The theorem at the period [hourly]. *)
Lemma time_series_period_fallback_witness :
  get_time_series Examples.burger_db None None "hourly"
  = get_time_series Examples.burger_db None None "daily"
  /\ api_get_time_series (fun _ => None) Examples.burger_db None None
       (Some "hourly") None None = Raise ValidationError
  /\ period_query (Some "weekly") = Ok "weekly".
Proof.
  destruct time_series_period_fallback as [H1 [H2 H3]].
  split; [|split].
  - apply H1; discriminate.
  - apply H2; discriminate.
  - apply H3. right. left. reflexivity.
Defined.

(** ** Sums of rationals *)

Section Sums.
Local Open Scope Q_scope.

Lemma Qsum_app (l1 l2 : list Q) : Qsum (l1 ++ l2) == Qsum l1 + Qsum l2.
Proof.
  induction l1 as [|x l1 IH]; simpl.
  - ring.
  - rewrite IH. ring.
Qed.

Lemma Qsum_Permutation (l1 l2 : list Q) :
  Permutation l1 l2 -> Qsum l1 == Qsum l2.
Proof.
  induction 1 as [|x l1 l2 _ IH|x y l|l1 l2 l3 _ IH1 _ IH2]; simpl.
  - reflexivity.
  - rewrite IH. reflexivity.
  - ring.
  - rewrite IH1. exact IH2.
Qed.

Lemma Qsum_nonneg (l : list Q) : (forall x, In x l -> 0 <= x) -> 0 <= Qsum l.
Proof.
  induction l as [|x l IH]; simpl; intros H.
  - apply Qle_refl.
  - assert (0 <= x) by (apply H; left; reflexivity).
    assert (0 <= Qsum l) by (apply IH; intros y Hy; apply H; right; exact Hy).
    change (0 <= x + Qsum l). lra.
Qed.

Lemma Qsum_map_ext {A} (f g : A -> Q) (l : list A) :
  (forall x, In x l -> f x == g x) -> Qsum (map f l) == Qsum (map g l).
Proof.
  induction l as [|x l IH]; simpl; intros H.
  - reflexivity.
  - rewrite (H x (or_introl eq_refl)), IH.
    + reflexivity.
    + intros y Hy. apply H. right. exact Hy.
Qed.

Lemma Qsum_map_scale {A} (f : A -> Q) (c : Q) (l : list A) :
  Qsum (map (fun x => f x * c) l) == Qsum (map f l) * c.
Proof.
  induction l as [|x l IH]; simpl.
  - ring.
  - rewrite IH. ring.
Qed.

Lemma Qsum_map_zero {A} (l : list A) : Qsum (map (fun _ => 0) l) == 0.
Proof.
  induction l as [|x l IH]; simpl.
  - reflexivity.
  - rewrite IH. ring.
Qed.

Lemma Qsum_concat {A} (f : A -> Q) (ll : list (list A)) :
  Qsum (map f (List.concat ll)) == Qsum (map (fun l => Qsum (map f l)) ll).
Proof.
  induction ll as [|l ll IH]; simpl.
  - reflexivity.
  - rewrite map_app, Qsum_app, IH. reflexivity.
Qed.
End Sums.

(** ** Joins *)

Lemma in_join {A B} (on : A -> B -> bool) (l : list A) (r : list B) a b :
  In (a, b) (join on l r) <-> In a l /\ In b r /\ on a b = true.
Proof.
  unfold join. rewrite in_flat_map. split.
  - intros [a' [Ha Hb]]. apply in_map_iff in Hb.
    destruct Hb as [b' [E Hb]]. inversion E. subst.
    apply filter_In in Hb. tauto.
  - intros [Ha [Hb Hon]]. exists a. split; [assumption|].
    apply in_map. apply filter_In. tauto.
Qed.

Lemma filter_join {A B} (p : A * B -> bool) (on : A -> B -> bool)
    (l : list A) (r : list B) :
  filter p (join on l r) = join (fun a b => on a b && p (a, b)) l r.
Proof.
  unfold join. induction l as [|a l IH]; simpl; [reflexivity|].
  rewrite filter_app, IH. f_equal.
  clear IH. induction r as [|b r IH]; simpl; [reflexivity|].
  destruct (on a b); simpl; [|exact IH].
  destruct (p (a, b)); simpl; rewrite IH; reflexivity.
Qed.

(** ** A table with a primary key *)

Section PrimaryKey.
Context {D : Type} (did : D -> Z).

Lemma primary_key_inj (dims : list D) (d1 d2 : D) :
  NoDup (map did dims) -> In d1 dims -> In d2 dims -> did d1 = did d2 -> d1 = d2.
Proof.
  induction dims as [|d dims IH]; simpl; intros N H1 H2 E; [contradiction|].
  inversion N as [|? ? Hnotin N']. subst.
  destruct H1 as [<-|H1], H2 as [<-|H2]; auto.
  - exfalso. apply Hnotin. rewrite E. apply in_map. assumption.
  - exfalso. apply Hnotin. rewrite <- E. apply in_map. assumption.
Qed.

Lemma lookup_absent (dims : list D) (x : Z) :
  ~ In x (map did dims) -> filter (fun d => x =? did d) dims = [].
Proof.
  induction dims as [|d dims IH]; simpl; intros H; [reflexivity|].
  destruct (Z.eqb_spec x (did d)) as [E|E].
  - exfalso. apply H. left. congruence.
  - apply IH. intros H'. apply H. right. assumption.
Qed.

(** A key finds at most one row. *)
Lemma lookup_unique (dims : list D) (x : Z) :
  NoDup (map did dims) ->
  filter (fun d => x =? did d) dims = []
  \/ exists d, In d dims /\ did d = x /\ filter (fun d => x =? did d) dims = [d].
Proof.
  induction dims as [|d dims IH]; simpl; intros N; [left; reflexivity|].
  inversion N as [|? ? Hnotin N']. subst.
  destruct (Z.eqb_spec x (did d)) as [E|E].
  - right. exists d. split; [left; reflexivity|]. split; [congruence|].
    rewrite lookup_absent; [reflexivity | congruence].
  - destruct (IH N') as [H|[d' [Hin [Hd H]]]].
    + left. assumption.
    + right. exists d'. auto.
Qed.

Lemma lookup_present (dims : list D) (d : D) :
  NoDup (map did dims) -> In d dims ->
  filter (fun d' => did d =? did d') dims = [d].
Proof.
  intros N Hin. destruct (lookup_unique dims (did d) N) as [H|[d' [Hin' [E H]]]].
  - assert (Hd : In d (filter (fun d' => did d =? did d') dims))
      by (apply filter_In; split; [assumption | apply Z.eqb_refl]).
    rewrite H in Hd. contradiction.
  - rewrite H. f_equal. apply (primary_key_inj dims); assumption.
Qed.
End PrimaryKey.

(** ** Grouping *)

Section GroupByFacts.
Context {R K : Type} (K_eq_dec : forall x y : K, {x = y} + {x <> y}).
Context (key : R -> K).

Lemma same_key_true (k : K) (r : R) :
  same_key K_eq_dec key k r = true <-> key r = k.
Proof.
  unfold same_key. destruct (K_eq_dec (key r) k); split; congruence.
Qed.

Lemma in_group_by (rows : list R) (k : K) (g : list R) :
  In (k, g) (group_by K_eq_dec key rows)
  <-> In k (map key rows) /\ g = filter (same_key K_eq_dec key k) rows.
Proof.
  unfold group_by. rewrite in_map_iff. split.
  - intros [k' [E Hk]]. inversion E. subst.
    apply nodup_In in Hk. auto.
  - intros [Hk ->]. exists k. split; [reflexivity|].
    apply nodup_In. assumption.
Qed.

Lemma group_by_keys (rows : list R) :
  map fst (group_by K_eq_dec key rows) = nodup K_eq_dec (map key rows).
Proof. unfold group_by. rewrite map_map. simpl. apply map_id. Qed.

(** A group is never empty. *)
Lemma group_not_empty (rows : list R) (k : K) (g : list R) :
  In (k, g) (group_by K_eq_dec key rows) -> g <> [].
Proof.
  intros H. apply in_group_by in H. destruct H as [Hk ->].
  apply in_map_iff in Hk. destruct Hk as [r [E Hr]].
  assert (Hin : In r (filter (same_key K_eq_dec key k) rows))
    by (apply filter_In; split; [assumption | apply same_key_true; assumption]).
  intros E'. rewrite E' in Hin. contradiction.
Qed.

Lemma groups_of_keys (rows : list R) (ks : list K) :
  NoDup ks ->
  Permutation
    (List.concat (map (fun k => filter (same_key K_eq_dec key k) rows) ks))
    (filter (fun r => if in_dec K_eq_dec (key r) ks then true else false) rows).
Proof.
  induction ks as [|k ks IH]; intros N.
  - simpl. induction rows as [|r rows IHr]; simpl; [constructor | exact IHr].
  - inversion N as [|? ? Hnotin N']. subst.
    cbn [map List.concat]. rewrite (IH N'). clear IH.
    induction rows as [|r rows IHr]; [constructor|].
    cbn [filter]. unfold same_key at 1.
    destruct (K_eq_dec (key r) k) as [E|E];
      destruct (in_dec K_eq_dec (key r) ks) as [I|I];
      destruct (in_dec K_eq_dec (key r) (k :: ks)) as [I'|I'].
    + exfalso. apply Hnotin. rewrite <- E. exact I.
    + exfalso. apply Hnotin. rewrite <- E. exact I.
    + simpl. apply perm_skip. exact IHr.
    + exfalso. apply I'. left. auto.
    + rewrite <- Permutation_middle. apply perm_skip. exact IHr.
    + exfalso. apply I'. right. exact I.
    + exfalso. destruct I' as [I'|I']; [apply E; auto | contradiction].
    + exact IHr.
Qed.

(** The groups of a query hold its rows, each once. *)
Lemma group_by_concat (rows : list R) :
  Permutation (List.concat (map snd (group_by K_eq_dec key rows))) rows.
Proof.
  unfold group_by. rewrite map_map. cbn [snd].
  rewrite groups_of_keys by apply NoDup_nodup.
  assert (E : filter (fun r => if in_dec K_eq_dec (key r)
                                    (nodup K_eq_dec (map key rows))
                               then true else false) rows = rows).
  { assert (H : forall r, In r rows -> In (key r) (nodup K_eq_dec (map key rows)))
      by (intros r Hr; apply nodup_In, in_map; exact Hr).
    revert H. generalize (nodup K_eq_dec (map key rows)). intros ks H.
    induction rows as [|r rows IH]; [reflexivity|].
    simpl. destruct (in_dec K_eq_dec (key r) ks) as [I|I].
    - f_equal. apply IH. intros r' Hr'. apply H. right. exact Hr'.
    - exfalso. apply I, H. left. reflexivity. }
  rewrite E. reflexivity.
Qed.
End GroupByFacts.

(** ** Ordering *)

Section OrderByFacts.
Context {A : Type} (leb : A -> A -> bool).

Lemma insert_sorted_perm (x : A) (l : list A) :
  Permutation (insert_sorted leb x l) (x :: l).
Proof.
  induction l as [|y l IH]; simpl; [reflexivity|].
  destruct (leb x y); [reflexivity|].
  rewrite IH. apply perm_swap.
Qed.

Lemma order_by_perm (l : list A) : Permutation (order_by leb l) l.
Proof.
  induction l as [|x l IH]; simpl; [constructor|].
  rewrite insert_sorted_perm. apply perm_skip. exact IH.
Qed.

Lemma order_by_In (l : list A) (x : A) : In x (order_by leb l) <-> In x l.
Proof.
  split; apply Permutation_in; [|symmetry]; apply order_by_perm.
Qed.
End OrderByFacts.

(** ** Comprehensions that may raise *)

Section MapM.
Context {A B : Type} (f : A -> result B).

Lemma mapM_Ok_inv (l : list A) (l' : list B) :
  mapM f l = Ok l' -> Forall2 (fun x y => f x = Ok y) l l'.
Proof.
  revert l'. induction l as [|x l IH]; simpl; intros l' H.
  - inversion H. constructor.
  - destruct (f x) as [y|e] eqn:E; simpl in H; [|discriminate].
    destruct (mapM f l) as [ys|e]; simpl in H; [|discriminate].
    inversion H. subst. constructor; auto.
Qed.

Lemma mapM_Raise_inv (l : list A) (e : exn) :
  mapM f l = Raise e -> exists x, In x l /\ f x = Raise e.
Proof.
  induction l as [|x l IH]; simpl; intros H; [discriminate|].
  destruct (f x) as [y|e'] eqn:E; simpl in H.
  - destruct (mapM f l) as [ys|e'']; simpl in H; [discriminate|].
    inversion H. subst. destruct (IH eq_refl) as [x' [Hin Hx']]. eauto.
  - inversion H. subst. eauto.
Qed.

Lemma mapM_total (l : list A) :
  (forall x, In x l -> exists y, f x = Ok y) -> exists l', mapM f l = Ok l'.
Proof.
  induction l as [|x l IH]; simpl; intros H; [eauto|].
  destruct (H x (or_introl eq_refl)) as [y ->]. simpl.
  destruct IH as [ys ->]; [intros; apply H; right; assumption|].
  simpl. eauto.
Qed.
End MapM.

Lemma Forall2_in_r {A B} (P : A -> B -> Prop) (l : list A) (l' : list B) (y : B) :
  Forall2 P l l' -> In y l' -> exists x, In x l /\ P x y.
Proof.
  induction 1 as [|x y' l l' HP _ IH]; simpl; intros H; [contradiction|].
  destruct H as [<-|H].
  - eauto.
  - destruct (IH H) as [x' [Hin HP']]. eauto.
Qed.

Lemma Qsum_Forall2 {A B} (f : A -> Q) (g : B -> Q) (l : list A) (l' : list B) :
  Forall2 (fun x y => (g y == f x)%Q) l l' ->
  (Qsum (map g l') == Qsum (map f l))%Q.
Proof.
  induction 1 as [|x y l l' E _ IH]; simpl; [reflexivity|].
  rewrite E, IH. reflexivity.
Qed.

(** ** Revenue by dimension: what channel and store performance share *)

Lemma Qlt_bool_iff (a b : Q) : Qlt_bool a b = true <-> (a < b)%Q.
Proof.
  unfold Qlt_bool. rewrite negb_true_iff. split.
  - intros H. apply Qnot_le_lt. intros L. apply Qle_bool_iff in L. congruence.
  - intros H. destruct (Qle_bool b a) eqn:E; [|reflexivity].
    apply Qle_bool_iff in E. exfalso. apply (Qlt_not_le _ _ H E).
Qed.

Lemma sum_total_amount_some {R} (sale : R -> Sale.t) (rows : list R) :
  rows <> [] ->
  sum_total_amount sale rows = Some (revenue (map sale rows)).
Proof.
  intros N. unfold sum_total_amount, sql_sum, revenue.
  rewrite (non_null_map_some (fun r => Sale.total_amount (sale r))).
  rewrite map_map. destruct rows; [contradiction | reflexivity].
Qed.

Lemma or_zero_sum_total_amount {R} (sale : R -> Sale.t) (rows : list R) :
  (or_zero (sum_total_amount sale rows) == revenue (map sale rows))%Q.
Proof.
  rewrite or_zero_null_as_zero. destruct rows as [|r rows].
  - reflexivity.
  - rewrite sum_total_amount_some by discriminate. reflexivity.
Qed.

Lemma total_revenue_under_eq db date_range filters :
  (total_revenue_under db date_range filters
   == revenue (completed_under db date_range filters))%Q.
Proof.
  unfold total_revenue_under. rewrite or_zero_sum_total_amount, map_id.
  reflexivity.
Qed.

(** The percentage of a group never raises, and is the share of the group. *)
Lemma percentage_of_group {R} (sale : R -> Sale.t) (rows : list R) (total : Q) :
  rows <> [] ->
  exists p, percentage_of (sum_total_amount sale rows) total = Ok p
            /\ p = share total (revenue (map sale rows)).
Proof.
  intros N. unfold percentage_of, share.
  rewrite sum_total_amount_some by assumption.
  destruct (Qlt_bool 0 total) eqn:E; [|eauto].
  unfold py_div. destruct (Qeq_bool total 0) eqn:Z.
  - apply Qlt_bool_iff in E. apply Qeq_bool_iff in Z.
    rewrite Z in E. exfalso. apply (Qlt_irrefl 0). exact E.
  - simpl. eauto.
Qed.

Lemma share_positive (total group : Q) :
  (0 < total)%Q -> (share total group == group / total * 100)%Q.
Proof.
  intros H. unfold share. apply Qlt_bool_iff in H. rewrite H. reflexivity.
Qed.

Lemma share_not_positive (total group : Q) :
  (total <= 0)%Q -> share total group = 0%Q.
Proof.
  intros H. unfold share. destruct (Qlt_bool 0 total) eqn:E; [|reflexivity].
  apply Qlt_bool_iff in E. exfalso. apply (Qlt_not_le _ _ E H).
Qed.

Lemma share_total_eq (total total' group : Q) :
  (total == total')%Q -> (share total group == share total' group)%Q.
Proof.
  intros E. unfold share.
  destruct (Qlt_bool 0 total) eqn:E1; destruct (Qlt_bool 0 total') eqn:E2.
  - rewrite E. reflexivity.
  - apply Qlt_bool_iff in E1. rewrite E in E1. apply Qlt_bool_iff in E1. congruence.
  - apply Qlt_bool_iff in E2. rewrite <- E in E2. apply Qlt_bool_iff in E2. congruence.
  - reflexivity.
Qed.

Lemma share_group_eq (total group group' : Q) :
  (group == group')%Q -> (share total group == share total group')%Q.
Proof.
  intros E. unfold share. destruct (Qlt_bool 0 total); [|reflexivity].
  rewrite E. reflexivity.
Qed.

Section Performance.
Context {D K : Type} (K_eq_dec : forall x y : K, {x = y} + {x <> y}).
Context (did : D -> Z) (kf : D -> K) (fk : Sale.t -> Z).
Hypothesis kf_did : forall d d', kf d = kf d' -> did d = did d'.
Variables (db : Database) (dims : list D).
Variables (date_range : option DateRangeFilter.t)
          (filters : option DimensionFilter.t).

Local Abbreviation quals := (completed_under db date_range filters).
Local Abbreviation rows :=
  (filter (fun r : Sale.t * D => completed (fst r))
          (_apply_filters fst (join (fun s d => fk s =? did d) (sales db) dims)
                          date_range filters)).
Local Abbreviation groups := (group_by K_eq_dec (fun r : Sale.t * D => kf (snd r)) rows).

(** Filtering the joined rows is joining the filtered sales. *)
Lemma rows_join : rows = join (fun s d => fk s =? did d) quals dims.
Proof.
  unfold completed_under. rewrite !apply_filters_filter.
  rewrite (join_filter_left (passes date_range filters)).
  rewrite (join_filter_left completed). reflexivity.
Qed.

Hypothesis primary_key : NoDup (map did dims).

Lemma lookup_in_group (d : D) (s : Sale.t) :
  In d dims ->
  filter (fun d' => (fk s =? did d')
                    && same_key K_eq_dec (fun r : Sale.t * D => kf (snd r))
                                (kf d) (s, d')) dims
  = if fk s =? did d then [d] else [].
Proof.
  intros Hd. rewrite <- filter_filter.
  destruct (lookup_unique did dims (fk s) primary_key) as [H|[d' [Hd' [E H]]]];
    rewrite H.
  - destruct (Z.eqb_spec (fk s) (did d)) as [E|E]; [|reflexivity].
    exfalso.
    assert (Hin : In d (filter (fun d' => fk s =? did d') dims))
      by (apply filter_In; split; [assumption | apply Z.eqb_eq; assumption]).
    rewrite H in Hin. contradiction.
  - simpl. unfold same_key. simpl.
    destruct (K_eq_dec (kf d') (kf d)) as [Ek|Ek];
      destruct (Z.eqb_spec (fk s) (did d)) as [Ex|Ex].
    + f_equal. apply (primary_key_inj did dims); auto.
    + exfalso. apply Ex. rewrite <- E. auto.
    + exfalso. apply Ek. f_equal.
      apply (primary_key_inj did dims); congruence.
    + reflexivity.
Qed.

(** A group is a row [d] of the dimension table and holds the completed
    sales under the filter that refer to [d], each once. *)
Lemma group_rows (k : K) (g : list (Sale.t * D)) :
  In (k, g) groups ->
  exists d, In d dims /\ kf d = k
            /\ map fst g = filter (fun s => fk s =? did d) quals.
Proof.
  intros H. apply in_group_by in H. destruct H as [Hk ->].
  apply in_map_iff in Hk. destruct Hk as [[s0 d] [E Hr]]. simpl in E.
  rewrite rows_join in Hr. apply in_join in Hr. destruct Hr as [_ [Hd _]].
  exists d. split; [assumption|]. split; [assumption|]. subst k.
  rewrite rows_join, filter_join. unfold join.
  induction quals as [|s l IH]; [reflexivity|].
  cbn [flat_map filter]. rewrite map_app, IH.
  rewrite (lookup_in_group d s Hd).
  destruct (fk s =? did d); reflexivity.
Qed.

Lemma groups_revenue :
  (Qsum (map (fun g => revenue (map fst (snd g))) groups)
   == revenue (map fst rows))%Q.
Proof.
  unfold revenue at 2.
  rewrite <- (Qsum_Permutation _ _
                (Permutation_map Sale.total_amount
                   (Permutation_map fst
                      (group_by_concat K_eq_dec
                         (fun r : Sale.t * D => kf (snd r)) rows)))).
  rewrite !map_map.
  rewrite (Qsum_concat (fun r : Sale.t * D => Sale.total_amount (fst r))).
  rewrite map_map. apply Qsum_map_ext. intros g _.
  unfold revenue. rewrite map_map. reflexivity.
Qed.

Lemma join_revenue_le (l : list Sale.t) :
  (forall s, In s l -> (0 <= Sale.total_amount s)%Q) ->
  (revenue (map fst (join (fun s d => fk s =? did d) l dims)) <= revenue l)%Q.
Proof.
  unfold revenue, join. induction l as [|s l IH]; intros Hpos.
  - apply Qle_refl.
  - cbn [flat_map]. rewrite !map_app, Qsum_app.
    assert (H0 : (0 <= Sale.total_amount s)%Q) by (apply Hpos; left; reflexivity).
    assert (IH' := IH (fun s' Hs' => Hpos s' (or_intror Hs'))).
    change (Qsum (map Sale.total_amount (s :: l)))
      with (Sale.total_amount s + Qsum (map Sale.total_amount l))%Q.
    destruct (lookup_unique did dims (fk s) primary_key) as [H|[d [_ [_ H]]]];
      rewrite H; simpl; lra.
Qed.

Lemma join_revenue_eq (l : list Sale.t) :
  (forall s, In s l -> In (fk s) (map did dims)) ->
  (revenue (map fst (join (fun s d => fk s =? did d) l dims)) == revenue l)%Q.
Proof.
  unfold revenue, join. induction l as [|s l IH]; intros Hin.
  - reflexivity.
  - cbn [flat_map]. rewrite !map_app, Qsum_app.
    rewrite (IH (fun s' Hs' => Hin s' (or_intror Hs'))).
    change (Qsum (map Sale.total_amount (s :: l)))
      with (Sale.total_amount s + Qsum (map Sale.total_amount l))%Q.
    assert (Hs := Hin s (or_introl eq_refl)).
    apply in_map_iff in Hs. destruct Hs as [d [E Hd]].
    rewrite <- E, (lookup_present did dims d primary_key Hd). simpl. ring.
Qed.

(** *** The items built from the ordered groups *)

Context {I : Type} (mk : K * list (Sale.t * D) -> result I).
Context (leb : K * list (Sale.t * D) -> K * list (Sale.t * D) -> bool).
Context (iid : I -> Z) (irev ipct : I -> Q) (kid : K -> Z) (total : Q).
Hypothesis kid_kf : forall d, kid (kf d) = did d.
Hypothesis total_eq : (total == revenue quals)%Q.
Hypothesis mk_ok : forall k g it,
    g <> [] -> mk (k, g) = Ok it ->
    iid it = kid k
    /\ ipct it = share total (revenue (map fst g))
    /\ (irev it == revenue (map fst g))%Q.
Hypothesis mk_no_zero_division : forall k g,
    g <> [] -> mk (k, g) <> Raise ZeroDivisionError.

Lemma perf_no_zero_division :
  mapM mk (order_by leb groups) <> Raise ZeroDivisionError.
Proof.
  intros H. apply mapM_Raise_inv in H. destruct H as [[k g] [Hin H]].
  apply order_by_In in Hin.
  apply (mk_no_zero_division k g); [|assumption].
  apply (group_not_empty K_eq_dec _ _ _ _ Hin).
Qed.

(** The percentage of an item is the share of its own revenue. *)
Lemma perf_item_share (items : list I) (it : I) :
  mapM mk (order_by leb groups) = Ok items -> In it items ->
  (ipct it == share total (irev it))%Q.
Proof.
  intros H Hit. apply mapM_Ok_inv in H.
  destruct (Forall2_in_r _ _ _ _ H Hit) as [[k g] [Hin Hmk]].
  apply order_by_In in Hin.
  assert (Hne := group_not_empty K_eq_dec _ _ _ _ Hin).
  destruct (mk_ok k g it Hne Hmk) as [_ [E2 E3]].
  rewrite E2. apply share_group_eq. symmetry. exact E3.
Qed.

(** Every item is the group of one row of the dimension table. *)
Lemma perf_items (items : list I) (it : I) :
  mapM mk (order_by leb groups) = Ok items -> In it items ->
  In (iid it) (map did dims)
  /\ ipct it = share total (revenue (filter (fun s => fk s =? iid it) quals))
  /\ (irev it == revenue (filter (fun s => fk s =? iid it) quals))%Q.
Proof.
  intros H Hit. apply mapM_Ok_inv in H.
  destruct (Forall2_in_r _ _ _ _ H Hit) as [[k g] [Hin Hmk]].
  apply order_by_In in Hin.
  assert (Hne := group_not_empty K_eq_dec _ _ _ _ Hin).
  destruct (group_rows k g Hin) as [d [Hd [Ek Eg]]].
  destruct (mk_ok k g it Hne Hmk) as [E1 [E2 E3]].
  assert (Eid : iid it = did d) by (rewrite E1, <- Ek; apply kid_kf).
  rewrite Eid, <- Eg. split; [apply in_map; assumption | auto].
Qed.

Lemma perf_percentages (items : list I) :
  mapM mk (order_by leb groups) = Ok items ->
  (Qsum (map ipct items)
   == Qsum (map (fun g => share total (revenue (map fst (snd g)))) groups))%Q.
Proof.
  intros H. apply mapM_Ok_inv in H.
  rewrite <- (Qsum_Permutation _ _
                (Permutation_map
                   (fun g => share total (revenue (map fst (snd g))))
                   (order_by_perm leb groups))).
  apply Qsum_Forall2.
  assert (Hin : forall g, In g (order_by leb groups) -> In g groups)
    by (intros g; apply order_by_In).
  revert Hin. induction H as [|[k g] it l l' Hmk _ IH]; intros Hin.
  - constructor.
  - constructor.
    + assert (Hg : In (k, g) groups) by (apply Hin; left; reflexivity).
      destruct (mk_ok k g it (group_not_empty K_eq_dec _ _ _ _ Hg) Hmk)
        as [_ [-> _]].
      reflexivity.
    + apply IH. intros g' Hg'. apply Hin. right. exact Hg'.
Qed.

Lemma shares_sum (gs : list (K * list (Sale.t * D))) :
  (0 < total)%Q ->
  (Qsum (map (fun g => share total (revenue (map fst (snd g)))) gs)
   == Qsum (map (fun g => revenue (map fst (snd g))) gs) * (/ total * 100))%Q.
Proof.
  intros Hpos. rewrite <- Qsum_map_scale. apply Qsum_map_ext. intros g _.
  unfold share. apply Qlt_bool_iff in Hpos. rewrite Hpos.
  unfold Qdiv. ring.
Qed.

(** The percentages of a result sum to at most 100. *)
Lemma perf_sum_le (items : list I) :
  (forall s, In s (sales db) -> (0 <= Sale.total_amount s)%Q) ->
  mapM mk (order_by leb groups) = Ok items ->
  (Qsum (map ipct items) <= 100)%Q.
Proof.
  intros Hpos H. rewrite (perf_percentages items H).
  destruct (Qlt_bool 0 total) eqn:E.
  - apply Qlt_bool_iff in E. rewrite (shares_sum _ E).
    rewrite groups_revenue, rows_join.
    assert (L : (revenue (map fst (join (fun s d => fk s =? did d) quals dims))
                 <= total)%Q).
    { rewrite total_eq. apply join_revenue_le. intros s Hs. apply Hpos.
      unfold completed_under in Hs. rewrite apply_filters_filter in Hs.
      apply filter_In in Hs. destruct Hs as [Hs _].
      apply filter_In in Hs. tauto. }
    set (S := revenue (map fst (join (fun s d => fk s =? did d) quals dims))) in *.
    assert (D1 : (S / total <= 1)%Q)
      by (apply Qle_shift_div_r; [assumption | lra]).
    unfold Qdiv in D1. rewrite Qmult_assoc. lra.
  - rewrite (Qsum_map_ext _ (fun _ => 0%Q)).
    + rewrite Qsum_map_zero. lra.
    + intros g _. unfold share. rewrite E. reflexivity.
Qed.

(** With a positive total they sum to 100 as soon as every completed sale
    under the filter belongs to a listed group. *)
Lemma perf_sum_eq (items : list I) :
  (0 < total)%Q ->
  (forall s, In s quals -> In (fk s) (map iid items)) ->
  mapM mk (order_by leb groups) = Ok items ->
  (Qsum (map ipct items) == 100)%Q.
Proof.
  intros Hpos Hall H. rewrite (perf_percentages items H).
  rewrite (shares_sum _ Hpos), groups_revenue, rows_join.
  rewrite join_revenue_eq.
  - rewrite <- total_eq. field. intros Z. rewrite Z in Hpos.
    apply (Qlt_irrefl 0). exact Hpos.
  - intros s Hs. specialize (Hall s Hs). apply in_map_iff in Hall.
    destruct Hall as [it [E Hit]]. rewrite <- E.
    apply (perf_items items it H Hit).
Qed.
End Performance.

(** ** Channel and store performance *)

Lemma channel_item_ok total k g it :
  g <> [] -> channel_performance_item total (k, g) = Ok it ->
  ChannelPerformanceItem.channel_id it = fst (fst k)
  /\ ChannelPerformanceItem.revenue_percentage it = share total (revenue (map fst g))
  /\ (ChannelPerformanceItem.total_revenue it == revenue (map fst g))%Q.
Proof.
  intros N H. destruct k as [[id name] ty]. unfold channel_performance_item in H.
  destruct (percentage_of_group fst g total N) as [p [Hp Ep]].
  rewrite Hp in H. simpl in H. destruct ty as [ty|]; simpl in H; [|discriminate].
  inversion H. subst it. simpl. repeat split.
  - exact Ep.
  - apply or_zero_sum_total_amount.
Qed.

Lemma channel_item_no_zero_division total k g :
  g <> [] -> channel_performance_item total (k, g) <> Raise ZeroDivisionError.
Proof.
  intros N. destruct k as [[id name] ty]. unfold channel_performance_item.
  destruct (percentage_of_group fst g total N) as [p [Hp _]].
  rewrite Hp. simpl. destruct ty; simpl; discriminate.
Qed.

Lemma store_item_ok total k g it :
  g <> [] -> store_performance_item total (k, g) = Ok it ->
  StorePerformanceItem.store_id it = fst (fst (fst k))
  /\ StorePerformanceItem.revenue_percentage it = share total (revenue (map fst g))
  /\ (StorePerformanceItem.total_revenue it == revenue (map fst g))%Q.
Proof.
  intros N H. destruct k as [[[id name] city] state].
  unfold store_performance_item in H.
  destruct (percentage_of_group fst g total N) as [p [Hp Ep]].
  rewrite Hp in H. simpl in H.
  inversion H. subst it. simpl. repeat split.
  - exact Ep.
  - apply or_zero_sum_total_amount.
Qed.

Lemma store_item_total total k g :
  g <> [] -> exists it, store_performance_item total (k, g) = Ok it.
Proof.
  intros N. destruct k as [[[id name] city] state].
  unfold store_performance_item.
  destruct (percentage_of_group fst g total N) as [p [Hp _]].
  rewrite Hp. simpl. eauto.
Qed.

Lemma channel_key_id (c c' : Channel.t) :
  (Channel.id c, Channel.name c, Channel.type c)
  = (Channel.id c', Channel.name c', Channel.type c') ->
  Channel.id c = Channel.id c'.
Proof. congruence. Qed.

Lemma store_key_id (st st' : Store.t) :
  (Store.id st, Store.name st, Store.city st, Store.state st)
  = (Store.id st', Store.name st', Store.city st', Store.state st') ->
  Store.id st = Store.id st'.
Proof. congruence. Qed.

(** The items of a channel performance result. *)
Lemma channel_performance_items db date_range filters items it :
  NoDup (map Channel.id (channels db)) ->
  get_channel_performance db date_range filters = Ok items -> In it items ->
  let total := revenue (completed_under db date_range filters) in
  let group :=
    revenue (filter (fun s => Sale.channel_id s =? ChannelPerformanceItem.channel_id it)
                    (completed_under db date_range filters)) in
  In (ChannelPerformanceItem.channel_id it) (map Channel.id (channels db))
  /\ (ChannelPerformanceItem.revenue_percentage it == share total group)%Q
  /\ (ChannelPerformanceItem.total_revenue it == group)%Q.
Proof.
  intros N H Hit total group.
  destruct (perf_items channel_key_eq_dec Channel.id
              (fun c => (Channel.id c, Channel.name c, Channel.type c))
              Sale.channel_id channel_key_id db (channels db) date_range filters N
              (channel_performance_item (total_revenue_under db date_range filters))
              (by_revenue_desc fst)
              ChannelPerformanceItem.channel_id
              ChannelPerformanceItem.total_revenue
              ChannelPerformanceItem.revenue_percentage
              (fun k => fst (fst k))
              (total_revenue_under db date_range filters)
              (fun _ => eq_refl)
              (channel_item_ok _)
              items it H Hit) as [H1 [H2 H3]].
  split; [exact H1|]. split; [|exact H3].
  rewrite H2. apply share_total_eq, total_revenue_under_eq.
Qed.

Lemma store_performance_items db date_range filters items it :
  NoDup (map Store.id (stores db)) ->
  get_store_performance db date_range filters = Ok items -> In it items ->
  let total := revenue (completed_under db date_range filters) in
  let group :=
    revenue (filter (fun s => Sale.store_id s =? StorePerformanceItem.store_id it)
                    (completed_under db date_range filters)) in
  In (StorePerformanceItem.store_id it) (map Store.id (stores db))
  /\ (StorePerformanceItem.revenue_percentage it == share total group)%Q
  /\ (StorePerformanceItem.total_revenue it == group)%Q.
Proof.
  intros N H Hit total group.
  destruct (perf_items store_key_eq_dec Store.id
              (fun st => (Store.id st, Store.name st, Store.city st, Store.state st))
              Sale.store_id store_key_id db (stores db) date_range filters N
              (store_performance_item (total_revenue_under db date_range filters))
              (by_revenue_desc fst)
              StorePerformanceItem.store_id
              StorePerformanceItem.total_revenue
              StorePerformanceItem.revenue_percentage
              (fun k => fst (fst (fst k)))
              (total_revenue_under db date_range filters)
              (fun _ => eq_refl)
              (store_item_ok _)
              items it H Hit) as [H1 [H2 H3]].
  split; [exact H1|]. split; [|exact H3].
  rewrite H2. apply share_total_eq, total_revenue_under_eq.
Qed.

(** Store performance always returns. *)
Lemma store_performance_total db date_range filters :
  exists items, get_store_performance db date_range filters = Ok items.
Proof.
  unfold get_store_performance. apply mapM_total. intros [k g] Hin.
  apply order_by_In in Hin. apply store_item_total.
  apply (group_not_empty store_key_eq_dec _ _ _ _ Hin).
Qed.

(** Channel performance returns when no channel has a null type. *)
Lemma channel_performance_total db date_range filters :
  (forall c, In c (channels db) -> Channel.type c <> None) ->
  exists items, get_channel_performance db date_range filters = Ok items.
Proof.
  intros Hty. unfold get_channel_performance. apply mapM_total.
  intros [k g] Hin. apply order_by_In in Hin.
  assert (N := group_not_empty channel_key_eq_dec _ _ _ _ Hin).
  apply in_group_by in Hin. destruct Hin as [Hk _].
  apply in_map_iff in Hk. destruct Hk as [[s c] [E Hr]].
  apply filter_In in Hr. destruct Hr as [Hr _].
  apply apply_filters_In in Hr. destruct Hr as [Hr _].
  apply in_join in Hr. destruct Hr as [_ [Hc _]].
  unfold channel_key_of in E. simpl in E. subst k.
  unfold channel_performance_item.
  destruct (percentage_of_group fst g
              (total_revenue_under db date_range filters) N) as [p [Hp _]].
  rewrite Hp. simpl.
  destruct (Channel.type c) eqn:T; [simpl; eauto|].
  exfalso. apply (Hty c Hc T).
Qed.

Ltac nodup_ids :=
  simpl; repeat (constructor; [simpl; intuition discriminate|]); constructor.

Lemma channel_item_share db date_range filters items it :
  get_channel_performance db date_range filters = Ok items -> In it items ->
  (ChannelPerformanceItem.revenue_percentage it
   == share (revenue (completed_under db date_range filters))
            (ChannelPerformanceItem.total_revenue it))%Q.
Proof.
  intros H Hit.
  rewrite (perf_item_share channel_key_eq_dec Channel.id
             (fun c => (Channel.id c, Channel.name c, Channel.type c))
             Sale.channel_id db (channels db) date_range filters
             (channel_performance_item (total_revenue_under db date_range filters))
             (by_revenue_desc fst)
             ChannelPerformanceItem.channel_id
             ChannelPerformanceItem.total_revenue
             ChannelPerformanceItem.revenue_percentage
             (fun k => fst (fst k)) _ (channel_item_ok _) items it H Hit).
  apply share_total_eq, total_revenue_under_eq.
Qed.

Lemma store_item_share db date_range filters items it :
  get_store_performance db date_range filters = Ok items -> In it items ->
  (StorePerformanceItem.revenue_percentage it
   == share (revenue (completed_under db date_range filters))
            (StorePerformanceItem.total_revenue it))%Q.
Proof.
  intros H Hit.
  rewrite (perf_item_share store_key_eq_dec Store.id
             (fun st => (Store.id st, Store.name st, Store.city st, Store.state st))
             Sale.store_id db (stores db) date_range filters
             (store_performance_item (total_revenue_under db date_range filters))
             (by_revenue_desc fst)
             StorePerformanceItem.store_id
             StorePerformanceItem.total_revenue
             StorePerformanceItem.revenue_percentage
             (fun k => fst (fst (fst k))) _ (store_item_ok _) items it H Hit).
  apply share_total_eq, total_revenue_under_eq.
Qed.




Lemma two_channel_amounts s :
  In s (sales Examples.two_channel_db) -> (0 <= Sale.total_amount s)%Q.
Proof.
  simpl. intros [<-|[<-|[<-|[]]]]; simpl; discriminate.
Defined.



(** ** Customer retention *)

Lemma fold_max_spec (v : Z) (vs : list Z) :
  let m := fold_right Z.max v vs in
  (m = v \/ In m vs) /\ v <= m /\ (forall x, In x vs -> x <= m).
Proof.
  induction vs as [|y vs IH]; simpl.
  - split; [left; reflexivity|]. split; [lia|]. intros x [].
  - destruct IH as [Hm [Hv Hall]].
    set (m := fold_right Z.max v vs) in *.
    split; [|split].
    + destruct (Z.max_spec y m) as [[_ E]|[_ E]]; rewrite E.
      * destruct Hm; auto.
      * right. left. reflexivity.
    + lia.
    + intros x [<-|Hx]; [lia|]. specialize (Hall x Hx). lia.
Qed.

(** [max(Sale.created_at)] over a group is the date of its most recent sale. *)
Lemma sql_max_most_recent (rows : list Sale.t) :
  rows <> [] ->
  exists m, sql_max (map (fun s => Some (Sale.created_at s)) rows) = Some m
            /\ most_recent_at rows m.
Proof.
  intros N. unfold sql_max. rewrite (non_null_map_some Sale.created_at).
  destruct rows as [|s l]; [contradiction|]. cbn [map].
  exists (fold_right Z.max (Sale.created_at s) (map Sale.created_at l)).
  split; [reflexivity|].
  destruct (fold_max_spec (Sale.created_at s) (map Sale.created_at l))
    as [Hm [Hv Hall]].
  set (m := fold_right Z.max (Sale.created_at s) (map Sale.created_at l)) in *.
  assert (Hle : forall s', In s' (s :: l) -> Sale.created_at s' <= m).
  { intros s' [<-|Hs']; [exact Hv|]. apply Hall, in_map, Hs'. }
  destruct Hm as [E|Hin].
  - exists s. split; [left; reflexivity|]. split; [|auto].
    intros s' Hs'. rewrite <- E. auto.
  - apply in_map_iff in Hin. destruct Hin as [s0 [E Hs0]].
    exists s0. split; [right; exact Hs0|]. split; [|exact E].
    intros s' Hs'. rewrite E. auto.
Qed.

Lemma sql_min_some (rows : list Sale.t) :
  rows <> [] ->
  exists m, sql_min (map (fun s => Some (Sale.created_at s)) rows) = Some m.
Proof.
  intros N. unfold sql_min. rewrite (non_null_map_some Sale.created_at).
  destruct rows; [contradiction|]. simpl. eauto.
Qed.

Lemma most_recent_at_unique (orders : list Sale.t) (t t' : Z) :
  most_recent_at orders t -> most_recent_at orders t' -> t = t'.
Proof.
  intros [s [Hs [Hmax E]]] [s' [Hs' [Hmax' E']]].
  specialize (Hmax s' Hs'). specialize (Hmax' s Hs). lia.
Qed.

(** The group of a customer in the subquery holds its completed orders. *)
Lemma customer_group_rows (db : Database) (customer : Z) :
  filter (same_key (option_eq_dec Z.eq_dec) Sale.customer_id (Some customer))
         (filter (fun s => is_not_none (Sale.customer_id s) && completed s)
                 (sales db))
  = completed_orders db customer.
Proof.
  rewrite filter_filter. apply filter_ext. intros s. unfold same_key.
  destruct (option_eq_dec Z.eq_dec (Sale.customer_id s) (Some customer)) as [E|E].
  - rewrite E. simpl. rewrite Z.eqb_refl, andb_true_r. reflexivity.
  - destruct (Sale.customer_id s) as [c|]; simpl; [|reflexivity].
    destruct (Z.eqb_spec c customer) as [Ec|Ec]; [congruence|].
    rewrite andb_false_r. reflexivity.
Qed.

(** The rows of [customer_stats]: one per customer with a completed order. *)
Lemma in_customer_stats (db : Database) (r : CustomerStats.t) :
  In r (customer_stats db)
  <-> exists customer,
        completed_orders db customer <> []
        /\ r = customer_stats_row (Some customer, completed_orders db customer).
Proof.
  unfold customer_stats. rewrite in_map_iff. split.
  - intros [[k g] [E Hin]].
    assert (N := group_not_empty _ _ _ _ _ Hin).
    apply in_group_by in Hin. destruct Hin as [Hk Hg].
    apply in_map_iff in Hk. destruct Hk as [s [Ek Hs]].
    apply filter_In in Hs. destruct Hs as [_ Hs].
    apply andb_true_iff in Hs. destruct Hs as [Hs _].
    rewrite Ek in Hs. destruct k as [customer|]; [|discriminate].
    exists customer. rewrite customer_group_rows in Hg. subst g.
    split; [exact N | symmetry; exact E].
  - intros [customer [N ->]].
    exists (Some customer, completed_orders db customer).
    split; [reflexivity|]. apply in_group_by. split.
    + destruct (completed_orders db customer) as [|s l] eqn:E; [contradiction|].
      assert (Hs : In s (completed_orders db customer))
        by (rewrite E; left; reflexivity).
      unfold completed_orders in Hs. apply filter_In in Hs.
      destruct Hs as [Hs Hc]. apply andb_true_iff in Hc. destruct Hc as [Hc1 Hc2].
      apply in_map_iff. exists s. split.
      * destruct (Sale.customer_id s) as [c|]; [|discriminate].
        apply Z.eqb_eq in Hc1. congruence.
      * apply filter_In. split; [exact Hs|].
        destruct (Sale.customer_id s); [|discriminate]. simpl. exact Hc2.
    + symmetry. apply customer_group_rows.
Qed.

(** The item of a row with its aggregates present. *)
Lemma retention_items (now : nat -> Z) (n : nat)
    (query : list (Customer.t * CustomerStats.t)) :
  (forall x, In x query ->
             CustomerStats.total_orders (snd x) <> None
             /\ CustomerStats.last_order_date (snd x) <> None
             /\ CustomerStats.first_order_date (snd x) <> None) ->
  exists items,
    mapM (customer_retention_item now) (numbered n query) = Ok items
    /\ map CustomerRetentionItem.customer_id items
       = map (fun x => Customer.id (fst x)) query.
Proof.
  revert n. induction query as [|[c r] query IH]; intros n H.
  - exists []. split; reflexivity.
  - destruct (H (c, r) (or_introl eq_refl)) as [H1 [H2 H3]]. simpl in H1, H2, H3.
    destruct (IH (S n) (fun x Hx => H x (or_intror Hx))) as [items [E1 E2]].
    cbn [numbered mapM]. rewrite E1. unfold customer_retention_item.
    destruct (CustomerStats.total_orders r); [|contradiction].
    destruct (CustomerStats.last_order_date r); [|contradiction].
    destruct (CustomerStats.first_order_date r); [|contradiction].
    simpl. eexists. split; [reflexivity|]. simpl. rewrite E2. reflexivity.
Qed.

Lemma stats_row_fields (customer : Z) (orders : list Sale.t) :
  orders <> [] ->
  let r := customer_stats_row (Some customer, orders) in
  CustomerStats.customer_id r = Some customer
  /\ CustomerStats.total_orders r = Some (Z.of_nat (List.length orders))
  /\ (exists m, CustomerStats.last_order_date r = Some m /\ most_recent_at orders m)
  /\ CustomerStats.first_order_date r <> None.
Proof.
  intros N r. subst r. simpl.
  split; [reflexivity|]. split; [apply count_sale_id_length|]. split.
  - apply sql_max_most_recent. exact N.
  - destruct (sql_min_some orders N) as [m ->]. discriminate.
Qed.

(** The rows the main query of customer retention keeps. *)
Lemma retention_query_in (db : Database) (min_orders cutoff_date : Z)
    (c : Customer.t) (r : CustomerStats.t) :
  In (c, r)
     (filter (fun x => sql_ge (CustomerStats.total_orders (snd x)) min_orders
                       && sql_lt (CustomerStats.last_order_date (snd x)) cutoff_date)
             (join (fun c st => match CustomerStats.customer_id st with
                                | Some id => Customer.id c =? id
                                | None => false
                                end)
                   (customers db) (customer_stats db)))
  <-> In c (customers db)
      /\ completed_orders db (Customer.id c) <> []
      /\ r = customer_stats_row (Some (Customer.id c),
                                 completed_orders db (Customer.id c))
      /\ min_orders <= Z.of_nat (List.length (completed_orders db (Customer.id c)))
      /\ most_recent_before (completed_orders db (Customer.id c)) cutoff_date.
Proof.
  rewrite filter_In, in_join, in_customer_stats. cbn [snd]. split.
  - intros [[Hc [[customer [N ->]] Hon]] Hcond].
    destruct (stats_row_fields customer _ N) as [E1 [E2 [[m [E3 Hm]] _]]].
    rewrite E1 in Hon. apply Z.eqb_eq in Hon. subst customer.
    rewrite E2, E3 in Hcond. simpl in Hcond.
    apply andb_true_iff in Hcond. destruct Hcond as [H1 H2].
    apply Z.leb_le in H1. apply Z.ltb_lt in H2.
    repeat split; try assumption. exists m. auto.
  - intros [Hc [N [-> [H1 [t [Ht H2]]]]]].
    destruct (stats_row_fields (Customer.id c) _ N) as [E1 [E2 [[m [E3 Hm]] _]]].
    split; [split; [exact Hc | split]|].
    + exists (Customer.id c). auto.
    + rewrite E1. apply Z.eqb_refl.
    + rewrite E2, E3. simpl. apply andb_true_iff. split.
      * apply Z.leb_le. exact H1.
      * apply Z.ltb_lt. rewrite (most_recent_at_unique _ _ _ Hm Ht). exact H2.
Qed.

Lemma most_recent_not_empty (orders : list Sale.t) (t : Z) :
  most_recent_at orders t -> orders <> [].
Proof. intros [s [Hs _]] E. rewrite E in Hs. contradiction. Qed.

Lemma days_ago_ok (now days : Z) :
  cutoff_exists now days -> days_ago now days = Ok (now - timedelta_days days).
Proof.
  intros [Hd [H1 H2]]. unfold days_ago, timedelta, datetime_sub.
  apply Z.leb_le in Hd, H1, H2. rewrite Hd. cbn [bind]. rewrite H1, H2.
  reflexivity.
Qed.

Lemma days_ago_overflow (now days : Z) :
  ~ cutoff_exists now days -> days_ago now days = Raise OverflowError.
Proof.
  intros H. unfold days_ago, timedelta, datetime_sub.
  destruct (Z.leb_spec (Z.abs days) 999999999) as [Hd|Hd]; [|reflexivity].
  cbn [bind].
  destruct (Z.leb_spec datetime_min (now - timedelta_days days)) as [H1|H1];
    [|reflexivity].
  destruct (Z.leb_spec (now - timedelta_days days) datetime_max) as [H2|H2];
    [|reflexivity].
  exfalso. apply H. split; [exact Hd | split; assumption].
Qed.

(** When the cut-off date exists, customer retention returns, and lists the
    registered customers that meet the retention condition. *)
Lemma customer_retention_members (db : Database) (now : nat -> Z)
    (min_orders days_inactive : Z) (date_range : option DateRangeFilter.t) :
  cutoff_exists (now 0%nat) days_inactive ->
  exists items,
    get_customer_retention db now min_orders days_inactive date_range = Ok items
    /\ forall customer,
         In customer (map CustomerRetentionItem.customer_id items)
         <-> registered db customer
             /\ churn_candidate db (now 0%nat) min_orders days_inactive customer.
Proof.
  intros Hcut. unfold get_customer_retention.
  rewrite (days_ago_ok _ _ Hcut). cbn [bind].
  match goal with
  | |- context [numbered 1 (order_by ?leb ?q)] =>
      set (le := leb); set (query := q)
  end.
  destruct (retention_items now 1 (order_by le query)) as [items [E1 E2]].
  - intros [c r] Hx. apply order_by_In in Hx. unfold query in Hx.
    apply retention_query_in in Hx. destruct Hx as [_ [N [-> _]]].
    destruct (stats_row_fields (Customer.id c) _ N) as [_ [E2 [[m [E3 _]] E4]]].
    cbn [snd]. rewrite E2, E3. repeat split; try discriminate. exact E4.
  - exists items. split; [exact E1|]. intros customer. rewrite E2, in_map_iff.
    unfold registered, churn_candidate. split.
    + intros [[c r] [E Hx]]. simpl in E. subst customer.
      apply order_by_In in Hx. unfold query in Hx.
      apply retention_query_in in Hx. destruct Hx as [Hc [_ [_ [H1 H2]]]].
      split; [exists c; auto | auto].
    + intros [[c [Hc <-]] [H1 H2]].
      exists (c, customer_stats_row (Some (Customer.id c),
                                     completed_orders db (Customer.id c))).
      split; [reflexivity|]. apply order_by_In. unfold query.
      apply retention_query_in. repeat split; try assumption.
      destruct H2 as [t [Ht _]]. apply (most_recent_not_empty _ _ Ht).
Qed.

Lemma days_29_lt_30 (now : Z) : now - timedelta_days 30 < now - timedelta_days 29.
Proof. unfold timedelta_days, microseconds_per_day. lia. Qed.

Lemma days_31_lt_30 (now : Z) : now - timedelta_days 31 < now - timedelta_days 30.
Proof. unfold timedelta_days, microseconds_per_day. lia. Qed.

(** C5 (amended).  Whenever the cut-off date [now - days_inactive days] can
    be formed (at most 999999999 days, a date within the years 1 to 9999),
    customer retention returns exactly the registered customers that have at
    least one completed sale linked to them, at least [min_orders] of them,
    and the most recent one strictly before the cut-off; when it cannot, the
    call raises [OverflowError].  A customer with exactly 3 completed sales,
    the most recent 29 days old, is not returned at [days_inactive = 30];
    with the most recent 31 days old it is returned (for
    [min_orders <= 3]). *)
Theorem customer_retention_exact (db : Database) (now : nat -> Z)
    (date_range : option DateRangeFilter.t) :
  (forall min_orders days_inactive,
      cutoff_exists (now 0%nat) days_inactive ->
      exists items,
        get_customer_retention db now min_orders days_inactive date_range = Ok items
        /\ forall customer,
             In customer (map CustomerRetentionItem.customer_id items)
             <-> registered db customer
                 /\ min_orders
                    <= Z.of_nat (List.length (completed_orders db customer))
                 /\ most_recent_before (completed_orders db customer)
                      (now 0%nat - timedelta_days days_inactive))
  /\ (forall min_orders days_inactive,
        ~ cutoff_exists (now 0%nat) days_inactive ->
        get_customer_retention db now min_orders days_inactive date_range
        = Raise OverflowError)
  /\ (forall min_orders customer,
        cutoff_exists (now 0%nat) 30 ->
        registered db customer ->
        List.length (completed_orders db customer) = 3%nat ->
        exists items,
          get_customer_retention db now min_orders 30 date_range = Ok items
          /\ (most_recent_at (completed_orders db customer)
                (now 0%nat - timedelta_days 29) ->
              ~ In customer (map CustomerRetentionItem.customer_id items))
          /\ (most_recent_at (completed_orders db customer)
                (now 0%nat - timedelta_days 31) ->
              min_orders <= 3 ->
              In customer (map CustomerRetentionItem.customer_id items))).
Proof.
  split; [|split].
  - intros min_orders days_inactive Hcut.
    apply customer_retention_members. exact Hcut.
  - intros min_orders days_inactive Hcut. unfold get_customer_retention.
    rewrite (days_ago_overflow _ _ Hcut). reflexivity.
  - intros min_orders customer Hcut Hreg Hlen.
    destruct (customer_retention_members db now min_orders 30 date_range Hcut)
      as [items [E H]].
    exists items. split; [exact E|]. split.
    + intros Hm Hin. apply H in Hin. destruct Hin as [_ [_ [t [Ht Hlt]]]].
      rewrite (most_recent_at_unique _ _ _ Ht Hm) in Hlt.
      assert (L := days_29_lt_30 (now 0%nat)). lia.
    + intros Hm Hmin. apply H. split; [exact Hreg|]. split.
      * rewrite Hlen. exact Hmin.
      * exists (now 0%nat - timedelta_days 31). split; [exact Hm|].
        apply days_31_lt_30.
Qed.

Lemma ana_most_recent (last : Z) :
  20 <= last ->
  most_recent_at (completed_orders (Examples.ana_db last) 7) (Examples.day last).
Proof.
  intros H. exists (Examples.sale 3 1 1 (Some 7) (Examples.day last) "COMPLETED" 15).
  split; [simpl; auto|]. split; [|reflexivity].
  simpl. unfold Examples.day, microseconds_per_day.
  intros s' [<-|[<-|[<-|[]]]]; simpl; lia.
Qed.

Lemma noon_100_cutoff : cutoff_exists (Examples.noon_100 0%nat) 30.
Proof.
  unfold cutoff_exists, representable. vm_compute.
  repeat split; intros H; discriminate H.
Qed.

(** The theorem on a customer with three completed orders, at noon of day
    100: with the last order on day 71 (29 days old) she is not returned,
    with the last order on day 69 (31 days old) she is. *)
Lemma customer_retention_exact_witness :
  (exists items,
      get_customer_retention (Examples.ana_db 71) Examples.noon_100 3 30 None
      = Ok items
      /\ ~ In 7 (map CustomerRetentionItem.customer_id items))
  /\ (exists items,
      get_customer_retention (Examples.ana_db 69) Examples.noon_100 3 30 None
      = Ok items
      /\ In 7 (map CustomerRetentionItem.customer_id items)).
Proof.
  assert (R : forall last, registered (Examples.ana_db last) 7)
    by (intros last; exists Examples.ana; split; [left|]; reflexivity).
  split.
  - destruct (proj2 (proj2 (customer_retention_exact (Examples.ana_db 71)
                              Examples.noon_100 None))
                3 7 noon_100_cutoff (R 71) eq_refl)
      as [items [E [H _]]].
    exists items. split; [exact E|]. apply H.
    apply (ana_most_recent 71). lia.
  - destruct (proj2 (proj2 (customer_retention_exact (Examples.ana_db 69)
                              Examples.noon_100 None))
                3 7 noon_100_cutoff (R 69) eq_refl)
      as [items [E [_ H]]].
    exists items. split; [exact E|]. apply H.
    + apply (ana_most_recent 69). lia.
    + lia.
Defined.

(** C5 as stated fails for a [days_inactive] beyond what a [timedelta]
    holds: the call returns no list. *)
Lemma retention_without_cutoff_raises :
  get_customer_retention (Examples.ana_db 69) Examples.noon_100 3 1000000000 None
  = Raise OverflowError
  /\ ~ exists items,
        get_customer_retention (Examples.ana_db 69) Examples.noon_100
                               3 1000000000 None = Ok items.
Proof.
  assert (E : get_customer_retention (Examples.ana_db 69) Examples.noon_100
                                     3 1000000000 None = Raise OverflowError)
    by reflexivity.
  split; [exact E|]. intros [items H]. rewrite E in H. discriminate H.
Qed.

(** ** Delivery performance *)

Lemma existsb_filter {A} (p q : A -> bool) (l : list A) :
  existsb (fun x => p x && q x) l = existsb q (filter p l).
Proof.
  induction l as [|x l IH]; simpl; [reflexivity|].
  destruct (p x); simpl; rewrite IH; reflexivity.
Qed.

(** Under a unique key, a conjunction with a key lookup finds one row or
    none. *)
Lemma length_lookup_unique {D} (did : D -> Z) (q : D -> bool) (dims : list D) (x : Z) :
  NoDup (map did dims) ->
  List.length (filter (fun d => (x =? did d) && q d) dims)
  = if existsb (fun d => (x =? did d) && q d) dims then 1%nat else 0%nat.
Proof.
  intros N. rewrite existsb_filter, <- filter_filter.
  destruct (lookup_unique did dims x N) as [H|[d [_ [_ H]]]]; rewrite H.
  - reflexivity.
  - simpl. destruct (q d); reflexivity.
Qed.

Lemma in_group_by_filter {R K} (K_eq_dec : forall x y : K, {x = y} + {x <> y})
    (key : R -> K) (rows : list R) (k : K) :
  In k (map fst (group_by K_eq_dec key rows))
  <-> filter (same_key K_eq_dec key k) rows <> [].
Proof.
  rewrite group_by_keys, nodup_In, in_map_iff. split.
  - intros [r [E Hr]] F.
    assert (Hin : In r (filter (same_key K_eq_dec key k) rows))
      by (apply filter_In; split; [exact Hr | apply same_key_true; exact E]).
    rewrite F in Hin. contradiction.
  - intros N. destruct (filter (same_key K_eq_dec key k) rows) as [|r l] eqn:E;
      [contradiction|].
    assert (Hin : In r (filter (same_key K_eq_dec key k) rows))
      by (rewrite E; left; reflexivity).
    apply filter_In in Hin. destruct Hin as [Hr Hk].
    exists r. split; [apply same_key_true in Hk; exact Hk | exact Hr].
Qed.

Section Delivery.
Variables (db : Database).
Variables (date_range : option DateRangeFilter.t)
          (filters : option DimensionFilter.t).

Local Abbreviation delivery_rows :=
  (filter (fun r : Sale.t * DeliveryAddress.t =>
             completed (fst r) && is_not_none (Sale.delivery_seconds (fst r)))
          (_apply_filters fst
             (join (fun s a => Sale.id s =? DeliveryAddress.sale_id a)
                   (sales db) (delivery_addresses db))
             date_range filters)).

Lemma delivery_rows_join :
  delivery_rows = qualifying_rows db date_range filters.
Proof.
  unfold qualifying_rows, qualifying_sales. rewrite !apply_filters_filter.
  rewrite (join_filter_left (passes date_range filters)).
  rewrite (join_filter_left
             (fun s => completed s && is_not_none (Sale.delivery_seconds s))).
  reflexivity.
Qed.

(** A location is listed iff it has at least five rows. *)
Lemma delivery_listed (location : location_key) :
  In location (listed_locations (get_delivery_performance db date_range filters))
  <-> 5 <= deliveries_at db date_range filters location.
Proof.
  unfold deliveries_at, count_where. rewrite <- delivery_rows_join.
  unfold listed_locations, get_delivery_performance.
  rewrite map_map.
  rewrite (map_ext _ fst)
    by (intros [[n c] g]; reflexivity).
  set (groups := group_by location_key_eq_dec location_key_of delivery_rows).
  split.
  - intros H. apply in_map_iff in H. destruct H as [[k g] [E Hin]].
    simpl in E. subst k. apply order_by_In in Hin.
    apply filter_In in Hin. destruct Hin as [Hin Hcount].
    apply in_group_by in Hin. destruct Hin as [_ ->].
    cbn [snd] in Hcount. rewrite count_sale_id_length in Hcount.
    simpl in Hcount. apply Z.leb_le in Hcount. exact Hcount.
  - intros H.
    set (g := filter (same_key location_key_eq_dec location_key_of location)
                     delivery_rows) in *.
    apply in_map_iff. exists (location, g). split; [reflexivity|].
    apply order_by_In. apply filter_In. split.
    + apply in_group_by. split; [|reflexivity].
      assert (N : g <> []) by (intros E; rewrite E in H; simpl in H; lia).
      apply (in_group_by_filter location_key_eq_dec) in N.
      unfold group_by in N. rewrite map_map in N. simpl in N.
      rewrite map_id in N. apply nodup_In in N. exact N.
    + cbn [snd]. rewrite count_sale_id_length. simpl.
      apply Z.leb_le. exact H.
Qed.

Hypothesis one_address_per_sale :
  NoDup (map DeliveryAddress.sale_id (delivery_addresses db)).

(** With one address per sale, the deliveries at a location are as many as
    the qualifying sales delivered to it. *)
Lemma deliveries_are_sales (location : location_key) :
  deliveries_at db date_range filters location
  = qualifying_deliveries db date_range filters location.
Proof.
  unfold deliveries_at, qualifying_rows. unfold count_where at 1.
  rewrite filter_join.
  unfold qualifying_deliveries, count_where. f_equal.
  unfold join. induction (qualifying_sales db date_range filters) as [|s l IH];
    [reflexivity|].
  cbn [flat_map filter]. rewrite length_app, length_map, IH.
  change (fun b : DeliveryAddress.t =>
            (Sale.id s =? DeliveryAddress.sale_id b)
            && same_key location_key_eq_dec location_key_of location (s, b))
    with (fun b : DeliveryAddress.t =>
            (Sale.id s =? DeliveryAddress.sale_id b)
            && same_key location_key_eq_dec
                        (fun a => (DeliveryAddress.neighborhood a,
                                   DeliveryAddress.city a)) location b).
  rewrite (length_lookup_unique DeliveryAddress.sale_id _ _ _ one_address_per_sale).
  unfold delivered_to.
  destruct (existsb _ (delivery_addresses db)); reflexivity.
Qed.
End Delivery.

(** One more qualifying sale, with a fresh id and its address at the
    location, adds one to the count of the location. *)
Lemma add_delivery_count db date_range filters s a location :
  ~ In (Sale.id s) (map Sale.id (sales db)) ->
  DeliveryAddress.sale_id a = Sale.id s ->
  (DeliveryAddress.neighborhood a, DeliveryAddress.city a) = location ->
  In s (qualifying_sales (add_delivery db s a) date_range filters) ->
  qualifying_deliveries (add_delivery db s a) date_range filters location
  = qualifying_deliveries db date_range filters location + 1.
Proof.
  intros Hfresh Ha Hloc Hq.
  assert (E : qualifying_sales (add_delivery db s a) date_range filters
              = s :: qualifying_sales db date_range filters).
  { unfold qualifying_sales in *. rewrite !apply_filters_filter in *.
    cbn [sales add_delivery] in *.
    apply filter_In in Hq. destruct Hq as [Hq Hc].
    apply filter_In in Hq. destruct Hq as [_ Hp].
    cbn [filter]. rewrite Hp. cbn [filter]. rewrite Hc. reflexivity. }
  unfold qualifying_deliveries, count_where. rewrite E.
  assert (Hnew : delivered_to (add_delivery db s a) location s = true).
  { unfold delivered_to. cbn [delivery_addresses add_delivery existsb].
    rewrite Ha, Z.eqb_refl. simpl.
    assert (K : same_key location_key_eq_dec
                  (fun a => (DeliveryAddress.neighborhood a, DeliveryAddress.city a))
                  location a = true)
      by (apply same_key_true; exact Hloc).
    rewrite K. reflexivity. }
  cbn [filter]. rewrite Hnew.
  assert (Hold : filter (delivered_to (add_delivery db s a) location)
                        (qualifying_sales db date_range filters)
                 = filter (delivered_to db location)
                          (qualifying_sales db date_range filters)).
  { apply filter_ext_in. intros s' Hs'. unfold qualifying_sales in Hs'.
    apply filter_In in Hs'. destruct Hs' as [Hs' _].
    apply apply_filters_In in Hs'. destruct Hs' as [Hs' _].
    unfold delivered_to. cbn [delivery_addresses add_delivery existsb].
    destruct (Z.eqb_spec (Sale.id s') (DeliveryAddress.sale_id a)) as [E'|E'].
    - exfalso. apply Hfresh. rewrite <- Ha, <- E'. apply in_map. exact Hs'.
    - reflexivity. }
  rewrite Hold. simpl List.length. lia.
Qed.



(** * Properties of the rest of the code *)

(** ** Filters compose *)

Lemma filter_none {A} (p : A -> bool) (l : list A) :
  (forall x, In x l -> p x = false) -> filter p l = [].
Proof.
  induction l as [|x l IH]; intros H; [reflexivity|].
  simpl. rewrite (H x (or_introl eq_refl)).
  apply IH. intros y Hy. apply H. right. exact Hy.
Qed.

Lemma passes_date_only date_range s : passes date_range None s = date_ok date_range s.
Proof. unfold passes. simpl. apply andb_true_r. Qed.

Lemma passes_dims_only filters s : passes None filters s = dims_ok filters s.
Proof. reflexivity. Qed.

(** X1.  Filtering is idempotent, the date range and the dimension filter
    can be applied one after the other in either order, a filter object
    without any set is no filter, a query that is a concatenation is
    filtered piece by piece, and no filter adds a row. *)
Theorem apply_filters_compose {R : Type} (sale : R -> Sale.t)
    (query query' : list R) (date_range : option DateRangeFilter.t)
    (filters : option DimensionFilter.t) :
  _apply_filters sale (_apply_filters sale query date_range filters)
                 date_range filters
  = _apply_filters sale query date_range filters
  /\ _apply_filters sale (_apply_filters sale query date_range None) None filters
     = _apply_filters sale query date_range filters
  /\ _apply_filters sale (_apply_filters sale query None filters) date_range None
     = _apply_filters sale query date_range filters
  /\ _apply_filters sale query date_range (Some DimensionFilter.empty)
     = _apply_filters sale query date_range None
  /\ _apply_filters sale (query ++ query') date_range filters
     = (_apply_filters sale query date_range filters
        ++ _apply_filters sale query' date_range filters)%list
  /\ (List.length (_apply_filters sale query date_range filters)
      <= List.length query)%nat.
Proof.
  rewrite !apply_filters_filter. repeat split.
  - apply filter_idem.
  - rewrite filter_filter. apply filter_ext. intros r.
    rewrite passes_date_only, passes_dims_only. reflexivity.
  - rewrite filter_filter. apply filter_ext. intros r.
    rewrite passes_date_only, passes_dims_only. apply andb_comm.
  - apply filter_app.
  - apply filter_length_le.
Qed.

(** ** An inverted date range *)

Lemma inverted_range_passes date_range filters a b s :
  DateRangeFilter.start_date date_range = Some a ->
  DateRangeFilter.end_date date_range = Some b ->
  b < a ->
  passes (Some date_range) filters s = false.
Proof.
  intros Ha Hb Hlt. unfold passes, date_ok. rewrite Ha, Hb.
  destruct (Z.leb_spec a (Sale.created_at s));
    destruct (Z.leb_spec (Sale.created_at s) b); simpl; try reflexivity.
  lia.
Qed.

Lemma inverted_range_empty {R} (sale : R -> Sale.t) (query : list R)
    date_range filters a b :
  DateRangeFilter.start_date date_range = Some a ->
  DateRangeFilter.end_date date_range = Some b ->
  b < a ->
  _apply_filters sale query (Some date_range) filters = [].
Proof.
  intros Ha Hb Hlt. rewrite apply_filters_filter. apply filter_none.
  intros r _. apply (inverted_range_passes _ _ a b); assumption.
Qed.



(** ** Sums over groups *)

Lemma Zsum_app (l1 l2 : list Z) : Zsum (l1 ++ l2) = Zsum l1 + Zsum l2.
Proof.
  induction l1 as [|x l1 IH]; simpl; [reflexivity|].
  unfold Zsum in *. simpl. rewrite IH. lia.
Qed.

Lemma Zsum_Permutation (l1 l2 : list Z) : Permutation l1 l2 -> Zsum l1 = Zsum l2.
Proof.
  unfold Zsum.
  induction 1 as [|x l1 l2 _ IH|x y l|l1 l2 l3 _ IH1 _ IH2]; simpl; lia.
Qed.

Lemma Zsum_group_lengths {K A} (gs : list (K * list A)) :
  Zsum (map (fun g => Z.of_nat (List.length (snd g))) gs)
  = Z.of_nat (List.length (List.concat (map snd gs))).
Proof.
  induction gs as [|g gs IH]; [reflexivity|].
  cbn [map List.concat]. rewrite length_app, Nat2Z.inj_add, <- IH. reflexivity.
Qed.

(** The sizes of the groups of a query add up to the size of the query. *)
Lemma group_by_sizes {R K} (K_eq_dec : forall x y : K, {x = y} + {x <> y})
    (key : R -> K) (leb : K * list R -> K * list R -> bool) (rows : list R) :
  Zsum (map (fun g => Z.of_nat (List.length (snd g)))
            (order_by leb (group_by K_eq_dec key rows)))
  = Z.of_nat (List.length rows).
Proof.
  rewrite (Zsum_Permutation _ _
             (Permutation_map _ (order_by_perm leb (group_by K_eq_dec key rows)))).
  rewrite Zsum_group_lengths.
  rewrite (Permutation_length (group_by_concat K_eq_dec key rows)). reflexivity.
Qed.

(** The revenues of the groups of a query add up to the revenue of the
    query. *)
Lemma group_by_revenues {R K} (K_eq_dec : forall x y : K, {x = y} + {x <> y})
    (key : R -> K) (leb : K * list R -> K * list R -> bool)
    (sale : R -> Sale.t) (rows : list R) :
  (Qsum (map (fun g => revenue (map sale (snd g)))
             (order_by leb (group_by K_eq_dec key rows)))
   == revenue (map sale rows))%Q.
Proof.
  rewrite (Qsum_Permutation _ _
             (Permutation_map _ (order_by_perm leb (group_by K_eq_dec key rows)))).
  unfold revenue at 2.
  rewrite <- (Qsum_Permutation _ _
                (Permutation_map Sale.total_amount
                   (Permutation_map sale (group_by_concat K_eq_dec key rows)))).
  rewrite !map_map.
  rewrite (Qsum_concat (fun r => Sale.total_amount (sale r))).
  rewrite map_map. apply Qsum_map_ext. intros g _.
  unfold revenue. rewrite map_map. reflexivity.
Qed.



(** ** The order of the results *)

Section SortedFacts.
Context {A : Type} (leb : A -> A -> bool).
Hypothesis leb_total : forall x y, leb x y = true \/ leb y x = true.
Hypothesis leb_trans : forall x y z, leb x y = true -> leb y z = true -> leb x z = true.

Lemma insert_sorted_sorted (x : A) (l : list A) :
  sorted_by leb l -> sorted_by leb (insert_sorted leb x l).
Proof.
  induction l as [|y l IH]; intros S.
  - simpl. split; [intros ? []|exact I].
  - cbn [insert_sorted]. destruct S as [Hy S]. destruct (leb x y) eqn:E.
    + split; [|split; assumption].
      intros z [<-|Hz]; [exact E|]. apply (leb_trans _ _ _ E), Hy, Hz.
    + split; [|apply IH, S].
      intros z Hz. apply (Permutation_in _ (insert_sorted_perm leb x l)) in Hz.
      destruct Hz as [<-|Hz]; [|apply Hy, Hz].
      destruct (leb_total x y) as [H|H]; [congruence|exact H].
Qed.

Lemma order_by_sorted (l : list A) : sorted_by leb (order_by leb l).
Proof.
  induction l as [|x l IH]; [exact I|].
  apply insert_sorted_sorted, IH.
Qed.
End SortedFacts.

Lemma sorted_by_weaken {A} (leb leb' : A -> A -> bool) (l : list A) :
  (forall x y, In x l -> In y l -> leb x y = true -> leb' x y = true) ->
  sorted_by leb l -> sorted_by leb' l.
Proof.
  induction l as [|x l IH]; intros W S; [exact I|].
  destruct S as [Hx S]. split.
  - intros y Hy. apply W; [left; reflexivity | right; exact Hy | apply Hx, Hy].
  - apply IH; [|exact S]. intros a b Ha Hb. apply W; right; assumption.
Qed.

Lemma sorted_by_Forall2 {A B} (leb : A -> A -> bool) (leb' : B -> B -> bool)
    (P : A -> B -> Prop) (l : list A) (l' : list B) :
  (forall x y x' y', In x l -> In y l -> P x x' -> P y y' ->
                     leb x y = true -> leb' x' y' = true) ->
  Forall2 P l l' -> sorted_by leb l -> sorted_by leb' l'.
Proof.
  intros W F. induction F as [|x x' l l' Hx F IH]; intros S; [exact I|].
  destruct S as [Hl S]. split.
  - intros y' Hy'. destruct (Forall2_in_r _ _ _ _ F Hy') as [y [Hy Py]].
    apply (W x y); [left; reflexivity | right; exact Hy | exact Hx | exact Py |].
    apply Hl, Hy.
  - apply IH; [|exact S]. intros a b a' b' Ha Hb. apply W; right; assumption.
Qed.

Lemma sorted_by_map {A B} (f : A -> B) (leb : B -> B -> bool) (l : list A) :
  sorted_by (fun a b => leb (f a) (f b)) l -> sorted_by leb (map f l).
Proof.
  induction l as [|x l IH]; intros S; [exact I|].
  destruct S as [Hx S]. split; [|apply IH, S].
  intros y Hy. apply in_map_iff in Hy. destruct Hy as [a [<- Ha]]. apply Hx, Ha.
Qed.

Lemma in_firstn {A} (n : nat) (l : list A) (x : A) : In x (firstn n l) -> In x l.
Proof.
  revert l. induction n as [|n IH]; intros [|y l] H; try contradiction.
  destruct H as [<-|H]; [left; reflexivity | right; apply IH, H].
Qed.

Lemma sorted_by_firstn {A} (leb : A -> A -> bool) (n : nat) (l : list A) :
  sorted_by leb l -> sorted_by leb (firstn n l).
Proof.
  revert l. induction n as [|n IH]; intros [|x l] S; try exact I.
  destruct S as [Hx S]. split; [|apply IH, S].
  intros y Hy. apply Hx. apply (in_firstn _ _ _ Hy).
Qed.

Lemma sorted_by_filter {A} (leb : A -> A -> bool) (p : A -> bool) (l : list A) :
  sorted_by leb l -> sorted_by leb (filter p l).
Proof.
  induction l as [|x l IH]; intros S; [exact I|].
  destruct S as [Hx S]. cbn [filter]. destruct (p x); [|apply IH, S].
  split; [|apply IH, S]. intros y Hy. apply filter_In in Hy. apply Hx, Hy.
Qed.

Lemma desc_leb_total (a b : option Q) : desc_leb a b = true \/ desc_leb b a = true.
Proof.
  destruct a as [x|], b as [y|]; simpl; auto.
  destruct (Qlt_le_dec x y) as [H|H].
  - right. apply Qle_bool_iff, Qlt_le_weak, H.
  - left. apply Qle_bool_iff, H.
Qed.

Lemma desc_leb_trans (a b c : option Q) :
  desc_leb a b = true -> desc_leb b c = true -> desc_leb a c = true.
Proof.
  destruct a as [x|], b as [y|], c as [z|]; simpl; try congruence.
  rewrite !Qle_bool_iff. intros H1 H2. apply (Qle_trans _ _ _ H2 H1).
Qed.

(** [order_by(key.desc())] leaves the groups with their keys in descending
    order, [NULL]s first. *)
Lemma order_by_desc_sorted {A} (key : A -> option Q) (l : list A) :
  sorted_by (fun a b => desc_leb (key a) (key b))
            (order_by (fun a b => desc_leb (key a) (key b)) l).
Proof.
  apply order_by_sorted.
  - intros x y. apply desc_leb_total.
  - intros x y z. apply desc_leb_trans.
Qed.

Lemma desc_leb_or_zero (a b : option Q) (x y : Q) :
  a <> None -> b <> None -> (x == or_zero a)%Q -> (y == or_zero b)%Q ->
  desc_leb a b = true -> Qle_bool y x = true.
Proof.
  intros Na Nb Ex Ey. rewrite or_zero_null_as_zero in Ex, Ey.
  destruct a as [u|]; [|congruence]. destruct b as [v|]; [|congruence].
  simpl in *. rewrite !Qle_bool_iff. rewrite Ex, Ey. tauto.
Qed.

(** The average of a non-empty group times its size is its sum. *)
Lemma avg_times_count {R} (sale : R -> Sale.t) (rows : list R) :
  rows <> [] ->
  (or_zero (avg_total_amount sale rows) * inject_Z (Z.of_nat (List.length rows))
   == revenue (map sale rows))%Q.
Proof.
  intros N. rewrite or_zero_null_as_zero. unfold avg_total_amount, sql_avg.
  rewrite (non_null_map_some (fun r => Sale.total_amount (sale r))).
  destruct (map (fun r => Sale.total_amount (sale r)) rows) as [|x xs] eqn:M.
  - destruct rows; [contradiction | discriminate].
  - rewrite <- M. cbn [null_as_zero]. rewrite length_map. unfold revenue.
    rewrite map_map. field.
    destruct rows; [contradiction|]. simpl List.length.
    intros H. unfold Qeq in H. simpl in H. lia.
Qed.

Lemma group_size_positive {A} (rows : list A) :
  rows <> [] -> 1 <= Z.of_nat (List.length rows).
Proof. destruct rows; [contradiction | simpl List.length; lia]. Qed.

Lemma channel_item_fields total k g it :
  g <> [] -> channel_performance_item total (k, g) = Ok it ->
  ChannelPerformanceItem.total_sales it = Z.of_nat (List.length g)
  /\ (ChannelPerformanceItem.total_revenue it
      == or_zero (sum_total_amount fst g))%Q
  /\ (ChannelPerformanceItem.average_ticket it
      == or_zero (avg_total_amount fst g))%Q.
Proof.
  intros N H. destruct k as [[id name] ty]. unfold channel_performance_item in H.
  destruct (percentage_of_group fst g total N) as [p [Hp Ep]].
  rewrite Hp in H. simpl in H. destruct ty as [ty|]; simpl in H; [|discriminate].
  inversion H. subst it. split; [|split; reflexivity].
  exact (eq_trans (f_equal or_zero_int (count_sale_id_length fst g))
                  (or_zero_int_some _)).
Qed.

Lemma store_item_fields total k g it :
  g <> [] -> store_performance_item total (k, g) = Ok it ->
  StorePerformanceItem.total_sales it = Z.of_nat (List.length g)
  /\ (StorePerformanceItem.total_revenue it
      == or_zero (sum_total_amount fst g))%Q
  /\ (StorePerformanceItem.average_ticket it
      == or_zero (avg_total_amount fst g))%Q.
Proof.
  intros N H. destruct k as [[[id name] city] state].
  unfold store_performance_item in H.
  destruct (percentage_of_group fst g total N) as [p [Hp Ep]].
  rewrite Hp in H. simpl in H.
  inversion H. subst it. split; [|split; reflexivity].
  exact (eq_trans (f_equal or_zero_int (count_sale_id_length fst g))
                  (or_zero_int_some _)).
Qed.

Section PerformanceOrder.
Context {R K I : Type} (K_eq_dec : forall x y : K, {x = y} + {x <> y}).
Context (key : R -> K) (sale : R -> Sale.t) (mk : K * list R -> result I).
Context (isales : I -> Z) (irev iavg : I -> Q).
Hypothesis mk_fields : forall k g it,
  g <> [] -> mk (k, g) = Ok it ->
  isales it = Z.of_nat (List.length g)
  /\ (irev it == or_zero (sum_total_amount sale g))%Q
  /\ (iavg it == or_zero (avg_total_amount sale g))%Q.

(** The items of a query grouped, ordered by revenue and turned into
    response items. *)
Lemma perf_order (rows : list R) (items : list I) :
  mapM mk (order_by (by_revenue_desc sale) (group_by K_eq_dec key rows)) = Ok items ->
  descending irev items
  /\ forall it, In it items ->
       1 <= isales it /\ (iavg it * inject_Z (isales it) == irev it)%Q.
Proof.
  intros H. apply mapM_Ok_inv in H.
  assert (G : forall g, In g (order_by (by_revenue_desc sale)
                                       (group_by K_eq_dec key rows)) ->
                        snd g <> []).
  { intros [k g] Hg. apply order_by_In in Hg.
    apply (group_not_empty _ _ _ _ _ Hg). }
  split.
  - unfold descending.
    refine (sorted_by_Forall2 (by_revenue_desc sale) _ _ _ _ _ H
              (order_by_desc_sorted (fun g => sum_total_amount sale (snd g)) _)).
    intros [k1 g1] [k2 g2] i1 i2 H1 H2 M1 M2 L.
    assert (N1 := G _ H1). assert (N2 := G _ H2). cbn [snd] in N1, N2.
    destruct (mk_fields _ _ _ N1 M1) as [_ [E1 _]].
    destruct (mk_fields _ _ _ N2 M2) as [_ [E2 _]].
    unfold by_revenue_desc in L. cbn [snd] in L.
    refine (desc_leb_or_zero _ _ _ _ _ _ E1 E2 L);
      rewrite sum_total_amount_some by assumption; discriminate.
  - intros it Hit. destruct (Forall2_in_r _ _ _ _ H Hit) as [[k g] [Hg M]].
    assert (N := G _ Hg). cbn [snd] in N.
    destruct (mk_fields _ _ _ N M) as [E1 [E2 E3]].
    rewrite E1. split; [apply group_size_positive, N|].
    rewrite E2, E3, or_zero_sum_total_amount. apply avg_times_count, N.
Qed.
End PerformanceOrder.



(** ** The items of customer retention *)

Lemma fold_min_le (v : Z) (vs : list Z) : fold_right Z.min v vs <= v.
Proof. induction vs as [|y vs IH]; simpl; lia. Qed.

Lemma first_before_last (rows : list Sale.t) :
  rows <> [] ->
  exists a b,
    sql_min (map (fun s => Some (Sale.created_at s)) rows) = Some a
    /\ sql_max (map (fun s => Some (Sale.created_at s)) rows) = Some b
    /\ a <= b /\ most_recent_at rows b.
Proof.
  intros N. destruct (sql_max_most_recent rows N) as [b [Eb Hb]].
  exists (match rows with
          | [] => 0
          | s :: l => fold_right Z.min (Sale.created_at s) (map Sale.created_at l)
          end), b.
  split; [|split; [exact Eb|split; [|exact Hb]]].
  - unfold sql_min. rewrite (non_null_map_some Sale.created_at).
    destruct rows; [contradiction | reflexivity].
  - destruct rows as [|s l]; [contradiction|].
    destruct Hb as [s' [_ [Hmax _]]].
    assert (H1 := fold_min_le (Sale.created_at s) (map Sale.created_at l)).
    destruct (sql_max_most_recent (s :: l) N) as [b' [Eb' [s'' [_ [Hmax' E'']]]]].
    rewrite Eb in Eb'. inversion Eb'. subst b'.
    assert (H2 := Hmax' s (or_introl eq_refl)). lia.
Qed.

Lemma in_numbered {A} (n : nat) (l : list A) (k : nat) (x : A) :
  In (k, x) (numbered n l) -> In x l.
Proof.
  revert n. induction l as [|y l IH]; intros n H; [contradiction|].
  destruct H as [H|H]; [inversion H; left; reflexivity | right; apply (IH _ H)].
Qed.

Lemma sorted_by_numbered {A} (leb : A -> A -> bool) (n : nat) (l : list A) :
  sorted_by leb l -> sorted_by (fun a b => leb (snd a) (snd b)) (numbered n l).
Proof.
  revert n. induction l as [|x l IH]; intros n S; [exact I|].
  destruct S as [Hx S]. split; [|apply IH, S].
  intros [k y] Hy. apply Hx. apply (in_numbered _ _ _ _ Hy).
Qed.

(** The item of the group of the completed orders of a customer. *)
Lemma retention_item_fields (now : nat -> Z) (k : nat) (c : Customer.t)
    (customer : Z) (orders : list Sale.t) (it : CustomerRetentionItem.t) :
  orders <> [] ->
  customer_retention_item now (k, (c, customer_stats_row (Some customer, orders)))
  = Ok it ->
  CustomerRetentionItem.total_orders it = Z.of_nat (List.length orders)
  /\ (CustomerRetentionItem.total_spent it
      == or_zero (sum_total_amount (fun s => s) orders))%Q
  /\ (CustomerRetentionItem.average_ticket it
      == or_zero (avg_total_amount (fun s => s) orders))%Q
  /\ most_recent_at orders (CustomerRetentionItem.last_order_date it)
  /\ CustomerRetentionItem.first_order_date it
     <= CustomerRetentionItem.last_order_date it
  /\ CustomerRetentionItem.days_since_last_order it
     = days_between (now k) (CustomerRetentionItem.last_order_date it).
Proof.
  intros N H. destruct (first_before_last orders N) as [a [b [Ea [Eb [Hab Hb]]]]].
  unfold customer_retention_item, customer_stats_row in H.
  cbn [CustomerStats.last_order_date CustomerStats.first_order_date
       CustomerStats.total_orders CustomerStats.total_spent
       CustomerStats.average_ticket] in H.
  rewrite Ea, Eb, count_sale_id_length in H. cbn [bind required] in H.
  inversion H. subst it.
  cbn [CustomerRetentionItem.total_orders CustomerRetentionItem.total_spent
       CustomerRetentionItem.average_ticket CustomerRetentionItem.last_order_date
       CustomerRetentionItem.first_order_date
       CustomerRetentionItem.days_since_last_order].
  repeat split; try reflexivity; assumption.
Qed.

Lemma days_ago_inv (now days cutoff : Z) :
  days_ago now days = Ok cutoff -> cutoff = now - timedelta_days days.
Proof.
  unfold days_ago, timedelta, datetime_sub.
  destruct (Z.abs days <=? 999999999); cbn [bind]; [|discriminate].
  destruct ((datetime_min <=? now - timedelta_days days)
            && (now - timedelta_days days <=? datetime_max)); [|discriminate].
  intros H. inversion H. reflexivity.
Qed.

Lemma days_between_lower (t d days : Z) :
  d < t - timedelta_days days -> days <= days_between t d.
Proof.
  unfold days_between, timedelta_days, microseconds_per_day. intros H.
  apply Z.div_le_lower_bound; lia.
Qed.



(** ** The items of delivery performance *)

Lemma sql_avg_some (l : list (option Q)) (x : Q) :
  In (Some x) l -> sql_avg l <> None.
Proof.
  intros H. unfold sql_avg.
  assert (N : non_null l <> []).
  { induction l as [|y l IH]; [contradiction|].
    destruct H as [->|H]; [discriminate|].
    destruct y; [discriminate | apply IH, H]. }
  destruct (non_null l); [contradiction | discriminate].
Qed.

(** The groups delivery performance lists: their rows are deliveries of
    the query, so each has a delivery time. *)
Lemma delivery_group_rows db date_range filters k g :
  In (k, g)
     (order_by by_total_time_desc
        (filter (fun g => sql_ge (count_sale_id fst (snd g)) 5)
           (group_by location_key_eq_dec location_key_of
              (filter (fun r => completed (fst r)
                                && is_not_none (Sale.delivery_seconds (fst r)))
                 (_apply_filters fst
                    (join (fun s a => Sale.id s =? DeliveryAddress.sale_id a)
                          (sales db) (delivery_addresses db))
                    date_range filters))))) ->
  avg_delivery g <> None
  /\ forall r, In r g -> In (fst r) (sales db).
Proof.
  intros H. apply order_by_In, filter_In in H. destruct H as [H _].
  assert (N := group_not_empty _ _ _ _ _ H).
  apply in_group_by in H. destruct H as [_ ->].
  match goal with
  | |- context [filter ?p (filter ?q ?rows)] => set (g := filter p (filter q rows)) in *
  end.
  assert (G : forall r, In r g ->
                In (fst r) (sales db)
                /\ is_not_none (Sale.delivery_seconds (fst r)) = true).
  { intros [s a] Hr. unfold g in Hr. apply filter_In in Hr. destruct Hr as [Hr _].
    apply filter_In in Hr. destruct Hr as [Hr Hc].
    apply andb_true_iff in Hc. destruct Hc as [_ Hc].
    apply apply_filters_In in Hr. destruct Hr as [Hr _].
    apply in_join in Hr. cbn [fst]. tauto. }
  split; [|intros r Hr; apply (G r Hr)].
  destruct g as [|r g']; [contradiction|].
  destruct (G r (or_introl eq_refl)) as [_ Hd].
  destruct (Sale.delivery_seconds (fst r)) as [n|] eqn:E; [|discriminate].
  unfold avg_delivery. apply (sql_avg_some _ (inject_Z n / 60)%Q).
  left. cbn [minutes]. rewrite E. reflexivity.
Qed.

Lemma delivery_item_total k g :
  avg_delivery g <> None -> avg_production g <> None ->
  let it := delivery_performance_item (k, g) in
  (DeliveryPerformanceItem.total_delivery_time_minutes it
   == DeliveryPerformanceItem.avg_delivery_time_minutes it
      + DeliveryPerformanceItem.avg_production_time_minutes it)%Q
  /\ (DeliveryPerformanceItem.total_delivery_time_minutes it
      == or_zero (sql_add (avg_delivery g) (avg_production g)))%Q.
Proof.
  intros Hd Hp. destruct k as [n c]. cbn zeta.
  unfold delivery_performance_item.
  cbn [DeliveryPerformanceItem.total_delivery_time_minutes
       DeliveryPerformanceItem.avg_delivery_time_minutes
       DeliveryPerformanceItem.avg_production_time_minutes].
  split; [|reflexivity]. unfold float. rewrite !or_zero_null_as_zero.
  destruct (avg_delivery g); [|contradiction].
  destruct (avg_production g); [|contradiction]. reflexivity.
Qed.

Lemma avg_production_some (g : list (Sale.t * DeliveryAddress.t)) :
  g <> [] ->
  (forall r, In r g -> Sale.production_seconds (fst r) <> None) ->
  avg_production g <> None.
Proof.
  intros N H. destruct g as [|r g]; [contradiction|].
  destruct (Sale.production_seconds (fst r)) as [n|] eqn:E;
    [|exfalso; apply (H r (or_introl eq_refl)); exact E].
  unfold avg_production. apply (sql_avg_some _ (inject_Z n / 60)%Q).
  left. cbn [minutes]. rewrite E. reflexivity.
Qed.


(** ** Product ranking and margin analysis *)

Lemma mapM_raises {A B} (f : A -> result B) (l : list A) (e : exn) :
  (forall x e', In x l -> f x = Raise e' -> e' = e) ->
  (exists x, In x l /\ f x = Raise e) -> mapM f l = Raise e.
Proof.
  induction l as [|x l IH]; intros U [x' [Hin Hx']]; [contradiction|].
  cbn [mapM]. destruct (f x) as [y|e'] eqn:E; cbn [bind].
  - destruct Hin as [<-|Hin]; [congruence|].
    rewrite IH; [reflexivity | | eauto].
    intros z e' Hz. apply U. right. exact Hz.
  - rewrite (U x e' (or_introl eq_refl) E). reflexivity.
Qed.

Lemma mapM_length {A B} (f : A -> result B) (l : list A) (l' : list B) :
  mapM f l = Ok l' -> List.length l' = List.length l.
Proof.
  intros H. apply mapM_Ok_inv in H.
  induction H; simpl; congruence.
Qed.

Lemma sql_limit_ok {A} (n : Z) (l : list A) :
  0 <= n -> sql_limit n l = Ok (firstn (Z.to_nat n) l).
Proof.
  intros H. unfold sql_limit. destruct (Z.ltb_spec n 0); [lia | reflexivity].
Qed.

Lemma sql_limit_negative {A} (n : Z) (l : list A) :
  n < 0 -> sql_limit n l = Raise DBAPIError.
Proof.
  intros H. unfold sql_limit. destruct (Z.ltb_spec n 0); [reflexivity | lia].
Qed.

Lemma limit_length {A} (n : Z) (l : list A) :
  0 <= n -> Z.of_nat (List.length (firstn (Z.to_nat n) l)) <= n.
Proof.
  intros H. rewrite length_firstn. lia.
Qed.

(** The unit price of a group can be averaged unless a line has quantity
    0. *)
Lemma avg_unit_price_outcome (rows : list ranking_row) :
  ((exists r, In r rows /\ (ProductSale.quantity (ranking_line r) == 0)%Q) ->
   avg_unit_price rows = Raise DBAPIError)
  /\ ((forall r, In r rows -> ~ (ProductSale.quantity (ranking_line r) == 0)%Q) ->
      exists p, avg_unit_price rows = Ok p)
  /\ forall e, avg_unit_price rows = Raise e -> e = DBAPIError.
Proof.
  unfold avg_unit_price.
  set (f := fun r : ranking_row =>
              sql_div (ProductSale.total_price (ranking_line r))
                      (ProductSale.quantity (ranking_line r))).
  assert (U : forall x e', f x = Raise e' -> e' = DBAPIError).
  { intros x e'. unfold f, sql_div.
    destruct (Qeq_bool _ 0); [congruence | discriminate]. }
  split; [|split].
  - intros [r [Hr Hq]]. rewrite (mapM_raises f rows DBAPIError); [reflexivity | |].
    + intros x e' _. apply U.
    + exists r. split; [exact Hr|]. unfold f, sql_div.
      apply Qeq_bool_iff in Hq. rewrite Hq. reflexivity.
  - intros H. destruct (mapM_total f rows) as [prices ->]; [|cbn [bind]; eauto].
    intros r Hr. unfold f, sql_div.
    destruct (Qeq_bool (ProductSale.quantity (ranking_line r)) 0) eqn:E; [|eauto].
    apply Qeq_bool_iff in E. exfalso. apply (H r Hr E).
  - intros e H. destruct (mapM f rows) as [prices|e'] eqn:E; cbn [bind] in H;
      [discriminate|].
    inversion H. subst e'. apply mapM_Raise_inv in E.
    destruct E as [x [_ Hx]]. apply (U x e Hx).
Qed.

Lemma ranking_result_row_outcome (k : ranking_key) (rows : list ranking_row) :
  ((exists r, In r rows /\ (ProductSale.quantity (ranking_line r) == 0)%Q) ->
   ranking_result_row (k, rows) = Raise DBAPIError)
  /\ ((forall r, In r rows -> ~ (ProductSale.quantity (ranking_line r) == 0)%Q) ->
      exists row, ranking_result_row (k, rows) = Ok row
                  /\ RankingRow.total_quantity row = sum_quantity rows)
  /\ forall e, ranking_result_row (k, rows) = Raise e -> e = DBAPIError.
Proof.
  destruct k as [[id name] category]. unfold ranking_result_row.
  destruct (avg_unit_price_outcome rows) as [H1 [H2 H3]]. split; [|split].
  - intros H. rewrite (H1 H). reflexivity.
  - intros H. destruct (H2 H) as [p ->]. cbn [bind]. eauto.
  - intros e H. destruct (avg_unit_price rows) as [p|e'] eqn:E; cbn [bind] in H;
      [discriminate|].
    inversion H. subst e'. apply (H3 e eq_refl).
Qed.

Lemma sum_quantity_some (rows : list ranking_row) :
  rows <> [] -> sum_quantity rows <> None.
Proof.
  intros N. unfold sum_quantity, sql_sum.
  rewrite (non_null_map_some (fun r => ProductSale.quantity (ranking_line r))).
  destruct rows; [contradiction | discriminate].
Qed.



Lemma Qsum_map_minus {A} (f g : A -> Q) (l : list A) :
  (Qsum (map (fun x => f x - g x) l) == Qsum (map f l) - Qsum (map g l))%Q.
Proof.
  induction l as [|x l IH]; simpl.
  - ring.
  - rewrite IH. ring.
Qed.

Lemma sql_avg_map_some {A} (f : A -> Q) (l : list A) :
  l <> [] ->
  sql_avg (map (fun x => Some (f x)) l)
  = Some (Qsum (map f l) / inject_Z (Z.of_nat (List.length l)))%Q.
Proof.
  intros N. unfold sql_avg. rewrite (non_null_map_some f).
  destruct l as [|a l]; [contradiction|].
  cbn [map List.length]. rewrite length_map. reflexivity.
Qed.

Lemma sql_sum_map_some {A} (f : A -> Q) (l : list A) :
  l <> [] -> sql_sum (map (fun x => Some (f x)) l) = Some (Qsum (map f l)).
Proof.
  intros N. unfold sql_sum. rewrite (non_null_map_some f).
  destruct l as [|a l]; [contradiction | reflexivity].
Qed.

(** The aggregates of a non-empty group of product lines. *)
Lemma margin_group_averages (rows : list ranking_row) :
  rows <> [] ->
  exists b t c s,
    avg_base rows = Some b /\ avg_total rows = Some t
    /\ avg_customization rows = Some c /\ sum_total_price rows = Some s
    /\ (c == t - b)%Q
    /\ (t * inject_Z (Z.of_nat (List.length rows)) == s)%Q.
Proof.
  intros N. unfold avg_base, avg_total, avg_customization, sum_total_price.
  rewrite (sql_avg_map_some
             (fun r => ProductSale.base_price (ranking_line r)) rows N).
  rewrite (sql_avg_map_some
             (fun r => ProductSale.total_price (ranking_line r)) rows N).
  rewrite (sql_avg_map_some
             (fun r => (ProductSale.total_price (ranking_line r)
                        - ProductSale.base_price (ranking_line r))%Q) rows N).
  rewrite (sql_sum_map_some
             (fun r => ProductSale.total_price (ranking_line r)) rows N).
  assert (L : ~ (inject_Z (Z.of_nat (List.length rows)) == 0)%Q).
  { destruct rows; [contradiction|]. simpl List.length.
    intros H. unfold Qeq in H. simpl in H. lia. }
  do 4 eexists.
  split; [reflexivity|]. split; [reflexivity|]. split; [reflexivity|].
  split; [reflexivity|]. split.
  - rewrite (Qsum_map_minus (fun r => ProductSale.total_price (ranking_line r))
                            (fun r => ProductSale.base_price (ranking_line r))).
    field. exact L.
  - field. exact L.
Qed.


(** ** Hourly performance *)

(** X10.  With a [day_of_week] the statement still selects the day of the
    week but groups by the hour alone; PostgreSQL refuses such a statement,
    so the call fails with a database error whatever the data, the dates
    and the filter. *)
Theorem hourly_performance_day_of_week_fails
    (db : Database) (date_range : option DateRangeFilter.t)
    (filters : option DimensionFilter.t) (day_of_week : Z) :
  get_hourly_performance db date_range filters (Some day_of_week)
  = Raises (Builtin DBAPIError).
Proof.
  unfold get_hourly_performance, hourly_rows.
  replace (grouping_accepted [hour_extract; dow_extract] [hour_extract])
    with false by reflexivity.
  reflexivity.
Qed.

Lemma outcome_mapM_returns {A B} (f : A -> outcome B) (l : list A) :
  (forall x, In x l -> exists y, f x = Returns y) ->
  exists l', outcome_mapM f l = Returns l'
             /\ Forall2 (fun x y => f x = Returns y) l l'.
Proof.
  induction l as [|x l IH]; intros H.
  - exists []. split; [reflexivity | constructor].
  - destruct (H x (or_introl eq_refl)) as [y Hy].
    destruct IH as [l' [E F]]; [intros z Hz; apply H; right; exact Hz|].
    exists (y :: l'). cbn [outcome_mapM]. rewrite Hy, E.
    split; [reflexivity | constructor; assumption].
Qed.

Lemma Zsum_Forall2 {A B} (f : A -> Z) (g : B -> Z) (l : list A) (l' : list B) :
  Forall2 (fun x y => g y = f x) l l' -> Zsum (map g l') = Zsum (map f l).
Proof.
  induction 1 as [|x y l l' E _ IH]; [reflexivity|].
  unfold Zsum in *. simpl. rewrite E, IH. reflexivity.
Qed.

Lemma extract_dow_range (ts : Z) : 0 <= extract_dow ts <= 6.
Proof.
  unfold extract_dow. assert (H := Z.mod_pos_bound (day_of ts + 4) 7). lia.
Qed.

Lemma extract_hour_range (ts : Z) : 0 <= extract_hour ts <= 23.
Proof.
  unfold extract_hour, microseconds_per_day.
  assert (H := Z.mod_pos_bound ts 86400000000 eq_refl). split.
  - apply Z.div_pos; lia.
  - apply Z.lt_succ_r, Z.div_lt_upper_bound; lia.
Qed.

Lemma day_name_of (d : Z) :
  0 <= d <= 6 ->
  exists name, py_index day_names d = Returns name
               /\ nth_error day_names (Z.to_nat d) = Some name.
Proof.
  intros H.
  assert (C : d = 0 \/ d = 1 \/ d = 2 \/ d = 3 \/ d = 4 \/ d = 5 \/ d = 6) by lia.
  destruct C as [->|[->|[->|[->|[->|[->| ->]]]]]];
    eexists; split; reflexivity.
Qed.

(** X11.  Without a [day_of_week] hourly performance always returns (the
    index into the day names is never out of range).  The items come by
    hour, earliest first; each has an hour from 0 to 23, a day of the week
    from 0 to 6 with the name at that position of the list of day names, and
    at least one sale; the [sales_count] of the items add up to the number
    of completed sales under the filter. *)
Theorem hourly_performance_returns
    (db : Database) (date_range : option DateRangeFilter.t)
    (filters : option DimensionFilter.t) :
  exists items,
    get_hourly_performance db date_range filters None = Returns items
    /\ ascending HourlyPerformanceItem.hour items
    /\ Zsum (map HourlyPerformanceItem.sales_count items)
       = Z.of_nat (List.length (completed_under db date_range filters))
    /\ forall it, In it items ->
         0 <= HourlyPerformanceItem.hour it <= 23
         /\ 1 <= HourlyPerformanceItem.sales_count it
         /\ exists d name,
              HourlyPerformanceItem.day_of_week it = Some d /\ 0 <= d <= 6
              /\ HourlyPerformanceItem.day_name it = Some name
              /\ nth_error day_names (Z.to_nat d) = Some name.
Proof.
  unfold get_hourly_performance, hourly_rows.
  replace (grouping_accepted [hour_extract; dow_extract] [hour_extract; dow_extract])
    with true by reflexivity.
  fold (completed_under db date_range filters).
  set (query := completed_under db date_range filters).
  set (key := fun s : Sale.t =>
                (eval_hourly hour_extract s, eval_hourly dow_extract s)).
  set (mk := fun g : Z * Z * list Sale.t =>
               let '((hour, dow), rows) := g in
               {| HourlyRow.hour := hour;
                  HourlyRow.day_of_week := Some dow;
                  HourlyRow.sales_count := count_sale_id (fun s => s) rows;
                  HourlyRow.revenue := sum_total_amount (fun s => s) rows;
                  HourlyRow.average_ticket := avg_total_amount (fun s => s) rows |}).
  set (groups := group_by (pair_eq_dec Z.eq_dec Z.eq_dec) key query).
  cbn [lift outcome_bind].
  set (leb := fun r1 r2 : HourlyRow.t => HourlyRow.hour r1 <=? HourlyRow.hour r2).
  assert (R : forall r, In r (order_by leb (map mk groups)) ->
                0 <= HourlyRow.hour r <= 23
                /\ exists d n,
                     HourlyRow.day_of_week r = Some d /\ 0 <= d <= 6
                     /\ HourlyRow.sales_count r = Some n /\ 1 <= n).
  { intros r Hr. apply order_by_In, in_map_iff in Hr.
    destruct Hr as [[[h d] g] [<- Hg]].
    assert (N := group_not_empty _ _ _ _ _ Hg).
    apply in_group_by in Hg. destruct Hg as [Hk _].
    apply in_map_iff in Hk. destruct Hk as [s [Ek _]].
    unfold key in Ek. inversion Ek. subst h d.
    cbn [mk HourlyRow.hour HourlyRow.day_of_week HourlyRow.sales_count eval_hourly].
    split; [apply extract_hour_range|].
    exists (extract_dow (Sale.created_at s)), (Z.of_nat (List.length g)).
    split; [reflexivity|]. split; [apply extract_dow_range|].
    split; [apply count_sale_id_length | apply group_size_positive, N]. }
  assert (I : forall r, In r (order_by leb (map mk groups)) ->
                exists it, hourly_performance_item r = Returns it
                  /\ HourlyPerformanceItem.hour it = HourlyRow.hour r
                  /\ HourlyPerformanceItem.day_of_week it = HourlyRow.day_of_week r
                  /\ HourlyPerformanceItem.sales_count it
                     = or_zero_int (HourlyRow.sales_count r)
                  /\ exists d name,
                       HourlyRow.day_of_week r = Some d
                       /\ HourlyPerformanceItem.day_name it = Some name
                       /\ nth_error day_names (Z.to_nat d) = Some name).
  { intros r Hr. destruct (R r Hr) as [_ [d [n [Ed [Hd _]]]]].
    destruct (day_name_of d Hd) as [name [En Hn]].
    unfold hourly_performance_item. rewrite Ed, En. cbn [outcome_bind].
    eexists. split; [reflexivity|]. cbn. repeat split.
    exists d, name. repeat split. exact Hn. }
  destruct (outcome_mapM_returns hourly_performance_item (order_by leb (map mk groups)))
    as [items [E F]].
  { intros r Hr. destruct (I r Hr) as [it [Hit _]]. eauto. }
  exists items. split; [exact E|]. split; [|split].
  - unfold ascending.
    refine (sorted_by_Forall2 leb _ _ _ _ _ F (order_by_sorted leb _ _ _)).
    + intros x y x' y' Hx Hy Px Py L.
      destruct (I x Hx) as [ix [Ex [Hh _]]]. destruct (I y Hy) as [iy [Ey [Hh' _]]].
      rewrite Ex in Px. rewrite Ey in Py. inversion Px. inversion Py. subst ix iy.
      rewrite Hh, Hh'. exact L.
    + intros x y. unfold leb. destruct (Z.leb_spec (HourlyRow.hour x) (HourlyRow.hour y));
        [left; reflexivity | right; apply Z.leb_le; lia].
    + intros x y z. unfold leb. rewrite !Z.leb_le. lia.
  - rewrite (Zsum_Forall2 (fun r => or_zero_int (HourlyRow.sales_count r))
                          HourlyPerformanceItem.sales_count
                          (order_by leb (map mk groups)) items).
    + rewrite (Zsum_Permutation _ _
                 (Permutation_map _ (order_by_perm leb (map mk groups)))).
      rewrite map_map.
      rewrite (map_ext _ (fun g : Z * Z * list Sale.t =>
                            Z.of_nat (List.length (snd g)))).
      * rewrite Zsum_group_lengths. unfold groups.
        rewrite (Permutation_length
                   (group_by_concat (pair_eq_dec Z.eq_dec Z.eq_dec) key query)).
        reflexivity.
      * intros [[h d] g]. cbn [mk HourlyRow.sales_count snd].
        rewrite count_sale_id_length. apply or_zero_int_some.
    + clear E. induction F as [|x y l l' Hx F IH]; constructor.
      * destruct (I x (or_introl eq_refl)) as [ix [Ex [_ [_ [Hc _]]]]].
        rewrite Ex in Hx. inversion Hx. subst ix. exact Hc.
      * apply IH; intros r Hr; [apply R | apply I]; right; exact Hr.
  - intros it Hit. destruct (Forall2_in_r _ _ _ _ F Hit) as [r [Hr Pr]].
    destruct (R r Hr) as [Hh [d [n [Ed [Hd [En Hn]]]]]].
    destruct (I r Hr) as [it' [Eit [H1 [H2 [H3 [d' [name [Ed' [Hname Hnth]]]]]]]]].
    rewrite Eit in Pr. inversion Pr. subst it'.
    rewrite H1, H3, En, or_zero_int_some. split; [exact Hh|]. split; [exact Hn|].
    exists d, name. rewrite H2. rewrite Ed in Ed'. inversion Ed'. subst d'.
    repeat split; try assumption; lia.
Qed.

(** ** The prototype's [top_products] *)

Lemma top_quantity_some (rows : list top_row) :
  rows <> [] -> top_quantity rows <> None.
Proof.
  intros N. unfold top_quantity, sql_sum.
  rewrite (non_null_map_some (fun r => ProductSale.quantity (snd (fst (fst r))))).
  destruct rows; [contradiction | discriminate].
Qed.


(** ** The id lists of the endpoints *)

Lemma split_comma_not_nil (s : string) : split_comma s <> [].
Proof.
  induction s as [|c s IH]; cbn [split_comma]; [discriminate|].
  destruct (Ascii.eqb c ","); [discriminate|].
  destruct (split_comma s); discriminate.
Qed.

(** X13.  [split(',')] loses nothing: joining the pieces with commas gives
    the text back; there is one piece more than there are commas (so always
    at least one piece), and no piece holds a comma. *)
Theorem split_comma_join (s : string) :
  String.concat "," (split_comma s) = s
  /\ List.length (split_comma s) = S (count_commas s)
  /\ forall piece, In piece (split_comma s) -> count_commas piece = 0%nat.
Proof.
  induction s as [|c s [IH1 [IH2 IH3]]].
  - split; [reflexivity|]. split; [reflexivity|].
    intros piece [<-|[]]. reflexivity.
  - cbn [split_comma count_commas].
    assert (N := split_comma_not_nil s). revert IH1 IH2 IH3 N.
    destruct (split_comma s) as [|w ws]; intros IH1 IH2 IH3 N; [contradiction|].
    destruct (Ascii.eqb_spec c ","%char) as [->|Hc].
    + split; [|split].
      * change (String.concat "," ("" :: w :: ws))
          with (String "," (String.concat "," (w :: ws))).
        rewrite IH1. reflexivity.
      * cbn [List.length]. rewrite <- IH2. reflexivity.
      * intros piece [<-|H]; [reflexivity | apply IH3, H].
    + split; [|split].
      * rewrite <- IH1. destruct ws; reflexivity.
      * rewrite <- IH2. reflexivity.
      * intros piece [<-|H].
        -- cbn [count_commas]. destruct (Ascii.eqb_spec c ","%char); [contradiction|].
           apply IH3. left. reflexivity.
        -- apply IH3. right. exact H.
Qed.

Lemma split_comma_trailing (s : string) :
  split_comma (s ++ ",") = (split_comma s ++ [EmptyString])%list.
Proof.
  induction s as [|c s IH]; [reflexivity|].
  cbn [String.append split_comma]. rewrite IH.
  destruct (Ascii.eqb c ","); [reflexivity|].
  assert (N := split_comma_not_nil s).
  destruct (split_comma s); [contradiction | reflexivity].
Qed.

Section IdLists.
Variable py_int : string -> option Z.

Lemma parse_ids_outcome (s : string) :
  ((exists x, In x (split_comma s) /\ py_int x = None) ->
   parse_ids py_int s = Raise ValueError)
  /\ ((forall x, In x (split_comma s) -> py_int x <> None) ->
      exists l, parse_ids py_int s = Ok l
                /\ Forall2 (fun x n => py_int x = Some n) (split_comma s) l
                /\ l <> []).
Proof.
  unfold parse_ids.
  set (f := fun x => match py_int x with
                     | Some n => Ok n
                     | None => Raise ValueError
                     end).
  split.
  - intros [x [Hx Ex]]. apply mapM_raises.
    + intros y e _. unfold f. destruct (py_int y); congruence.
    + exists x. split; [exact Hx|]. unfold f. rewrite Ex. reflexivity.
  - intros H. destruct (mapM_total f (split_comma s)) as [l E].
    + intros x Hx. unfold f. specialize (H x Hx).
      destruct (py_int x); [eauto | contradiction].
    + exists l. split; [exact E|]. assert (L := mapM_length _ _ _ E).
      apply mapM_Ok_inv in E. split.
      * refine (Forall2_impl _ _ E). intros x n. unfold f.
        destruct (py_int x); congruence.
      * assert (N := split_comma_not_nil s).
        destruct (split_comma s); [contradiction|].
        destruct l; discriminate.
Qed.

Lemma ids_param_nonempty (s : string) :
  s <> EmptyString ->
  ids_param py_int (Some s) = (l <- parse_ids py_int s ;; Ok (Some l)).
Proof. destruct s; [contradiction | reflexivity]. Qed.
End IdLists.

(** X14.  An id list of a request.  An absent or empty text sets no
    filter.  Any other text is cut at the commas: when [int] refuses a
    piece the request fails with [ValueError]; when it accepts them all the
    filter is the list of their values, in order, and is never the empty
    list. *)
Theorem ids_param_outcome (py_int : string -> option Z) :
  ids_param py_int None = Ok None
  /\ ids_param py_int (Some "") = Ok None
  /\ forall s, s <> "" ->
       ((exists x, In x (split_comma s) /\ py_int x = None) ->
        ids_param py_int (Some s) = Raise ValueError)
       /\ ((forall x, In x (split_comma s) -> py_int x <> None) ->
           exists l, ids_param py_int (Some s) = Ok (Some l)
                     /\ Forall2 (fun x n => py_int x = Some n) (split_comma s) l
                     /\ l <> []).
Proof.
  split; [reflexivity|]. split; [reflexivity|].
  intros s N. rewrite (ids_param_nonempty py_int s N).
  destruct (parse_ids_outcome py_int s) as [H1 H2]. split.
  - intros H. rewrite (H1 H). reflexivity.
  - intros H. destruct (H2 H) as [l [E [F L]]]. rewrite E. cbn [bind]. eauto.
Qed.

(** X15.  [int] refuses the empty text, so an id list that ends or starts
    with a comma makes the request fail with [ValueError]; the sales
    overview endpoint, for one, then answers with that error whatever the
    other parameters. *)
Theorem trailing_comma_refused (py_int : string -> option Z) (s : string) :
  py_int "" = None ->
  ids_param py_int (Some (s ++ ",")) = Raise ValueError
  /\ ids_param py_int (Some ("," ++ s)) = Raise ValueError
  /\ forall db start_date end_date channel_ids,
       api_get_sales_overview py_int db start_date end_date (Some (s ++ ","))
                              channel_ids
       = Raise ValueError.
Proof.
  intros H.
  assert (E : ids_param py_int (Some (s ++ ",")) = Raise ValueError).
  { rewrite ids_param_nonempty by (destruct s; discriminate).
    rewrite (proj1 (parse_ids_outcome py_int (s ++ ","))); [reflexivity|].
    exists "". split; [|exact H].
    rewrite split_comma_trailing. apply in_or_app. right. left. reflexivity. }
  split; [exact E|]. split.
  - rewrite ids_param_nonempty by discriminate.
    rewrite (proj1 (parse_ids_outcome py_int ("," ++ s))); [reflexivity|].
    exists "". split; [left; reflexivity | exact H].
  - intros db start_date end_date channel_ids.
    unfold api_get_sales_overview, request_filters. rewrite E. reflexivity.
Qed.

Lemma trailing_comma_refused_witness :
  int_of_digits "" = None
  /\ ids_param int_of_digits (Some "1,2") = Ok (Some [1; 2])
  /\ ids_param int_of_digits (Some ("1,2" ++ ",")) = Raise ValueError.
Proof.
  split; [reflexivity|]. split; [reflexivity|].
  apply (trailing_comma_refused int_of_digits "1,2"). reflexivity.
Defined.

(** ** The endpoints *)

Lemma int_query_outcome (default : Z) (lo hi : option Z) (v : option Z) :
  (forall n, v = Some n ->
     (match lo with Some l => n < l | None => False end
      \/ match hi with Some h => h < n | None => False end) ->
     int_query default lo hi v = Raise ValidationError)
  /\ (forall n, int_query default lo hi v = Ok n ->
        (v = None /\ n = default
         \/ v = Some n
            /\ match lo with Some l => l <= n | None => True end
            /\ match hi with Some h => n <= h | None => True end)).
Proof.
  unfold int_query. split.
  - intros n -> H. destruct lo as [l|], hi as [h|]; destruct H as [H|H];
      try contradiction;
      repeat match goal with
             | |- context [?a <=? ?b] => destruct (Z.leb_spec a b)
             end; try lia; reflexivity.
  - intros n H. destruct v as [m|]; [|left; inversion H; auto].
    right. destruct lo as [l|], hi as [h|];
      repeat match type of H with
             | context [?a <=? ?b] => destruct (Z.leb_spec a b)
             end; cbn [andb] in H; try discriminate; inversion H; subst;
      repeat split; auto.
Qed.

Lemma int_query_raises (default : Z) (lo hi : option Z) (v : option Z) (e : exn) :
  int_query default lo hi v = Raise e -> e = ValidationError.
Proof.
  unfold int_query. destruct v as [n|]; [|discriminate].
  destruct (_ && _); [discriminate | congruence].
Qed.

Lemma product_ranking_limit db date_range filters limit items :
  get_product_ranking db date_range filters limit = Ok items ->
  0 <= limit /\ Z.of_nat (List.length items) <= limit.
Proof.
  unfold get_product_ranking.
  match goal with
  | |- context [mapM ranking_result_row ?q] => destruct (mapM ranking_result_row q)
  end; cbn [bind]; [|discriminate].
  unfold sql_limit. destruct (Z.ltb_spec limit 0) as [L|L]; cbn [bind];
    [discriminate|].
  intros H. inversion H. rewrite length_map.
  split; [exact L | apply limit_length; exact L].
Qed.

Lemma product_margin_limit db date_range filters limit :
  (forall items,
     get_product_margin_analysis db date_range filters limit = Ok items ->
     0 <= limit /\ Z.of_nat (List.length items) <= limit)
  /\ (forall e,
        get_product_margin_analysis db date_range filters limit = Raise e ->
        limit < 0).
Proof.
  unfold get_product_margin_analysis, sql_limit.
  destruct (Z.ltb_spec limit 0) as [L|L]; cbn [bind]; split; try discriminate.
  - intros e _. exact L.
  - intros items H. inversion H. rewrite length_map.
    split; [exact L | apply limit_length; exact L].
Qed.

Section EndpointFacts.
Variable py_int : string -> option Z.

Lemma request_filters_raises store_ids channel_ids e :
  request_filters py_int store_ids channel_ids = Raise e -> e = ValueError.
Proof.
  assert (P : forall ids e', ids_param py_int ids = Raise e' -> e' = ValueError).
  { intros ids e'. destruct ids as [s|]; [|discriminate].
    destruct s as [|c s]; [discriminate|].
    rewrite ids_param_nonempty by discriminate.
    destruct (parse_ids py_int (String c s)) as [l|e''] eqn:E; cbn [bind];
      [discriminate|].
    intros H. inversion H. subst e''. unfold parse_ids in E.
    apply mapM_Raise_inv in E. destruct E as [x [_ Hx]].
    destruct (py_int x); congruence. }
  unfold request_filters.
  destruct (ids_param py_int store_ids) as [a|e1] eqn:E1; cbn [bind].
  - destruct (ids_param py_int channel_ids) as [b|e2] eqn:E2; cbn [bind];
      [discriminate|].
    intros H. inversion H. subst e2. apply (P _ _ E2).
  - intros H. inversion H. subst e1. apply (P _ _ E1).
Qed.

(** X16.  The [limit] of the ranking and margin endpoints.  A limit
    outside 1..100 (ranking) or 1..200 (margin) is refused with a validation
    error.  A response of the ranking endpoint has [total_count] equal to
    the number of its products, which is at most the limit asked for (20
    when none is) and so at most 100; a margin response has at most the
    limit asked for (50 when none is) products, at most 200; and the margin
    endpoint never fails with a database error. *)
Theorem limit_endpoints (db : Database) (start_date end_date : option Z)
    (store_ids channel_ids : option string) (limit : option Z) :
  let ranking :=
    api_get_product_ranking py_int db start_date end_date store_ids channel_ids
                            limit in
  let margin :=
    api_get_product_margin_analysis py_int db start_date end_date store_ids
                                    channel_ids limit in
  (forall n, limit = Some n -> n < 1 \/ 100 < n -> ranking = Raise ValidationError)
  /\ (forall n, limit = Some n -> n < 1 \/ 200 < n -> margin = Raise ValidationError)
  /\ (forall response, ranking = Ok response ->
        ProductRankingResponse.total_count response
        = Z.of_nat (List.length (ProductRankingResponse.products response))
        /\ ProductRankingResponse.total_count response
           <= match limit with Some n => n | None => 20 end
        /\ ProductRankingResponse.total_count response <= 100)
  /\ (forall items, margin = Ok items ->
        Z.of_nat (List.length items) <= match limit with Some n => n | None => 50 end
        /\ Z.of_nat (List.length items) <= 200)
  /\ margin <> Raise DBAPIError.
Proof.
  intros ranking margin. unfold ranking, margin.
  unfold api_get_product_ranking, api_get_product_margin_analysis.
  split; [|split; [|split; [|split]]].
  - intros n E H.
    rewrite (proj1 (int_query_outcome 20 (Some 1) (Some 100) limit) n E H).
    reflexivity.
  - intros n E H.
    rewrite (proj1 (int_query_outcome 50 (Some 1) (Some 200) limit) n E H).
    reflexivity.
  - intros response H.
    destruct (int_query 20 (Some 1) (Some 100) limit) as [n|] eqn:L;
      cbn [bind] in H; [|discriminate].
    destruct (request_filters py_int store_ids channel_ids) as [filters|];
      cbn [bind] in H; [|discriminate].
    destruct (get_product_ranking db _ _ n) as [products|] eqn:P;
      cbn [bind] in H; [|discriminate].
    inversion H. subst response.
    cbn [ProductRankingResponse.total_count ProductRankingResponse.products].
    apply product_ranking_limit in P.
    apply (proj2 (int_query_outcome 20 (Some 1) (Some 100) limit)) in L.
    split; [reflexivity|].
    destruct L as [[-> ->]|[-> [_ L]]]; lia.
  - intros items H.
    destruct (int_query 50 (Some 1) (Some 200) limit) as [n|] eqn:L;
      cbn [bind] in H; [|discriminate].
    destruct (request_filters py_int store_ids channel_ids) as [filters|];
      cbn [bind] in H; [|discriminate].
    apply (proj1 (product_margin_limit _ _ _ _)) in H.
    apply (proj2 (int_query_outcome 50 (Some 1) (Some 200) limit)) in L.
    destruct L as [[-> ->]|[-> [_ L]]]; lia.
  - intros H.
    destruct (int_query 50 (Some 1) (Some 200) limit) as [n|e] eqn:L;
      cbn [bind] in H; [|apply int_query_raises in L; congruence].
    destruct (request_filters py_int store_ids channel_ids) as [filters|e] eqn:F;
      cbn [bind] in H; [|apply request_filters_raises in F; congruence].
    apply (proj2 (product_margin_limit _ _ _ _)) in H.
    apply (proj2 (int_query_outcome 50 (Some 1) (Some 200) limit)) in L.
    destruct L as [[_ ->]|[_ [L _]]]; lia.
Qed.

(** X18.  With a [day_of_week] the hourly endpoint never answers with a
    performance list: a day outside 0..6 is refused with a validation
    error, and a day from 0 to 6 ends in [ValueError] when an id list
    cannot be read and in the database's refusal of the statement
    otherwise. *)
Theorem hourly_endpoint_day_of_week (db : Database)
    (start_date end_date : option Z) (day_of_week : Z)
    (store_ids channel_ids : option string) :
  let response :=
    api_get_hourly_performance py_int db start_date end_date (Some day_of_week)
                               store_ids channel_ids in
  (day_of_week < 0 \/ 6 < day_of_week ->
   response = Raises (Builtin ValidationError))
  /\ (0 <= day_of_week <= 6 ->
      response = Raises (Builtin ValueError)
      \/ response = Raises (Builtin DBAPIError))
  /\ forall items, response <> Returns items.
Proof.
  intros response.
  assert (A : day_of_week < 0 \/ 6 < day_of_week ->
              response = Raises (Builtin ValidationError)).
  { intros H. unfold response, api_get_hourly_performance, optional_int_query.
    destruct (Z.leb_spec 0 day_of_week); destruct (Z.leb_spec day_of_week 6);
      try lia; reflexivity. }
  assert (B : 0 <= day_of_week <= 6 ->
              response = Raises (Builtin ValueError)
              \/ response = Raises (Builtin DBAPIError)).
  { intros H. unfold response, api_get_hourly_performance, optional_int_query.
    destruct (Z.leb_spec 0 day_of_week); destruct (Z.leb_spec day_of_week 6);
      try lia. cbn [andb lift outcome_bind].
    destruct (request_filters py_int store_ids channel_ids) as [filters|e] eqn:F;
      cbn [lift outcome_bind].
    - right. unfold get_hourly_performance, hourly_rows.
      replace (grouping_accepted [hour_extract; dow_extract] [hour_extract])
        with false by reflexivity.
      reflexivity.
    - left. apply request_filters_raises in F. rewrite F. reflexivity. }
  split; [exact A|]. split; [exact B|].
  intros items H.
  destruct (Z.lt_ge_cases day_of_week 0) as [L|L];
    [rewrite A in H by (left; exact L); discriminate|].
  destruct (Z.lt_ge_cases 6 day_of_week) as [U|U];
    [rewrite A in H by (right; exact U); discriminate|].
  destruct B as [B|B]; [lia | |]; rewrite B in H; discriminate.
Qed.
End EndpointFacts.

(** X17.  The retention endpoint refuses a [min_orders] or a
    [days_inactive] below 1 with a validation error, but bounds neither
    from above: a [days_inactive] beyond 999999999 passes validation and
    the call fails with [OverflowError].  A response has [total_count]
    equal to the number of its customers. *)
Theorem retention_endpoint (db : Database) (now : nat -> Z)
    (min_orders days_inactive : option Z) :
  let response := api_get_customer_retention db now min_orders days_inactive in
  (forall n, min_orders = Some n -> n < 1 -> response = Raise ValidationError)
  /\ (forall n, days_inactive = Some n -> n < 1 -> response = Raise ValidationError)
  /\ (forall n, days_inactive = Some n -> 999999999 < n ->
        response = Raise ValidationError \/ response = Raise OverflowError)
  /\ (forall n, days_inactive = Some n -> 999999999 < n -> min_orders = None ->
        response = Raise OverflowError)
  /\ (forall r, response = Ok r ->
        CustomerRetentionResponse.total_count r
        = Z.of_nat (List.length (CustomerRetentionResponse.customers r))).
Proof.
  intros response. unfold response, api_get_customer_retention.
  assert (O : forall m n, 999999999 < n ->
                (customers <- get_customer_retention db now m n None ;;
                 Ok {| CustomerRetentionResponse.customers := customers;
                       CustomerRetentionResponse.total_count :=
                         Z.of_nat (List.length customers) |})
                = Raise OverflowError).
  { intros m n H. unfold get_customer_retention, days_ago, timedelta.
    destruct (Z.leb_spec (Z.abs n) 999999999); [lia | reflexivity]. }
  split; [|split; [|split; [|split]]].
  - intros n E H.
    rewrite (proj1 (int_query_outcome 3 (Some 1) None min_orders) n E);
      [reflexivity | left; exact H].
  - intros n E H.
    destruct (int_query 3 (Some 1) None min_orders) as [m|e] eqn:M; cbn [bind].
    + rewrite (proj1 (int_query_outcome 30 (Some 1) None days_inactive) n E);
        [reflexivity | left; exact H].
    + apply int_query_raises in M. rewrite M. reflexivity.
  - intros n E H.
    destruct (int_query 3 (Some 1) None min_orders) as [m|e] eqn:M; cbn [bind].
    + right. subst days_inactive. unfold int_query at 1.
      destruct (Z.leb_spec 1 n); [|lia]. cbn [andb bind]. apply O, H.
    + left. apply int_query_raises in M. rewrite M. reflexivity.
  - intros n E H ->. subst days_inactive. unfold int_query.
    destruct (Z.leb_spec 1 n); [|lia]. cbn [andb bind]. apply O, H.
  - intros r H.
    destruct (int_query 3 (Some 1) None min_orders) as [m|]; cbn [bind] in H;
      [|discriminate].
    destruct (int_query 30 (Some 1) None days_inactive) as [d|]; cbn [bind] in H;
      [|discriminate].
    destruct (get_customer_retention db now m d None) as [customers|];
      cbn [bind] in H; [|discriminate].
    inversion H. reflexivity.
Qed.

(** ** The metadata endpoints *)

Lemma mapM_filter {A B} (f : A -> result B) (p : A -> bool) (q : B -> bool)
    (l : list A) (l' : list B) :
  (forall x y, f x = Ok y -> p x = q y) ->
  mapM f l = Ok l' -> mapM f (filter p l) = Ok (filter q l').
Proof.
  intros H. revert l'. induction l as [|x l IH]; intros l' E.
  - inversion E. reflexivity.
  - cbn [mapM] in E. destruct (f x) as [y|] eqn:Fx; cbn [bind] in E; [|discriminate].
    destruct (mapM f l) as [ys|] eqn:Fl; cbn [bind] in E; [|discriminate].
    inversion E. subst l'. cbn [filter]. rewrite (H x y Fx).
    destruct (q y).
    + cbn [mapM]. rewrite Fx, (IH ys eq_refl). reflexivity.
    + apply IH. reflexivity.
Qed.

Lemma store_info_outcome (s : StoreRow.t) :
  match StoreRow.is_active s with
  | Some b =>
      exists it, store_info s = Ok it
                 /\ StoreInfo.id it = Store.id (StoreRow.store s)
                 /\ StoreInfo.is_active it = b
  | None => store_info s = Raise ValidationError
  end.
Proof.
  unfold store_info. destruct (StoreRow.is_active s); cbn [required bind].
  - eexists. repeat split.
  - reflexivity.
Qed.

Lemma store_infos (l : list StoreRow.t) :
  (forall s, In s l -> StoreRow.is_active s <> None) ->
  exists items, mapM store_info l = Ok items
    /\ map StoreInfo.id items = map (fun s => Store.id (StoreRow.store s)) l
    /\ Forall2 (fun s it => StoreRow.is_active s = Some (StoreInfo.is_active it))
               l items.
Proof.
  induction l as [|s l IH]; intros H.
  - exists []. repeat split. constructor.
  - destruct IH as [items [E [I F]]]; [intros x Hx; apply H; right; exact Hx|].
    assert (O := store_info_outcome s). specialize (H s (or_introl eq_refl)).
    destruct (StoreRow.is_active s) as [b|] eqn:A; [|contradiction].
    destruct O as [it [Eit [Iit Ait]]].
    exists (it :: items). cbn [mapM map]. rewrite Eit, E, Iit, I.
    repeat split. constructor; [rewrite A, Ait; reflexivity | exact F].
Qed.

Lemma active_stores_set (db : Catalog) (s : StoreRow.t) :
  In s (filter (fun s => is_true (StoreRow.is_active s)) (store_rows db)) ->
  StoreRow.is_active s <> None.
Proof.
  intros Hs. apply filter_In in Hs. destruct Hs as [_ Hs].
  destruct (StoreRow.is_active s); [discriminate | discriminate Hs].
Qed.

(** X19.  The stores endpoint.  With [active_only] (the default) it always
    answers: the stores whose [is_active] is true, in table order, each
    reported active.  Without it the answer needs every store to have an
    [is_active]: one store where it is [NULL] makes the whole request fail
    with a validation error; and when the request succeeds it lists every
    store, the active ones among them being the answer with
    [active_only]. *)
Theorem get_stores_outcome (db : Catalog) :
  (exists items,
     get_stores db true = Ok items
     /\ map StoreInfo.id items
        = map (fun s => Store.id (StoreRow.store s))
              (filter (fun s => is_true (StoreRow.is_active s)) (store_rows db))
     /\ forall it, In it items -> StoreInfo.is_active it = true)
  /\ ((exists s, In s (store_rows db) /\ StoreRow.is_active s = None) ->
      get_stores db false = Raise ValidationError)
  /\ ((forall s, In s (store_rows db) -> StoreRow.is_active s <> None) ->
      exists all,
        get_stores db false = Ok all
        /\ map StoreInfo.id all
           = map (fun s => Store.id (StoreRow.store s)) (store_rows db)
        /\ get_stores db true = Ok (filter StoreInfo.is_active all)).
Proof.
  unfold get_stores.
  split; [|split].
  - destruct (store_infos _ (active_stores_set db)) as [items [E [I F]]].
    exists items. split; [exact E|]. split; [exact I|].
    intros it Hit. destruct (Forall2_in_r _ _ _ _ F Hit) as [s [Hs A]].
    apply filter_In in Hs. destruct Hs as [_ Hs]. rewrite A in Hs.
    cbn [is_true] in Hs. destruct (StoreInfo.is_active it); [reflexivity | discriminate].
  - intros [s [Hs A]]. apply mapM_raises.
    + intros x e _ Hx. assert (O := store_info_outcome x).
      destruct (StoreRow.is_active x); [destruct O as [it [O _]]|]; congruence.
    + exists s. split; [exact Hs|]. assert (O := store_info_outcome s).
      rewrite A in O. exact O.
  - intros H. destruct (store_infos (store_rows db) H) as [all [E [I F]]].
    exists all. split; [exact E|]. split; [exact I|].
    refine (mapM_filter store_info _ StoreInfo.is_active _ _ _ E).
    intros x y Hx. assert (O := store_info_outcome x).
    destruct (StoreRow.is_active x) as [b|]; [|congruence].
    destruct O as [it [Eit [_ Ait]]]. rewrite Eit in Hx. inversion Hx. subst it.
    rewrite Ait. destruct b; reflexivity.
Qed.

Lemma get_stores_outcome_witness :
  get_stores CatalogExamples.catalog false = Raise ValidationError
  /\ exists items, get_stores CatalogExamples.catalog true = Ok items
                   /\ map StoreInfo.id items = [1].
Proof.
  split.
  - apply (proj1 (proj2 (get_stores_outcome CatalogExamples.catalog))).
    eexists. split; [right; right; left; reflexivity | reflexivity].
  - destruct (proj1 (get_stores_outcome CatalogExamples.catalog))
      as [items [E [I _]]].
    exists items. split; [exact E | exact I].
Defined.

(** A comprehension over rows with one required field. *)
Lemma mapM_required {A B C} (f : A -> result B) (field : A -> option C)
    (l : list A) :
  (forall x, field x = None -> f x = Raise ValidationError) ->
  (forall x, field x <> None -> exists y, f x = Ok y) ->
  ((exists x, In x l /\ field x = None) -> mapM f l = Raise ValidationError)
  /\ ((forall x, In x l -> field x <> None) -> exists l', mapM f l = Ok l').
Proof.
  intros Bad Good. split.
  - intros H. apply mapM_raises; [|destruct H as [x [Hx N]]; eauto].
    intros x e _ Hx. destruct (field x) eqn:E.
    + destruct (Good x) as [y Hy]; congruence.
    + rewrite (Bad x E) in Hx. congruence.
  - intros H. apply mapM_total. intros x Hx. apply Good, H, Hx.
Qed.

Lemma channel_info_required :
  (forall c, Channel.type (ChannelRow.channel c) = None ->
             channel_info c = Raise ValidationError)
  /\ (forall c, Channel.type (ChannelRow.channel c) <> None ->
                exists y, channel_info c = Ok y).
Proof.
  split; intros c H; unfold channel_info;
    destruct (Channel.type (ChannelRow.channel c)); cbn [required bind];
    try contradiction; try discriminate; eauto.
Qed.

Lemma category_info_required :
  (forall c, CategoryRow.type c = None -> category_info c = Raise ValidationError)
  /\ (forall c, CategoryRow.type c <> None -> exists y, category_info c = Ok y).
Proof.
  split; intros c H; unfold category_info;
    destruct (CategoryRow.type c); cbn [required bind];
    try contradiction; try discriminate; eauto.
Qed.

(** X20.  [get_metadata] answers exactly when every channel has a type and
    every category that is not deleted has one; a channel or a live
    category without type makes it fail with a validation error, while
    deleted categories and stores that are not active are never looked at.
    Its three lists are what the stores endpoint (active only), the channels
    endpoint and the categories endpoint return. *)
Theorem get_metadata_outcome (db : Catalog) :
  ((exists c, In c (channel_rows db) /\ Channel.type (ChannelRow.channel c) = None)
   \/ (exists c, In c (category_rows db) /\ CategoryRow.deleted_at c = None
                 /\ CategoryRow.type c = None) ->
   get_metadata db = Raise ValidationError)
  /\ ((forall c, In c (channel_rows db) ->
                 Channel.type (ChannelRow.channel c) <> None) ->
      (forall c, In c (category_rows db) -> CategoryRow.deleted_at c = None ->
                 CategoryRow.type c <> None) ->
      exists r,
        get_metadata db = Ok r
        /\ get_stores db true = Ok (MetadataResponse.stores r)
        /\ get_channels db = Ok (MetadataResponse.channels r)
        /\ get_categories db = Ok (MetadataResponse.categories r)).
Proof.
  destruct (store_infos _ (active_stores_set db)) as [stores [S _]].
  destruct (mapM_required channel_info
              (fun c => Channel.type (ChannelRow.channel c)) (channel_rows db)
              (proj1 channel_info_required) (proj2 channel_info_required))
    as [C1 C2].
  destruct (mapM_required category_info CategoryRow.type
              (filter (fun c => is_none (CategoryRow.deleted_at c)) (category_rows db))
              (proj1 category_info_required) (proj2 category_info_required))
    as [G1 G2].
  unfold get_metadata, get_stores, get_channels, get_categories.
  rewrite S. cbn [bind]. split.
  - intros [H|[c [Hc [D T]]]].
    + rewrite (C1 H). reflexivity.
    + destruct (mapM channel_info (channel_rows db)) as [channels|e] eqn:E;
        cbn [bind].
      * rewrite G1; [reflexivity|]. exists c. split; [|exact T].
        apply filter_In. split; [exact Hc|]. rewrite D. reflexivity.
      * apply mapM_Raise_inv in E. destruct E as [x [_ Hx]].
        destruct (Channel.type (ChannelRow.channel x)) eqn:Tx.
        -- destruct (proj2 channel_info_required x) as [y Hy]; congruence.
        -- rewrite (proj1 channel_info_required x Tx) in Hx. congruence.
  - intros HC HG. destruct (C2 HC) as [channels ->].
    destruct G2 as [categories ->].
    + intros c Hc. apply filter_In in Hc. destruct Hc as [Hc D].
      apply HG; [exact Hc|]. destruct (CategoryRow.deleted_at c);
        [discriminate | reflexivity].
    + cbn [bind]. eexists. repeat split.
Qed.

Lemma get_metadata_outcome_witness :
  exists r, get_metadata CatalogExamples.catalog = Ok r
            /\ get_categories CatalogExamples.catalog = Ok (MetadataResponse.categories r)
            /\ List.length (MetadataResponse.categories r) = 1%nat.
Proof.
  destruct (proj2 (get_metadata_outcome CatalogExamples.catalog)) as [r [E [_ [_ G]]]].
  - intros c [<-|[]]. discriminate.
  - intros c [<-|[<-|[]]] D; [discriminate | discriminate D].
  - exists r. split; [exact E|]. split; [exact G|].
    vm_compute in E. inversion E. reflexivity.
Defined.


(** ** The prototype's [delivery_performance] *)

Lemma by_day_and_hour_total (k1 k2 : Z * Z) :
  by_day_and_hour k1 k2 = true \/ by_day_and_hour k2 k1 = true.
Proof.
  unfold by_day_and_hour.
  destruct (Z.ltb_spec (fst k1) (fst k2)), (Z.ltb_spec (fst k2) (fst k1)),
    (Z.eqb_spec (fst k1) (fst k2)), (Z.eqb_spec (fst k2) (fst k1)),
    (Z.leb_spec (snd k1) (snd k2)), (Z.leb_spec (snd k2) (snd k1));
    cbn [orb andb]; auto; lia.
Qed.

Lemma by_day_and_hour_trans (k1 k2 k3 : Z * Z) :
  by_day_and_hour k1 k2 = true -> by_day_and_hour k2 k3 = true ->
  by_day_and_hour k1 k3 = true.
Proof.
  unfold by_day_and_hour.
  destruct (Z.ltb_spec (fst k1) (fst k2)), (Z.ltb_spec (fst k2) (fst k3)),
    (Z.ltb_spec (fst k1) (fst k3)),
    (Z.eqb_spec (fst k1) (fst k2)), (Z.eqb_spec (fst k2) (fst k3)),
    (Z.eqb_spec (fst k1) (fst k3)),
    (Z.leb_spec (snd k1) (snd k2)), (Z.leb_spec (snd k2) (snd k3)),
    (Z.leb_spec (snd k1) (snd k3));
    cbn [orb andb]; intros; try reflexivity; try discriminate; lia.
Qed.

(** X22.  The rows of the prototype's [delivery_performance] come by day
    of the week and then by hour; no pair of day and hour comes twice; the
    day is from 0 to 6 and the hour from 0 to 23; and every row has an
    average delivery time (it is never null). *)
Theorem delivery_performance_rows (db : Database) (start end_ : option Z) :
  let rows := delivery_performance db start end_ in
  sorted_by (fun a b => by_day_and_hour
                          (DeliveryPerfRow.day_of_week a, DeliveryPerfRow.hour a)
                          (DeliveryPerfRow.day_of_week b, DeliveryPerfRow.hour b))
            rows
  /\ NoDup (map (fun r => (DeliveryPerfRow.day_of_week r, DeliveryPerfRow.hour r))
                rows)
  /\ forall r, In r rows ->
       0 <= DeliveryPerfRow.day_of_week r <= 6
       /\ 0 <= DeliveryPerfRow.hour r <= 23
       /\ DeliveryPerfRow.avg_delivery_seconds r <> None.
Proof.
  intros rows. unfold rows, delivery_performance.
  match goal with
  | |- context [group_by ?d ?k ?q] => set (key := k); set (query := q)
  end.
  set (leb := fun g1 g2 : Z * Z * list Sale.t => by_day_and_hour (fst g1) (fst g2)).
  set (mk := fun g : Z * Z * list Sale.t =>
               let '((day_of_week, hour), rows) := g in
               {| DeliveryPerfRow.day_of_week := day_of_week;
                  DeliveryPerfRow.hour := hour;
                  DeliveryPerfRow.avg_delivery_seconds := avg_delivery_seconds rows |}).
  assert (Q : forall s, In s query -> Sale.delivery_seconds s <> None).
  { intros s Hs.
    assert (H : In s (filter (fun s => completed_prototype s
                                       && is_not_none (Sale.delivery_seconds s))
                             (sales db))).
    { unfold query in Hs. destruct end_ as [e|], start as [b|].
      - apply filter_In in Hs. destruct Hs as [Hs _].
        apply filter_In in Hs. destruct Hs as [Hs _]. exact Hs.
      - apply filter_In in Hs. destruct Hs as [Hs _]. exact Hs.
      - apply filter_In in Hs. destruct Hs as [Hs _]. exact Hs.
      - exact Hs. }
    apply filter_In in H. destruct H as [_ H]. apply andb_true_iff in H.
    destruct (Sale.delivery_seconds s); [discriminate | destruct H; discriminate]. }
  split; [|split].
  - apply sorted_by_map.
    apply (sorted_by_weaken leb).
    + intros [[d1 h1] g1] [[d2 h2] g2] _ _ L. exact L.
    + apply order_by_sorted.
      * intros x y. apply by_day_and_hour_total.
      * intros x y z. apply by_day_and_hour_trans.
  - rewrite map_map.
    rewrite (map_ext _ fst) by (intros [[d h] g]; reflexivity).
    apply (Permutation_NoDup
             (Permutation_map fst
                (Permutation_sym
                   (order_by_perm leb
                      (group_by (pair_eq_dec Z.eq_dec Z.eq_dec) key query))))).
    rewrite group_by_keys. apply NoDup_nodup.
  - intros r Hr. apply in_map_iff in Hr. destruct Hr as [[[d h] g] [<- Hg]].
    apply order_by_In in Hg.
    assert (N := group_not_empty _ _ _ _ _ Hg).
    apply in_group_by in Hg. destruct Hg as [Hk ->].
    apply in_map_iff in Hk. destruct Hk as [s [Ek _]].
    unfold key in Ek. inversion Ek. subst d h. unfold mk.
    cbn [DeliveryPerfRow.day_of_week DeliveryPerfRow.hour
         DeliveryPerfRow.avg_delivery_seconds].
    split; [apply extract_dow_range|]. split; [apply extract_hour_range|].
    match goal with
    | |- avg_delivery_seconds ?l <> None => destruct l as [|s' g] eqn:E
    end; [contradiction|].
    assert (Hs : In s' query).
    { assert (H : In s' (s' :: g)) by (left; reflexivity).
      rewrite <- E in H. apply filter_In in H. apply H. }
    specialize (Q s' Hs). destruct (Sale.delivery_seconds s') as [n|] eqn:D;
      [|contradiction].
    unfold avg_delivery_seconds. apply (sql_avg_some _ (inject_Z n)).
    left. rewrite D. reflexivity.
Qed.

(** ** The channel filter of [top_products] *)

Lemma lower_app (a b : string) : lower (a ++ b) = (lower a ++ lower b)%string.
Proof. induction a as [|c a IH]; simpl; [reflexivity | rewrite IH; reflexivity]. Qed.

Lemma lower_ascii_plain (c : ascii) :
  c <> "%"%char /\ c <> "_"%char /\ c <> "\"%char ->
  lower_ascii c <> "%"%char /\ lower_ascii c <> "_"%char /\ lower_ascii c <> "\"%char.
Proof.
  intros H. unfold lower_ascii.
  destruct ((65 <=? nat_of_ascii c)%nat && (nat_of_ascii c <=? 90)%nat) eqn:E;
    [|exact H].
  apply andb_true_iff in E. destruct E as [E1 E2].
  apply Nat.leb_le in E1, E2.
  assert (R : forall x, (nat_of_ascii x < 97)%nat ->
                        ascii_of_nat (nat_of_ascii c + 32) <> x).
  { intros x Hx Ex. apply (f_equal nat_of_ascii) in Ex.
    rewrite nat_ascii_embedding in Ex by lia. lia. }
  repeat split; apply R; cbn; lia.
Qed.

Lemma lower_plain (s : string) : plain_text s -> plain_text (lower s).
Proof.
  unfold plain_text. induction s as [|c s IH]; intros H x Hx; [contradiction|].
  destruct Hx as [<-|Hx].
  - apply lower_ascii_plain, H. left. reflexivity.
  - apply IH; [|exact Hx]. intros y Hy. apply H. right. exact Hy.
Qed.

Lemma like_star_iff (rest : string -> bool) (s : string) :
  like_star rest s = true
  <-> exists pre suf, s = (pre ++ suf)%string /\ rest suf = true.
Proof.
  induction s as [|c s IH]; cbn [like_star].
  - rewrite orb_false_r. split.
    + intros H. exists "", "". split; [reflexivity | exact H].
    + intros [pre [suf [E H]]]. destruct pre; [|discriminate].
      simpl in E. subst suf. exact H.
  - rewrite orb_true_iff, IH. split.
    + intros [H|[pre [suf [E H]]]].
      * exists "", (String c s). split; [reflexivity | exact H].
      * exists (String c pre), suf. split; [simpl; rewrite E; reflexivity | exact H].
    + intros [pre [suf [E H]]]. destruct pre as [|c' pre].
      * left. simpl in E. subst suf. exact H.
      * right. simpl in E. inversion E. subst. eauto.
Qed.

(** A plain text followed by [%] matches the texts that begin with it. *)
Lemma like_prefix (p : string) :
  plain_text p ->
  forall s, like_at false (p ++ "%") s = true
            <-> exists post, s = (p ++ post)%string.
Proof.
  induction p as [|c p IH]; intros Hp s.
  - change (like_at false ("" ++ "%") s) with (like_star (like_at false "") s).
    rewrite like_star_iff. split.
    + intros _. exists s. reflexivity.
    + intros _. exists s, "". split; [|reflexivity].
      clear. induction s as [|c s IH]; simpl; [reflexivity | rewrite <- IH; reflexivity].
  - destruct (Hp c (or_introl eq_refl)) as [N1 [N2 N3]].
    apply Ascii.eqb_neq in N1, N2, N3.
    cbn [String.append like_at negb andb]. rewrite N1, N3.
    destruct s as [|c' s].
    + split; [discriminate | intros [post E]; discriminate].
    + rewrite N2. cbn [orb]. rewrite andb_true_iff, IH.
      * split.
        -- intros [Ec [post ->]]. apply Ascii.eqb_eq in Ec. subst c'.
           exists post. reflexivity.
        -- intros [post E]. simpl in E. inversion E. subst.
           split; [apply Ascii.eqb_refl | eauto].
      * intros y Hy. apply Hp. right. exact Hy.
Qed.



(** ** Product ranking and margin analysis side by side *)

Lemma firstn_all_below {A} (n : Z) (l : list A) :
  Z.of_nat (List.length (firstn (Z.to_nat n) l)) < n -> firstn (Z.to_nat n) l = l.
Proof.
  intros H. apply firstn_all2. rewrite length_firstn in H. lia.
Qed.

Lemma ranking_row_summary (g : ranking_key * list ranking_row) (row : RankingRow.t) :
  ranking_result_row g = Ok row ->
  (RankingRow.product_id row, RankingRow.product_name row,
   RankingRow.category_name row,
   float (or_zero (RankingRow.total_revenue row)),
   or_zero_int (RankingRow.order_count row))
  = margin_summary (product_margin_item g).
Proof.
  destruct g as [[[id name] category] rows]. unfold ranking_result_row.
  destruct (avg_unit_price rows); cbn [bind]; [|discriminate].
  intros H. inversion H. reflexivity.
Qed.

(** X24.  Product ranking and margin analysis, asked with the same dates,
    filter and limit, return the same number of products; and when the
    limit cuts nothing off they report the same products, each with the
    same name, category, revenue and order count (in their own orders). *)
Theorem ranking_and_margin_agree
    (db : Database) (date_range : option DateRangeFilter.t)
    (filters : option DimensionFilter.t) (limit : Z)
    (ranking : list ProductRankingItem.t) (margin : list ProductMarginItem.t) :
  get_product_ranking db date_range filters limit = Ok ranking ->
  get_product_margin_analysis db date_range filters limit = Ok margin ->
  List.length ranking = List.length margin
  /\ (Z.of_nat (List.length ranking) < limit ->
      Permutation (map ranking_summary ranking) (map margin_summary margin)).
Proof.
  unfold get_product_ranking, get_product_margin_analysis.
  fold (product_lines db).
  set (lines := filter (fun r => completed (ranking_sale r))
                       (_apply_filters ranking_sale (product_lines db)
                                       date_range filters)).
  set (groups := group_by ranking_key_eq_dec ranking_key_of lines).
  set (leb := fun g1 g2 : ranking_key * list ranking_row =>
                desc_leb (sum_quantity (snd g1)) (sum_quantity (snd g2))).
  intros R M.
  destruct (mapM ranking_result_row (order_by leb groups)) as [rows|] eqn:E;
    cbn [bind] in R; [|discriminate].
  unfold sql_limit in R, M. destruct (limit <? 0); cbn [bind] in R, M;
    [discriminate|].
  inversion R. inversion M. clear R M.
  assert (L := mapM_length _ _ _ E).
  assert (P1 := Permutation_length (order_by_perm leb groups)).
  assert (P2 := Permutation_length (order_by_perm by_total_price_desc groups)).
  rewrite !length_map, !length_firstn. split; [lia|].
  intros Hcut.
  rewrite !firstn_all2 by lia.
  rewrite !map_map.
  transitivity (map (fun g => margin_summary (product_margin_item g))
                    (order_by leb groups)).
  - apply mapM_Ok_inv in E. clear - E.
    induction E as [|g row l l' Hg _ IH]; [constructor|].
    cbn [map]. rewrite <- (ranking_row_summary g row Hg).
    apply perm_skip. exact IH.
  - apply Permutation_map.
    rewrite (order_by_perm leb groups).
    symmetry. apply order_by_perm.
Qed.

Lemma ranking_and_margin_agree_witness :
  exists ranking margin,
    get_product_ranking Examples.burger_db None None 10 = Ok ranking
    /\ get_product_margin_analysis Examples.burger_db None None 10 = Ok margin
    /\ List.length ranking = 1%nat
    /\ Permutation (map ranking_summary ranking) (map margin_summary margin).
Proof.
  destruct (get_product_ranking Examples.burger_db None None 10)
    as [ranking|] eqn:R; [|vm_compute in R; discriminate].
  destruct (get_product_margin_analysis Examples.burger_db None None 10)
    as [margin|] eqn:M; [|vm_compute in M; discriminate].
  exists ranking, margin. split; [reflexivity|]. split; [reflexivity|].
  assert (L : List.length ranking = 1%nat)
    by (vm_compute in R; inversion R; reflexivity).
  split; [exact L|].
  apply (proj2 (ranking_and_margin_agree _ _ _ _ _ _ R M)).
  rewrite L. reflexivity.
Defined.
